(** * AI4Water: hyper-parameter search space and experiment orchestration

    A shallow embedding of
      - [ai4water/hyperopt/_space.py]   (Real, Integer, Categorical),
      - [ai4water/models/__init__.py]   (the layers of MLP and LSTM),
      - [ai4water/experiments/_dl.py]   (static search space and builders of
                                         the DL experiments),
      - [ai4water/experiments/_main.py] (the [Experiments] base class)
    together with the properties of these programs that the design document
    states.

    Python floats are IEEE binary64 numbers, rendered as Rocq's primitive
    floats; Python ints are [Z]; dictionaries are [gmap]s keyed by strings;
    an object is a record of its attributes; a method that mutates [self] is
    a function in a state-and-exception monad over that record. *)

From Stdlib Require Import ZArith Floats.
From stdpp Require Import gmap strings list fin_maps pretty.

Open Scope Z_scope.

(* Decimal literals such as 0.001 denote the nearest binary64 value, as in
   Python. *)
Set Warnings "-inexact-float".

(* ===================================================================== *)
(** * Python values and exceptions                                        *)
(* ===================================================================== *)

Module Py.

(** The exceptions the modelled code can raise.  [CollaboratorError] stands
    for whatever an external library (the trainable model, the metrics
    library, numpy) raises on its own. *)
Inductive exn :=
  | AssertionError
  | AttributeError
  | KeyError
  | TypeError
  | ValueError
  | NotImplementedError
  | IndexError
  | CollaboratorError (msg : string).

Inductive result (A : Type) :=
  | Ok (a : A)
  | Raise (e : exn).
Arguments Ok {A} a.
Arguments Raise {A} e.

Definition is_ok {A} (r : result A) : bool :=
  match r with Ok _ => true | Raise _ => false end.

(** Sequencing of computations that may raise. *)
Definition rbind {A B} (r : result A) (f : A -> result B) : result B :=
  match r with Ok a => f a | Raise e => Raise e end.

Notation "'let!' x ':=' m 'in' k" := (rbind m (fun x => k))
  (at level 10, x name, m at level 100, k at level 200,
   format "'[v' 'let!'  x  ':='  m  'in' '/' k ']'").
Notation "'let!' ' pat ':=' m 'in' k" :=
  (rbind m (fun x => match x with pat => k end))
  (at level 10, pat pattern, m at level 100, k at level 200,
   format "'[v' 'let!'  ' pat  ':='  m  'in' '/' k ']'").

(** [assert c] *)
Definition py_assert (c : bool) : result unit :=
  if c then Ok tt else Raise AssertionError.

(** [for x in l: assert c(x)] *)
Fixpoint assert_each {A} (c : A -> bool) (l : list A) : result unit :=
  match l with
  | [] => Ok tt
  | x :: r => let! _ := py_assert (c x) in assert_each c r
  end.

(** Plain data as it appears in keyword arguments, configurations and JSON. *)
#[warnings="-register-all"]
Inductive pyval :=
  | VNone
  | VBool (b : bool)
  | VInt (z : Z)
  | VFloat (f : float)
  | VStr (s : string)
  | VList (l : list pyval)
  | VDict (d : list (string * pyval)).

(** Keyword arguments and flat dictionaries. *)
Abbreviation kwargs := (gmap string pyval).

(** [d.get(k, default)] *)
Definition dict_get (d : kwargs) (k : string) (default : pyval) : pyval :=
  match d !! k with Some v => v | None => default end.

(** Truthiness of the values that the modelled code tests with [if x:]. *)
Definition truthy (v : pyval) : bool :=
  match v with
  | VNone => false
  | VBool b => b
  | VInt z => negb (z =? 0)
  | VFloat f => negb (PrimFloat.eqb f 0%float)
  | VStr s => negb (String.eqb s "")
  | VList l => negb (Nat.eqb (length l) 0)
  | VDict d => negb (Nat.eqb (length d) 0)
  end.

(** [math.isfinite], defined on numbers only. *)
Definition math_isfinite (v : pyval) : result bool :=
  match v with
  | VFloat f => Ok (PrimFloat.is_finite f)
  | VInt _ => Ok true
  | VBool _ => Ok true
  | _ => Raise TypeError
  end.

(** Conversion of an int to the nearest float; the primitive conversion is
    exact on the 63-bit range, which covers every bound used below. *)
Definition Z2float (z : Z) : float :=
  match z with
  | Z0 => 0%float
  | Zpos _ => PrimFloat.of_uint63 (Uint63.of_Z z)
  | Zneg p => PrimFloat.opp (PrimFloat.of_uint63 (Uint63.of_Z (Zpos p)))
  end.

(** The integer part of a float, rounded towards minus infinity.  NaN and
    the infinities have no integer value. *)
Definition float_floor (f : float) : option Z :=
  match Prim2SF f with
  | S754_zero _ => Some 0
  | S754_finite s m e =>
      let n := if s then Zneg m else Zpos m in
      Some (if 0 <=? e then n * 2 ^ e else n / 2 ^ (- e))
  | _ => None
  end.

(** Rounded towards plus infinity. *)
Definition float_ceil (f : float) : option Z :=
  option_map Z.opp (float_floor (PrimFloat.opp f)).

(** [str.startswith] *)
Definition startswith (s p : string) : bool := String.prefix p s.

(** [s.split(sep)] for a non-empty separator: scan left to right, cut at
    every occurrence of [sep], and skip the separator's characters.
    [cur] holds the characters of the current piece, [skip] the number of
    separator characters still to be dropped. *)
Fixpoint split_go (sep : string) (skip : nat) (cur : string) (s : string)
  : list string :=
  match s with
  | EmptyString => [cur]
  | String c s' =>
      match skip with
      | S k => split_go sep k cur s'
      | O =>
          if String.prefix sep s
          then cur :: split_go sep (String.length sep - 1) EmptyString s'
          else split_go sep 0 (cur +:+ String c EmptyString) s'
      end
  end.

Definition split (s sep : string) : list string := split_go sep 0 EmptyString s.

(** [l[i]] *)
Definition index {A} (l : list A) (i : nat) : result A :=
  match l !! i with Some x => Ok x | None => Raise IndexError end.

(** Dictionaries whose order matters are lists of items.
    [d[k] = v]: an existing key keeps its place and takes the new value,
    a new key goes to the end; [d.get(k)]. *)
Fixpoint setitem {V} (d : list (string * V)) (k : string) (v : V)
  : list (string * V) :=
  match d with
  | [] => [(k, v)]
  | (k', v') :: rest =>
      if String.eqb k' k then (k', v) :: rest
      else (k', v') :: setitem rest k v
  end.

Fixpoint getitem {V} (d : list (string * V)) (k : string) : option V :=
  match d with
  | [] => None
  | (k', v) :: rest => if String.eqb k' k then Some v else getitem rest k
  end.

(** [s[n:]] and [s[:n]] for [n >= 0]. *)
Fixpoint str_drop (n : nat) (s : string) : string :=
  match n, s with
  | S n', String _ s' => str_drop n' s'
  | _, _ => s
  end.

Fixpoint str_take (n : nat) (s : string) : string :=
  match n, s with
  | S n', String c s' => String c (str_take n' s')
  | _, _ => EmptyString
  end.

(** [str.endswith] *)
Definition endswith (s suffix : string) : bool :=
  (String.length suffix <=? String.length s)%nat
  && String.eqb (str_drop (String.length s - String.length suffix) s) suffix.

End Py.
Export Py.

(* ===================================================================== *)
(** * numpy: the array constructors used by the grid setters             *)
(* ===================================================================== *)

Module Numpy.

(** [range(n)] as a list of ints, [0, 1, ..., n-1]. *)
Definition iota (n : nat) : list Z := Z.of_nat <$> seq 0 n.

(** [y[-1] = v] on a non-empty array. *)
Definition set_last {A} (l : list A) (v : A) : list A :=
  <[Nat.pred (length l) := v]> l.

(** [np.linspace(start, stop, num)] with [endpoint=True]:
    a negative [num] raises; otherwise [num] points
    [start + i * step] with [step = (stop - start) / (num - 1)]
    (when the step underflows to zero the division is done first), and the
    last point is overwritten with [stop] itself when [num > 1]. *)
Definition linspace (start stop : float) (num : Z) : result (list float) :=
  if num <? 0 then Raise ValueError
  else
    let div := num - 1 in
    let delta := (stop - start)%float in
    let y := Z2float <$> iota (Z.to_nat num) in
    let y :=
      if 0 <? div then
        let step := (delta / Z2float div)%float in
        if PrimFloat.eqb step 0%float
        then (fun i => (i / Z2float div * delta)%float) <$> y
        else (fun i => (i * step)%float) <$> y
      else (fun i => (i * delta)%float) <$> y in
    let y := (fun v => (v + start)%float) <$> y in
    Ok (if 1 <? num then set_last y stop else y).

(** Wrap-around of a 32-bit signed integer. *)
Definition wrap_int32 (z : Z) : Z := (z + 2 ^ 31) mod 2 ^ 32 - 2 ^ 31.

(** [astype(np.int32)] of a float that was floored first.  A value that
    has no int32 (NaN, an infinity, a number outside the 32-bit range)
    becomes the most negative int32, as the x86 conversion instruction
    produces; there is no wrap-around. *)
Definition float_to_int32 (f : float) : Z :=
  match float_floor f with
  | Some z => if (- 2 ^ 31 <=? z) && (z <? 2 ^ 31) then z else - 2 ^ 31
  | None => - 2 ^ 31
  end.

(** [np.linspace(start, stop, num, dtype=np.int32)]: the float points are
    floored and cast. *)
Definition linspace_int32 (start stop : Z) (num : Z) : result (list Z) :=
  let! y := linspace (Z2float start) (Z2float stop) num in
  Ok (float_to_int32 <$> y).

(** The number of elements of [np.arange(start, stop, step)] for ints:
    [ceil((stop - start) / step)], at least zero. *)
Definition arange_len (start stop step : Z) : nat :=
  Z.to_nat (- ((- (stop - start)) / step)).

(** [np.arange(start, stop, step, dtype=np.int32)] on ints; a zero step
    raises. *)
Definition arange_int32 (start stop step : Z) : result (list Z) :=
  if step =? 0 then Raise (CollaboratorError "ZeroDivisionError")
  else Ok ((fun i => wrap_int32 (start + i * step)) <$> iota (arange_len start stop step)).

(** [np.arange(start, stop, step)] on floats: the length is
    [ceil((stop - start) / step)] computed in floating point, the points
    are [start + i * delta] with [delta = (start + step) - start]. *)
Definition arange (start stop step : float) : result (list float) :=
  match float_ceil ((stop - start) / step)%float with
  | None => Raise ValueError
  | Some n =>
      let delta := (start + step - start)%float in
      Ok ((fun i => (start + Z2float i * delta)%float) <$> iota (Z.to_nat n))
  end.

(** [np.min] and [np.max]; both raise on an empty array. *)
Definition fmin (a b : float) : float := if PrimFloat.ltb b a then b else a.
Definition fmax (a b : float) : float := if PrimFloat.ltb a b then b else a.

Definition np_min (l : list float) : result float :=
  match l with [] => Raise ValueError | x :: r => Ok (foldl fmin x r) end.
Definition np_max (l : list float) : result float :=
  match l with [] => Raise ValueError | x :: r => Ok (foldl fmax x r) end.

Definition np_min_int (l : list Z) : result Z :=
  match l with [] => Raise ValueError | x :: r => Ok (foldl Z.min x r) end.
Definition np_max_int (l : list Z) : result Z :=
  match l with [] => Raise ValueError | x :: r => Ok (foldl Z.max x r) end.

End Numpy.

(* ===================================================================== *)
(** * hyperopt/_space.py: Real, Integer, Categorical                      *)
(* ===================================================================== *)

Module Space.
Import Numpy.

(** The class-level attribute [counter = 0] of [Real] and of [Integer]. *)
Record ClassAttrs := { counter : Z }.

Definition class_initial : ClassAttrs := {| counter := 0 |}.

(** A [Real] instance: the attributes assigned by [Real.__init__]
    ([counter], [num_samples], [step], [_grid]) and the ones the skopt base
    class keeps ([low], [high], [prior], [name]). *)
Record Real := {
  r_counter : Z;
  r_num_samples : option Z;
  r_step : option Z;
  r_low : float;
  r_high : float;
  r_prior : string;
  r_name : string;
  r_grid : option (list float);
}.

Record Integer := {
  i_counter : Z;
  i_num_samples : option Z;
  i_step : option Z;
  i_low : Z;
  i_high : Z;
  i_prior : string;
  i_name : string;
  i_grid : option (list Z);
}.

(** [Categorical] adds no attribute to the skopt base class. *)
Record Categorical := {
  c_categories : list pyval;
  c_prior : option (list float);
  c_name : option string;
}.

(** [if self.num_samples:] and [elif self.step:] on an optional int. *)
Definition given (x : option Z) : bool :=
  match x with Some z => negb (z =? 0) | None => false end.

(** The [grid] setter of [Real]. *)
Definition Real_grid_setter (low high : float) (num_samples step : option Z)
    (x : option (list float)) : result (option (list float)) :=
  match x with
  | None =>
      if given num_samples then
        let! g := linspace low high (default 0 num_samples) in Ok (Some g)
      else if given step then
        let! g := arange low high (Z2float (default 0 step)) in Ok (Some g)
      else Ok None
  | Some x => Ok (Some x)
  end.

(** The [grid] setter of [Integer]. *)
Definition Integer_grid_setter (low high : Z) (num_samples step : option Z)
    (x : option (list Z)) : result (option (list Z)) :=
  match x with
  | None =>
      if given num_samples then
        let! g := linspace_int32 low high (default 0 num_samples) in Ok (Some g)
      else if given step then
        let! g := arange_int32 low high (default 0 step) in Ok (Some g)
      else Ok None
  | Some x => Ok (Some x)
  end.

(** [Categorical.grid] *)
Definition Categorical_grid (c : Categorical) : list pyval := c_categories c.

(** The arguments of a constructor call that passes no name. *)
Record unnamed_args (A : Type) := {
  a_low : option A;
  a_high : option A;
  a_num_samples : option Z;
  a_step : option Z;
  a_grid : option (list A);
  a_prior : option string;
}.
Arguments a_low {A}.
Arguments a_high {A}.
Arguments a_num_samples {A}.
Arguments a_step {A}.
Arguments a_grid {A}.
Arguments a_prior {A}.

(** What the installed skopt contributes: its version string and the
    validation its [Real.__init__] and [Integer.__init__] perform on the
    bounds and the prior. *)
Class Skopt := {
  skopt_version : string;
  skopt_Real_init : float -> float -> string -> result unit;
  skopt_Integer_init : Z -> Z -> string -> result unit;
}.

Section Constructors.
Context {skopt : Skopt}.

(** [check_prior]: the prior that reaches the base class; without a
    [prior] keyword the base class uses its default, ["uniform"]. *)
Definition check_prior (prior : option string) : string :=
  match prior with
  | None => "uniform"
  | Some p =>
      if bool_decide (p ∈ ["log"]) && bool_decide (skopt_version ∈ ["0.9.0"])
      then "log-uniform" else p
  end.

(** [Real.__init__].  [self.counter += 1] reads [counter] through the
    instance, finds the class attribute, and stores the sum as a new
    instance attribute; the class attribute itself is left as it was, so the
    class state is returned unchanged. *)
Definition Real_init (cls : ClassAttrs)
    (low high : option float) (num_samples step : option Z)
    (grid : option (list float)) (name prior : option string)
  : ClassAttrs * result Real :=
  (cls,
   let! '(low, high) :=
     match low with
     | None =>
         let! _ := py_assert (bool_decide (is_Some grid)) in
         let! lo := np_min (default [] grid) in
         let! hi := np_max (default [] grid) in
         Ok (lo, Some hi)
     | Some lo => Ok (lo, high)
     end in
   let self_counter := counter cls + 1 in
   let name := match name with
               | None => "real_" +:+ pretty self_counter
               | Some n => n
               end in
   let prior := check_prior prior in
   let! high := match high with Some h => Ok h | None => Raise TypeError end in
   let! _ := skopt_Real_init low high prior in
   let! g := Real_grid_setter low high num_samples step grid in
   Ok {| r_counter := self_counter; r_num_samples := num_samples;
         r_step := step; r_low := low; r_high := high; r_prior := prior;
         r_name := name; r_grid := g |}).

(** [Integer.__init__] *)
Definition Integer_init (cls : ClassAttrs)
    (low high : option Z) (num_samples step : option Z)
    (grid : option (list Z)) (name prior : option string)
  : ClassAttrs * result Integer :=
  (cls,
   let! '(low, high) :=
     match low with
     | None =>
         let! _ := py_assert (bool_decide (is_Some grid)) in
         let! lo := np_min_int (default [] grid) in
         let! hi := np_max_int (default [] grid) in
         Ok (lo, Some hi)
     | Some lo => Ok (lo, high)
     end in
   let self_counter := counter cls + 1 in
   let name := match name with
               | None => "integer_" +:+ pretty self_counter
               | Some n => n
               end in
   let prior := check_prior prior in
   let! high := match high with Some h => Ok h | None => Raise TypeError end in
   let! _ := skopt_Integer_init low high prior in
   let! g := Integer_grid_setter low high num_samples step grid in
   Ok {| i_counter := self_counter; i_num_samples := num_samples;
         i_step := step; i_low := low; i_high := high; i_prior := prior;
         i_name := name; i_grid := g |}).

Definition Real_unnamed (cls : ClassAttrs) (a : unnamed_args float)
  : ClassAttrs * result Real :=
  Real_init cls (a_low a) (a_high a) (a_num_samples a) (a_step a) (a_grid a)
    None (a_prior a).

Definition Integer_unnamed (cls : ClassAttrs) (a : unnamed_args Z)
  : ClassAttrs * result Integer :=
  Integer_init cls (a_low a) (a_high a) (a_num_samples a) (a_step a) (a_grid a)
    None (a_prior a).

(** A program that creates unnamed parameters one after the other,
    threading the class state; it returns the final class state and the
    names of the parameters that were constructed. *)
Fixpoint Real_names (cls : ClassAttrs) (calls : list (unnamed_args float))
  : ClassAttrs * list string :=
  match calls with
  | [] => (cls, [])
  | a :: rest =>
      let '(cls1, r) := Real_unnamed cls a in
      let '(cls2, names) := Real_names cls1 rest in
      (cls2, match r with Ok p => r_name p :: names | Raise _ => names end)
  end.

Fixpoint Integer_names (cls : ClassAttrs) (calls : list (unnamed_args Z))
  : ClassAttrs * list string :=
  match calls with
  | [] => (cls, [])
  | a :: rest =>
      let '(cls1, r) := Integer_unnamed cls a in
      let '(cls2, names) := Integer_names cls1 rest in
      (cls2, match r with Ok p => i_name p :: names | Raise _ => names end)
  end.

End Constructors.

(** ** Serialization *)

Definition opt_int (x : option Z) : pyval :=
  match x with Some z => VInt z | None => VNone end.

(** [self.__dict__] of a [Real], values passed through [Jsonize] (arrays
    become lists).  The base class stores the name as [_name].  The
    dictionaries show the attributes that this module assigns and the
    bounds, the prior and the name; what else skopt keeps on its objects
    (the transformer, for one) is left out. *)
Definition Real_dict (r : Real) : kwargs :=
  <["counter" := VInt (r_counter r)]>
  (<["num_samples" := opt_int (r_num_samples r)]>
  (<["step" := opt_int (r_step r)]>
  (<["low" := VFloat (r_low r)]>
  (<["high" := VFloat (r_high r)]>
  (<["prior" := VStr (r_prior r)]>
  (<["_name" := VStr (r_name r)]>
  (<["_grid" := match r_grid r with
                | Some g => VList (VFloat <$> g) | None => VNone end]> ∅))))))).

Definition Integer_dict (i : Integer) : kwargs :=
  <["counter" := VInt (i_counter i)]>
  (<["num_samples" := opt_int (i_num_samples i)]>
  (<["step" := opt_int (i_step i)]>
  (<["low" := VInt (i_low i)]>
  (<["high" := VInt (i_high i)]>
  (<["prior" := VStr (i_prior i)]>
  (<["_name" := VStr (i_name i)]>
  (<["_grid" := match i_grid i with
                | Some g => VList (VInt <$> g) | None => VNone end]> ∅))))))).

Definition Categorical_dict (c : Categorical) : kwargs :=
  <["categories" := VList (c_categories c)]>
  (<["prior" := match c_prior c with
                | Some p => VList (VFloat <$> p) | None => VNone end]>
  (<["_name" := match c_name c with Some n => VStr n | None => VNone end]> ∅)).

(** [Real.serialize]: [_raum.update({'type': 'Real'})] *)
Definition Real_serialize (r : Real) : kwargs :=
  <["type" := VStr "Real"]> (Real_dict r).

(** [Integer.serialize]: [_raum.update({'type': 'Integer'})] *)
Definition Integer_serialize (i : Integer) : kwargs :=
  <["type" := VStr "Integer"]> (Integer_dict i).

(** [Categorical.serialize]: [_raum.update({'type': 'Integer'})] *)
Definition Categorical_serialize (c : Categorical) : kwargs :=
  <["type" := VStr "Integer"]> (Categorical_dict c).

(** The three kinds of parameter, and the class name of each. *)
Inductive Dimension :=
  | PReal (r : Real)
  | PInteger (i : Integer)
  | PCategorical (c : Categorical).

Definition class_name (p : Dimension) : string :=
  match p with
  | PReal _ => "Real"
  | PInteger _ => "Integer"
  | PCategorical _ => "Categorical"
  end.

Definition serialize (p : Dimension) : kwargs :=
  match p with
  | PReal r => Real_serialize r
  | PInteger i => Integer_serialize i
  | PCategorical c => Categorical_serialize c
  end.

(** What an attribute that is meant to hold a search space can be bound
    to: [None], a list of dimensions, or one dimension.  The same type
    serves for the entries of a [param_space] list. *)
Inductive space_attr :=
  | SpNone
  | SpList (l : list Dimension)
  | SpDim (d : Dimension).

(** [if space:] -- a dimension object is always true, a list when it is
    not empty. *)
Definition space_truthy (s : space_attr) : bool :=
  match s with
  | SpNone => false
  | SpList l => negb (Nat.eqb (length l) 0)
  | SpDim _ => true
  end.

(** ** Translations for the other search back ends *)

(** A call [<fn>(label, low, high)] of one of the distributions of
    hyperopt. *)
Record hp_call (A : Type) := {
  hp_fn : string;
  hp_label : string;
  hp_low : A;
  hp_high : A;
}.
Arguments hp_fn {A}.
Arguments hp_label {A}.
Arguments hp_low {A}.
Arguments hp_high {A}.

(** [getattr(hp, fn)] for the name [fn] of a distribution.  The module
    binds [hp] by [from ai4water.backend import hyperopt as hp] and, when
    it is not [None], reads [hp.space_eval] from it: [hp] is the package
    [hyperopt] itself or [None], not the submodule [hyperopt.hp] in which
    hyperopt defines [uniform], [loguniform], [randint], [choice] and the
    other distributions.  Neither the package nor [None] has an attribute
    of such a name, so reading it raises an AttributeError. *)
Definition hp_getattr {A} (fn : string)
  : result (string -> A -> A -> hp_call A) :=
  Raise AttributeError.

(** [Real.as_hp]; the flag [as_named_args] only decides whether the same
    arguments are passed by position or by keyword. *)
Definition Real_as_hp (r : Real) : result (hp_call float) :=
  if String.eqb (r_prior r) "log-uniform" then
    let! loguniform := hp_getattr "loguniform" in
    Ok (loguniform (r_name r) (r_low r) (r_high r))
  else
    let! _ := py_assert (bool_decide
      (r_prior r ∈ ["uniform"; "loguniform"; "normal"; "lognormal";
                    "quniform"; "qloguniform"; "qnormal"; "qlognormal"])) in
    let! distribution := hp_getattr (r_prior r) in
    Ok (distribution (r_name r) (r_low r) (r_high r)).

(** [Integer.as_hp] *)
Definition Integer_as_hp (i : Integer) : result (hp_call Z) :=
  let! randint := hp_getattr "randint" in
  Ok (randint (i_name i) (i_low i) (i_high i)).

(** The keyword arguments of [_trial.suggest_float] and of
    [_trial.suggest_int]. *)
Record suggest_call (A : Type) := {
  sg_name : string;
  sg_low : A;
  sg_high : A;
  sg_step : option Z;
  sg_log : bool;
}.
Arguments sg_name {A}.
Arguments sg_low {A}.
Arguments sg_high {A}.
Arguments sg_step {A}.
Arguments sg_log {A}.

(** [log = False; if self.prior: if self.prior == 'log': log = True] *)
Definition suggest_log (prior : string) : bool :=
  if negb (String.eqb prior "") then String.eqb prior "log" else false.

(** [Real.suggest] *)
Definition Real_suggest (r : Real) : suggest_call float :=
  {| sg_name := r_name r; sg_low := r_low r; sg_high := r_high r;
     sg_step := r_step r; sg_log := suggest_log (r_prior r) |}.

(** [Integer.suggest]: [step=self.step if self.step else 1] *)
Definition Integer_suggest (i : Integer) : suggest_call Z :=
  {| sg_name := i_name i; sg_low := i_low i; sg_high := i_high i;
     sg_step := Some (if given (i_step i) then default 0 (i_step i) else 1);
     sg_log := suggest_log (i_prior i) |}.

(** The distributions of optuna. *)
Inductive optuna_distribution :=
  | UniformDistribution (low high : float)
  | LogUniformDistribution (low high : float)
  | IntUniformDistribution (low high : Z)
  | IntLogUniformDistribution (low high : Z)
  | CategoricalDistribution (choices : list pyval).

(** [Real.to_optuna] *)
Definition Real_to_optuna (r : Real) : optuna_distribution :=
  if negb (String.eqb (r_prior r) "log")
  then UniformDistribution (r_low r) (r_high r)
  else LogUniformDistribution (r_low r) (r_high r).

(** [Integer.to_optuna] *)
Definition Integer_to_optuna (i : Integer) : optuna_distribution :=
  if negb (String.eqb (i_prior i) "log")
  then IntUniformDistribution (i_low i) (i_high i)
  else IntLogUniformDistribution (i_low i) (i_high i).

(** [Categorical.to_optuna] *)
Definition Categorical_to_optuna (c : Categorical) : optuna_distribution :=
  CategoricalDistribution (c_categories c).

(** ** [Categorical.__repr__] *)

(** An entry of a printed sequence: an element, or [_Ellipsis()], which
    prints as three dots. *)
Inductive shown (A : Type) :=
  | Item (a : A)
  | Ellipsis.
Arguments Item {A} a.
Arguments Ellipsis {A}.

(** [l[:3] + (_Ellipsis(),) + l[-3:]] when [len(l) > 7], [l] otherwise. *)
Definition abbreviate {A} (l : list A) : list (shown A) :=
  if (7 <? length l)%nat
  then (Item <$> take 3 l) ++ [Ellipsis] ++ (Item <$> drop (length l - 3) l)
  else Item <$> l.

(** The values of [cats] and of [prior] that [__repr__] formats. *)
Definition Categorical_repr_cats (c : Categorical) : list (shown pyval) :=
  abbreviate (c_categories c).

Definition Categorical_repr_prior (c : Categorical)
  : option (list (shown float)) :=
  abbreviate <$> c_prior c.

End Space.

(* ===================================================================== *)
(** * models/__init__.py: the layers of MLP and LSTM                      *)
(* ===================================================================== *)

Module Models.

(** A network is a dictionary from layer names to layer configurations;
    a Python dictionary keeps its keys in the order of their first
    insertion, and that order is the order of the layers.
    [layers.update({name: config})] is [setitem]. *)
Abbreviation layers := (list (string * kwargs)).

(** [_check_length] *)
Definition _check_length (parameter : pyval) (num_layers : Z)
  : result (list pyval) :=
  match parameter with
  | VList l =>
      let! _ := py_assert (Z.of_nat (length l) =? num_layers) in
      Ok l
  | _ => Ok (replicate (Z.to_nat num_layers) parameter)
  end.

(** [_dropout and _dropout > 0.0] as a condition: a false value ends the
    test, the comparison is defined on numbers only. *)
Definition positive (v : pyval) : result bool :=
  if truthy v then
    match v with
    | VInt z => Ok (0 <? z)
    | VBool b => Ok (0 <? Z.b2z b)
    | VFloat f => Ok (PrimFloat.ltb 0 f)
    | _ => Raise TypeError
    end
  else Ok false.

(** The units and the activation of the output layer: without an
    activation, a classifier gets [softmax] over all classes when there
    are more than two, and one [sigmoid] unit otherwise. *)
Definition output_config (mode : string) (output_features : Z)
    (output_activation : pyval) : Z * pyval :=
  match output_activation with
  | VNone =>
      if String.eqb mode "classification" then
        if 2 <? output_features
        then (output_features, VStr "softmax")
        else (1, VStr "sigmoid")
      else (output_features, output_activation)
  | _ => (output_features, output_activation)
  end.

(** [_make_output_layer] *)
Definition _make_output_layer (l : layers) (mode : string)
    (output_features : Z) (output_activation : pyval) : layers :=
  let '(output_features, output_activation) :=
    output_config mode output_features output_activation in
  setitem l "Dense_out"
    (<["units" := VInt output_features]>
       (<["activation" := output_activation]> ∅)).

(** [for idx, lyr in enumerate(range(num_layers)): ...] with the
    dictionary of layers as the loop state. *)
Fixpoint for_range (idxs : list nat) (body : layers -> nat -> result layers)
    (l : layers) : result layers :=
  match idxs with
  | [] => Ok l
  | idx :: rest => let! l := body l idx in for_range rest body l
  end.

(** [{"Input": {"shape": input_shape}}], or [{}] without a shape. *)
Definition input_layer (input_shape : option (list pyval)) : layers :=
  match input_shape with
  | None => []
  | Some shape => [("Input", {["shape" := VList shape]})]
  end.

(** The end of the loop body: the optional Dropout layer. *)
Definition add_dropout (l : layers) (_dropout : pyval) : result layers :=
  let! on := positive _dropout in
  Ok (if on then setitem l "Dropout" {["rate" := _dropout]} else l).

(** [MLP]; the result is the value under the only key, [layers], of the
    dictionary that is returned. *)
Definition MLP (units : pyval) (num_layers : Z)
    (input_shape : option (list pyval)) (output_features : Z)
    (activation dropout : pyval) (mode : string) (output_activation : pyval)
    (kwargs : kwargs) : result layers :=
  let! _ := py_assert (1 <=? num_layers) in
  let! units := _check_length units num_layers in
  let! dropout := _check_length dropout num_layers in
  let! activation := _check_length activation num_layers in
  let l := input_layer input_shape in
  let! l :=
    for_range (seq 0 (Z.to_nat num_layers)) (fun l lyr =>
      let! u := index units lyr in
      let! a := index activation lyr in
      let config := kwargs ∪ (<["units" := u]> (<["activation" := a]> ∅)) in
      let l := setitem l ("Dense_" +:+ pretty lyr) config in
      let! _dropout := index dropout lyr in
      add_dropout l _dropout) l in
  let l := setitem l "Flatten" ∅ in
  Ok (_make_output_layer l mode output_features output_activation).

(** [LSTM] *)
Definition LSTM (units : pyval) (num_layers : Z)
    (input_shape : option (list pyval)) (output_features : Z)
    (activation dropout : pyval) (mode : string) (output_activation : pyval)
    (kwargs : kwargs) : result layers :=
  let! _ := py_assert (1 <=? num_layers) in
  let l := input_layer input_shape in
  let! _ := match input_shape with
            | None => Ok tt
            | Some shape => py_assert (2 <=? length shape)%nat
            end in
  let! units := _check_length units num_layers in
  let! dropout := _check_length dropout num_layers in
  let! activation := _check_length activation num_layers in
  let! l :=
    for_range (seq 0 (Z.to_nat num_layers)) (fun l lyr =>
      let return_sequences := negb (Z.of_nat lyr + 1 =? num_layers) in
      let! u := index units lyr in
      let! a := index activation lyr in
      let config :=
        kwargs ∪ (<["units" := u]> (<["activation" := a]>
                   (<["return_sequences" := VBool return_sequences]> ∅))) in
      let l := setitem l ("LSTM_" +:+ pretty lyr) config in
      let! _dropout := index dropout lyr in
      add_dropout l _dropout) l in
  let l := setitem l "Flatten" ∅ in
  Ok (_make_output_layer l mode output_features output_activation).

End Models.

(* ===================================================================== *)
(** * experiments/_dl.py: the static search space                         *)
(* ===================================================================== *)

Module DL.
Import Space.

(** The attributes of a [DLRegressionExperiments] that the static space
    reads. *)
Record DLRegressionExperiments := {
  lookback_space : space_attr;
  batch_size_space : space_attr;
  lr_space : space_attr;
  model_kws : kwargs;
}.

(** The property [static_space]. *)
Definition static_space (self : DLRegressionExperiments) : list space_attr :=
  let _space := [] in
  let _space := if space_truthy (lookback_space self)
                then _space ++ [lookback_space self] else _space in
  let _space := if space_truthy (batch_size_space self)
                then _space ++ [batch_size_space self] else _space in
  let _space := if space_truthy (lr_space self)
                then _space ++ [lr_space self] else _space in
  _space.

(** The property [static_x0]. *)
Definition static_x0 (self : DLRegressionExperiments) : list pyval :=
  let _x0 := [] in
  let _x0 := if space_truthy (lookback_space self)
             then _x0 ++ [dict_get (model_kws self) "lookback" (VInt 5)] else _x0 in
  let _x0 := if space_truthy (batch_size_space self)
             then _x0 ++ [dict_get (model_kws self) "batch_size" (VInt 32)] else _x0 in
  let _x0 := if space_truthy (lr_space self)
             then _x0 ++ [dict_get (model_kws self) "lr" (VFloat 0.001)] else _x0 in
  _x0.

(** The attributes as [__init__] sets them: no lookback space, a
    categorical batch size and a real learning rate. *)
Definition init_attrs (lr : Real) (model_kws : kwargs) : DLRegressionExperiments :=
  {| lookback_space := SpList [];
     batch_size_space :=
       SpDim (PCategorical
                {| c_categories := [VInt 4; VInt 8; VInt 12; VInt 16; VInt 32];
                   c_prior := None; c_name := Some "batch_size" |});
     lr_space := SpDim (PReal lr);
     model_kws := model_kws |}.

(** The three static parameters, in the order in which both properties
    visit them, with the keyword under which a user overrides the default
    point and the documented default. *)
Inductive static_param := Lookback | BatchSize | LearningRate.

Definition static_params : list static_param := [Lookback; BatchSize; LearningRate].

Definition space_of (self : DLRegressionExperiments) (p : static_param) : space_attr :=
  match p with
  | Lookback => lookback_space self
  | BatchSize => batch_size_space self
  | LearningRate => lr_space self
  end.

Definition enabled (self : DLRegressionExperiments) (p : static_param) : bool :=
  space_truthy (space_of self p).

Definition keyword (p : static_param) : string :=
  match p with
  | Lookback => "lookback"
  | BatchSize => "batch_size"
  | LearningRate => "lr"
  end.

(** lookback 5, batch size 32, learning rate 0.001 *)
Definition documented_default (p : static_param) : pyval :=
  match p with
  | Lookback => VInt 5
  | BatchSize => VInt 32
  | LearningRate => VFloat 0.001
  end.

(** ** The builder methods *)

(** ["lookback" in x]: a key of a dictionary, an element of a list, a
    part of a string; other values are not containers. *)
Definition contains (x : pyval) (k : string) : result bool :=
  match x with
  | VDict d => Ok (bool_decide (is_Some (getitem d k)))
  | VList l =>
      Ok (existsb (fun e => match e with
                            | VStr s => String.eqb s k
                            | _ => false
                            end) l)
  | VStr s => Ok (bool_decide (is_Some (String.index 0 k s)))
  | _ => Raise TypeError
  end.

(** [x["lookback"]]: lists and strings are indexed by integers only. *)
Definition subscript (x : pyval) (k : string) : result pyval :=
  match x with
  | VDict d => match getitem d k with Some v => Ok v | None => Raise KeyError end
  | _ => Raise TypeError
  end.

(** One entry of the table [spaces]:
    [{"param_space": [...], "x0": [...]}]. *)
Record space_entry := {
  se_param_space : list space_attr;
  se_x0 : list pyval;
}.

(** The object as the builder methods see it: the attributes of the
    static space, the names of the input features, the table [spaces] that
    [__init__] obtains from [dl_space], and the two attributes that the
    builders rebind. *)
Record DLObject := {
  attrs : DLRegressionExperiments;
  input_features : list string;
  spaces : gmap string space_entry;
  param_space : option (list space_attr);
  x0 : option (list pyval);
}.

(** The property [input_shape], from the two attributes that it reads. *)
Definition shape_of (input_features : list string) (model_kws : kwargs)
  : result (list pyval) :=
  let features := VInt (Z.of_nat (length input_features)) in
  match model_kws !! "ts_args" with
  | Some ts_args =>
      let! has := contains ts_args "lookback" in
      if has then
        let! lookback := subscript ts_args "lookback" in
        Ok [lookback; features]
      else Ok [features]
  | None => Ok [features]
  end.

Definition input_shape (self : DLObject) : result (list pyval) :=
  shape_of (input_features self) (model_kws (attrs self)).

(** The seven methods [model_MLP], ..., [model_TFT] have one body; they
    differ in the key of [spaces] and in the function of
    [ai4water.models] that they call as [net(input_shape=..., **kwargs)].
    The two assignments come first and stay when a later step raises.
    Python rejects the call when [kwargs] holds [input_shape] as well: the
    keyword would arrive twice. *)
Definition model (name : string) (net : list pyval -> kwargs -> result pyval)
    (self : DLObject) (kws : kwargs) : DLObject * result kwargs :=
  match spaces self !! name with
  | None => (self, Raise KeyError)
  | Some entry =>
      let self :=
        {| attrs := attrs self; input_features := input_features self;
           spaces := spaces self;
           param_space := Some (se_param_space entry ++ static_space (attrs self));
           x0 := Some (se_x0 entry ++ static_x0 (attrs self)) |} in
      (self,
       let _kwargs := filter (fun kv => kv.1 ∈ ["batch_size"; "lr"]) kws in
       let kws := delete "lr" (delete "batch_size" kws) in
       let! shape := input_shape self in
       let! _ := if bool_decide (is_Some (kws !! "input_shape"))
                 then Raise TypeError else Ok tt in
       let! m := net shape kws in
       Ok (_kwargs ∪ {["model" := m]}))
  end.

Section Networks.
(** The functions of [ai4water.models]. *)
Context (MLP LSTM CNN CNNLSTM LSTMAutoEncoder TCN TFT
         : list pyval -> kwargs -> result pyval).

Definition model_MLP := model "MLP" MLP.
Definition model_LSTM := model "LSTM" LSTM.
Definition model_CNN := model "CNN" CNN.
Definition model_CNNLSTM := model "CNNLSTM" CNNLSTM.
Definition model_LSTMAutoEncoder := model "LSTMAutoEncoder" LSTMAutoEncoder.
Definition model_TCN := model "TCN" TCN.
Definition model_TFT := model "TFT" TFT.

End Networks.

End DL.

(* ===================================================================== *)
(** * experiments/_main.py: the Experiments base class                    *)
(* ===================================================================== *)

Module Exp.
Import Space.

(** [os.sep] and [os.path.join] on relative components. *)
Definition SEP : string := "/".
Definition path_join (a b : string) : string := a +:+ SEP +:+ b.

Inductive Mode := regression | classification.

(** The module-level table [Monitor]. *)
Definition Monitor (m : Mode) : list string :=
  match m with
  | regression =>
      ["r2"; "corr_coeff"; "mse"; "rmse"; "r2_score"; "nse"; "kge"; "mape";
       "pbias"; "bias"; "mae"; "nrmse"; "mase"]
  | classification => ["accuracy"; "precision"; "recall"; "mse"]
  end.

(** The classes of this repository's sources: the two subclasses defined
    next to the base class, and any other subclass that supplies the
    properties [mode] and [tpot_estimator] and nothing else ([None] is the
    base class itself, whose [mode] raises). *)
Inductive ExpClass :=
  | Subclass (mode : option Mode)
  | TransformationExperiments
  | DLRegressionExperiments.

(** An argument that accepts [None], one name, or a list of names. *)
Inductive names_arg :=
  | NoNames
  | OneName (s : string)
  | Names (l : list string).

(** Keyword options of the metrics calculators. *)
Record metric_opts := {
  remove_zero : bool;
  remove_neg : bool;
  multiclass : bool;
}.

(** One entry of the dictionary returned by [clear_weights]. *)
Record checkpoint := { ck_path : string; ck_weights : string }.

(** A (true, predicted) pair of arrays. *)
Abbreviation array := (list float).
Abbreviation results := (list float * list float)%type.

(** What [_build_and_run] returns: the two prediction pairs of a dry run,
    or the validation score. *)
Inductive run_out :=
  | Predictions (train test : results)
  | Score (v : pyval).

(** Modelled from the spec: the class [HyperOpt] of [ai4water.hyperopt] is
    not among the sources; section 4.4 describes it as a driver that calls
    the objective once per trial and keeps the trial history.  The record
    holds what [Experiments] reads from the optimizer object. *)
Record HyperOpt := {
  opt_method : string;
  opt_path : string;
  history : list (kwargs * pyval);
}.

(** The JSON files written below [exp_path]. *)
Inductive file_content :=
  | ConfigFile (models : list string) (cases : gmap string kwargs)
               (eval_models optimized_models : gmap string string)
  | FeaturesFile (t : gmap string (gmap string (gmap string (gmap string float))))
  | MetricsFile (t : gmap string (gmap string (gmap string float))).

(** ['model_' + m if not m.startswith('model_') else m] *)
Definition canonical (m : string) : string :=
  if startswith m "model_" then m else "model_" +:+ m.

(** [x in [...]] for a list of strings. *)
Definition in_strs (v : pyval) (l : list string) : bool :=
  match v with VStr s => bool_decide (s ∈ l) | _ => false end.

(** [v > n] for an int [n]. *)
Definition py_gt (v : pyval) (n : Z) : result bool :=
  match v with
  | VInt z => Ok (n <? z)
  | VBool b => Ok (n <? Z.b2z b)
  | VFloat f => Ok (PrimFloat.ltb (Z2float n) f)
  | _ => Raise TypeError
  end.

(** [list.remove(x)]: drops the first occurrence. *)
Fixpoint list_remove (x : string) (l : list string) : list string :=
  match l with
  | [] => []
  | y :: r => if bool_decide (x = y) then r else y :: list_remove x r
  end.

(** The metrics whose larger values are better. *)
Definition larger_is_better : list string :=
  ["r2"; "nse"; "kge"; "r2_mod"; "r2_adj"; "r2_score"; "accuracy"; "f1_score"].

(** [consider_exclude] with a list to filter: every excluded name must be
    a model and must still be in the list, from which it is removed.  The
    list is mutated in place; the mutated list is the result. *)
Fixpoint consider_exclude_loop (exclude : list string) (models : list string)
    (models_to_filter : option (list string)) : result (option (list string)) :=
  match exclude with
  | [] => Ok models_to_filter
  | elem :: rest =>
      let! _ := py_assert (bool_decide (elem ∈ models)) in
      match models_to_filter with
      | None => consider_exclude_loop rest models None
      | Some l =>
          let! _ := py_assert (bool_decide (elem ∈ l)) in
          consider_exclude_loop rest models (Some (list_remove elem l))
      end
  end.

Definition consider_exclude (exclude : names_arg) (models : list string)
    (models_to_filter : option (list string)) : result (option (list string)) :=
  let exclude := match exclude with
                 | OneName s => Names [s]
                 | e => e
                 end in
  match exclude with
  | Names l => consider_exclude_loop (canonical <$> l) models models_to_filter
  | _ => Ok models_to_filter
  end.

(** The [data] argument of [Model.predict]: the caller's data, the name of
    a split, or nothing. *)
Inductive pred_data (Data : Type) :=
  | Given (d : Data)
  | Split (name : string)
  | Unspecified.
Arguments Given {Data} d.
Arguments Split {Data} name.
Arguments Unspecified {Data}.

(** What a builder method [model_*] reads and rebinds: [param_space] and
    [x0]. *)
Abbreviation space_state := (option (list space_attr) * option (list pyval))%type.

(** ** The external collaborators

    The trainable model ([ai4water.Model]), the metrics library
    (SeqMetrics), [np.std], the checkpoint scanner [clear_weights], the
    search backend behind [HyperOpt], and what a subclass defines. *)
Class Collaborators := {
  Data : Type;
  Model : Type;
  (** [Model(prefix=..., verbosity=..., **kwargs)] *)
  Model_new : string -> pyval -> kwargs -> result Model;
  Model_from_config_file : string -> result Model;
  update_weights : Model -> string -> result Model;
  model_fit : Model -> Data -> result Model;
  model_cross_val_score : Model -> Data -> pyval -> result Model;
  (** [predict(data=..., return_true=True, process_results=...)] *)
  model_predict : Model -> pred_data Data -> bool -> result results;
  val_metric : Model -> string;
  model_config : Model -> kwargs;
  is_multiclass : Model -> bool;
  model_path : Model -> string;
  w_path : Model -> string;
  (** [getattr(model, f'cross_val_{scoring}')] *)
  cross_val_attr : Model -> string -> result pyval;
  (** [model.dh_.config['allow_nan_labels'] = 1] *)
  allow_nan_labels : Model -> result Model;

  (** [Metrics[mode](t, p, ...)] builds a calculator; [getattr(m, name)()]
      evaluates one metric. *)
  MetricsObj : Type;
  Metrics : Mode -> list float -> list float -> metric_opts -> result MetricsObj;
  metric_call : MetricsObj -> string -> result float;

  np_std : list float -> float;

  (** [clear_weights(opt_dir, rename=False, write=False)]: the ranked
      checkpoints found in the directory, keyed by name. *)
  clear_weights : string -> result (list (string * checkpoint));

  (** The search backend: how many trials it runs for a method, an
      iteration count, a space and options; the assignment it suggests
      after a given history; the best assignment of a history. *)
  backend_trials :
    string -> Z -> option (list space_attr) -> kwargs -> result nat;
  backend_suggest :
    string -> option (list space_attr) -> option (list pyval) ->
    list (kwargs * pyval) -> kwargs;
  backend_best : list (kwargs * pyval) -> kwargs;

  (** The builder methods [model_*] of the subclass, by name.  A builder
      receives the suggested parameters and returns a configuration. *)
  builders :
    list (string * (kwargs -> space_state -> result (space_state * kwargs)));

  (** The hooks of [TransformationExperiments] that a user overrides. *)
  update_paras : kwargs -> result kwargs;
  process_model_before_fit : Model -> result Model;
}.

Section State.
Context {collaborators : Collaborators}.

(** ** The object state *)

Record Experiments := {
  cls : ExpClass;
  exp_name : string;
  exp_path : string;
  cwd : string;
  verbosity : Z;
  models : list string;
  cases : gmap string kwargs;
  monitor : option (list string);
  model_kws : option kwargs;
  param_space : option (list space_attr);
  x0 : option (list pyval);
  eval_models : gmap string string;
  optimized_models : gmap string string;
  cv_scores_ : gmap string pyval;
  _cv_scoring : option string;
  metrics : gmap string (gmap string (gmap string float));
  features : gmap string (gmap string (gmap string (gmap string float)));
  iter_metrics : gmap string (gmap Z (gmap string float));
  model_iter_metric : gmap Z (gmap string float);
  iter_ : Z;
  model_ : option Model;
  optimizer : option HyperOpt;
  opt_results : option (list (kwargs * pyval));
  files : gmap string file_content;
}.

Definition set_cases (v : gmap string kwargs) (self : Experiments)
  : Experiments :=
  {| cls := cls self; exp_name := exp_name self; exp_path := exp_path self;
     cwd := cwd self; verbosity := verbosity self; models := models self;
     cases := v; monitor := monitor self; model_kws := model_kws self;
     param_space := param_space self; x0 := x0 self;
     eval_models := eval_models self;
     optimized_models := optimized_models self;
     cv_scores_ := cv_scores_ self; _cv_scoring := _cv_scoring self;
     metrics := metrics self; features := features self;
     iter_metrics := iter_metrics self;
     model_iter_metric := model_iter_metric self; iter_ := iter_ self;
     model_ := model_ self; optimizer := optimizer self;
     opt_results := opt_results self; files := files self |}.

Definition set_model_kws (v : option kwargs) (self : Experiments)
  : Experiments :=
  {| cls := cls self; exp_name := exp_name self; exp_path := exp_path self;
     cwd := cwd self; verbosity := verbosity self; models := models self;
     cases := cases self; monitor := monitor self; model_kws := v;
     param_space := param_space self; x0 := x0 self;
     eval_models := eval_models self;
     optimized_models := optimized_models self;
     cv_scores_ := cv_scores_ self; _cv_scoring := _cv_scoring self;
     metrics := metrics self; features := features self;
     iter_metrics := iter_metrics self;
     model_iter_metric := model_iter_metric self; iter_ := iter_ self;
     model_ := model_ self; optimizer := optimizer self;
     opt_results := opt_results self; files := files self |}.

Definition set_param_space (v : option (list space_attr)) (self : Experiments)
  : Experiments :=
  {| cls := cls self; exp_name := exp_name self; exp_path := exp_path self;
     cwd := cwd self; verbosity := verbosity self; models := models self;
     cases := cases self; monitor := monitor self;
     model_kws := model_kws self; param_space := v; x0 := x0 self;
     eval_models := eval_models self;
     optimized_models := optimized_models self;
     cv_scores_ := cv_scores_ self; _cv_scoring := _cv_scoring self;
     metrics := metrics self; features := features self;
     iter_metrics := iter_metrics self;
     model_iter_metric := model_iter_metric self; iter_ := iter_ self;
     model_ := model_ self; optimizer := optimizer self;
     opt_results := opt_results self; files := files self |}.

Definition set_x0 (v : option (list pyval)) (self : Experiments)
  : Experiments :=
  {| cls := cls self; exp_name := exp_name self; exp_path := exp_path self;
     cwd := cwd self; verbosity := verbosity self; models := models self;
     cases := cases self; monitor := monitor self;
     model_kws := model_kws self; param_space := param_space self; x0 := v;
     eval_models := eval_models self;
     optimized_models := optimized_models self;
     cv_scores_ := cv_scores_ self; _cv_scoring := _cv_scoring self;
     metrics := metrics self; features := features self;
     iter_metrics := iter_metrics self;
     model_iter_metric := model_iter_metric self; iter_ := iter_ self;
     model_ := model_ self; optimizer := optimizer self;
     opt_results := opt_results self; files := files self |}.

Definition set_eval_models (v : gmap string string) (self : Experiments)
  : Experiments :=
  {| cls := cls self; exp_name := exp_name self; exp_path := exp_path self;
     cwd := cwd self; verbosity := verbosity self; models := models self;
     cases := cases self; monitor := monitor self;
     model_kws := model_kws self; param_space := param_space self;
     x0 := x0 self; eval_models := v;
     optimized_models := optimized_models self;
     cv_scores_ := cv_scores_ self; _cv_scoring := _cv_scoring self;
     metrics := metrics self; features := features self;
     iter_metrics := iter_metrics self;
     model_iter_metric := model_iter_metric self; iter_ := iter_ self;
     model_ := model_ self; optimizer := optimizer self;
     opt_results := opt_results self; files := files self |}.

Definition set_optimized_models (v : gmap string string) (self : Experiments)
  : Experiments :=
  {| cls := cls self; exp_name := exp_name self; exp_path := exp_path self;
     cwd := cwd self; verbosity := verbosity self; models := models self;
     cases := cases self; monitor := monitor self;
     model_kws := model_kws self; param_space := param_space self;
     x0 := x0 self; eval_models := eval_models self; optimized_models := v;
     cv_scores_ := cv_scores_ self; _cv_scoring := _cv_scoring self;
     metrics := metrics self; features := features self;
     iter_metrics := iter_metrics self;
     model_iter_metric := model_iter_metric self; iter_ := iter_ self;
     model_ := model_ self; optimizer := optimizer self;
     opt_results := opt_results self; files := files self |}.

Definition set_cv_scores_ (v : gmap string pyval) (self : Experiments)
  : Experiments :=
  {| cls := cls self; exp_name := exp_name self; exp_path := exp_path self;
     cwd := cwd self; verbosity := verbosity self; models := models self;
     cases := cases self; monitor := monitor self;
     model_kws := model_kws self; param_space := param_space self;
     x0 := x0 self; eval_models := eval_models self;
     optimized_models := optimized_models self; cv_scores_ := v;
     _cv_scoring := _cv_scoring self; metrics := metrics self;
     features := features self; iter_metrics := iter_metrics self;
     model_iter_metric := model_iter_metric self; iter_ := iter_ self;
     model_ := model_ self; optimizer := optimizer self;
     opt_results := opt_results self; files := files self |}.

Definition set_cv_scoring (v : option string) (self : Experiments)
  : Experiments :=
  {| cls := cls self; exp_name := exp_name self; exp_path := exp_path self;
     cwd := cwd self; verbosity := verbosity self; models := models self;
     cases := cases self; monitor := monitor self;
     model_kws := model_kws self; param_space := param_space self;
     x0 := x0 self; eval_models := eval_models self;
     optimized_models := optimized_models self;
     cv_scores_ := cv_scores_ self; _cv_scoring := v;
     metrics := metrics self; features := features self;
     iter_metrics := iter_metrics self;
     model_iter_metric := model_iter_metric self; iter_ := iter_ self;
     model_ := model_ self; optimizer := optimizer self;
     opt_results := opt_results self; files := files self |}.

Definition set_metrics (v : gmap string (gmap string (gmap string float))) (self : Experiments)
  : Experiments :=
  {| cls := cls self; exp_name := exp_name self; exp_path := exp_path self;
     cwd := cwd self; verbosity := verbosity self; models := models self;
     cases := cases self; monitor := monitor self;
     model_kws := model_kws self; param_space := param_space self;
     x0 := x0 self; eval_models := eval_models self;
     optimized_models := optimized_models self;
     cv_scores_ := cv_scores_ self; _cv_scoring := _cv_scoring self;
     metrics := v; features := features self;
     iter_metrics := iter_metrics self;
     model_iter_metric := model_iter_metric self; iter_ := iter_ self;
     model_ := model_ self; optimizer := optimizer self;
     opt_results := opt_results self; files := files self |}.

Definition set_features
    (v : gmap string (gmap string (gmap string (gmap string float))))
    (self : Experiments)
  : Experiments :=
  {| cls := cls self; exp_name := exp_name self; exp_path := exp_path self;
     cwd := cwd self; verbosity := verbosity self; models := models self;
     cases := cases self; monitor := monitor self;
     model_kws := model_kws self; param_space := param_space self;
     x0 := x0 self; eval_models := eval_models self;
     optimized_models := optimized_models self;
     cv_scores_ := cv_scores_ self; _cv_scoring := _cv_scoring self;
     metrics := metrics self; features := v;
     iter_metrics := iter_metrics self;
     model_iter_metric := model_iter_metric self; iter_ := iter_ self;
     model_ := model_ self; optimizer := optimizer self;
     opt_results := opt_results self; files := files self |}.

Definition set_iter_metrics (v : gmap string (gmap Z (gmap string float))) (self : Experiments)
  : Experiments :=
  {| cls := cls self; exp_name := exp_name self; exp_path := exp_path self;
     cwd := cwd self; verbosity := verbosity self; models := models self;
     cases := cases self; monitor := monitor self;
     model_kws := model_kws self; param_space := param_space self;
     x0 := x0 self; eval_models := eval_models self;
     optimized_models := optimized_models self;
     cv_scores_ := cv_scores_ self; _cv_scoring := _cv_scoring self;
     metrics := metrics self; features := features self; iter_metrics := v;
     model_iter_metric := model_iter_metric self; iter_ := iter_ self;
     model_ := model_ self; optimizer := optimizer self;
     opt_results := opt_results self; files := files self |}.

Definition set_model_iter_metric (v : gmap Z (gmap string float)) (self : Experiments)
  : Experiments :=
  {| cls := cls self; exp_name := exp_name self; exp_path := exp_path self;
     cwd := cwd self; verbosity := verbosity self; models := models self;
     cases := cases self; monitor := monitor self;
     model_kws := model_kws self; param_space := param_space self;
     x0 := x0 self; eval_models := eval_models self;
     optimized_models := optimized_models self;
     cv_scores_ := cv_scores_ self; _cv_scoring := _cv_scoring self;
     metrics := metrics self; features := features self;
     iter_metrics := iter_metrics self; model_iter_metric := v;
     iter_ := iter_ self; model_ := model_ self; optimizer := optimizer self;
     opt_results := opt_results self; files := files self |}.

Definition set_iter_ (v : Z) (self : Experiments)
  : Experiments :=
  {| cls := cls self; exp_name := exp_name self; exp_path := exp_path self;
     cwd := cwd self; verbosity := verbosity self; models := models self;
     cases := cases self; monitor := monitor self;
     model_kws := model_kws self; param_space := param_space self;
     x0 := x0 self; eval_models := eval_models self;
     optimized_models := optimized_models self;
     cv_scores_ := cv_scores_ self; _cv_scoring := _cv_scoring self;
     metrics := metrics self; features := features self;
     iter_metrics := iter_metrics self;
     model_iter_metric := model_iter_metric self; iter_ := v;
     model_ := model_ self; optimizer := optimizer self;
     opt_results := opt_results self; files := files self |}.

Definition set_model_ (v : option Model) (self : Experiments)
  : Experiments :=
  {| cls := cls self; exp_name := exp_name self; exp_path := exp_path self;
     cwd := cwd self; verbosity := verbosity self; models := models self;
     cases := cases self; monitor := monitor self;
     model_kws := model_kws self; param_space := param_space self;
     x0 := x0 self; eval_models := eval_models self;
     optimized_models := optimized_models self;
     cv_scores_ := cv_scores_ self; _cv_scoring := _cv_scoring self;
     metrics := metrics self; features := features self;
     iter_metrics := iter_metrics self;
     model_iter_metric := model_iter_metric self; iter_ := iter_ self;
     model_ := v; optimizer := optimizer self;
     opt_results := opt_results self; files := files self |}.

Definition set_optimizer (v : option HyperOpt) (self : Experiments)
  : Experiments :=
  {| cls := cls self; exp_name := exp_name self; exp_path := exp_path self;
     cwd := cwd self; verbosity := verbosity self; models := models self;
     cases := cases self; monitor := monitor self;
     model_kws := model_kws self; param_space := param_space self;
     x0 := x0 self; eval_models := eval_models self;
     optimized_models := optimized_models self;
     cv_scores_ := cv_scores_ self; _cv_scoring := _cv_scoring self;
     metrics := metrics self; features := features self;
     iter_metrics := iter_metrics self;
     model_iter_metric := model_iter_metric self; iter_ := iter_ self;
     model_ := model_ self; optimizer := v; opt_results := opt_results self;
     files := files self |}.

Definition set_opt_results (v : option (list (kwargs * pyval))) (self : Experiments)
  : Experiments :=
  {| cls := cls self; exp_name := exp_name self; exp_path := exp_path self;
     cwd := cwd self; verbosity := verbosity self; models := models self;
     cases := cases self; monitor := monitor self;
     model_kws := model_kws self; param_space := param_space self;
     x0 := x0 self; eval_models := eval_models self;
     optimized_models := optimized_models self;
     cv_scores_ := cv_scores_ self; _cv_scoring := _cv_scoring self;
     metrics := metrics self; features := features self;
     iter_metrics := iter_metrics self;
     model_iter_metric := model_iter_metric self; iter_ := iter_ self;
     model_ := model_ self; optimizer := optimizer self; opt_results := v;
     files := files self |}.

Definition set_files (v : gmap string file_content) (self : Experiments)
  : Experiments :=
  {| cls := cls self; exp_name := exp_name self; exp_path := exp_path self;
     cwd := cwd self; verbosity := verbosity self; models := models self;
     cases := cases self; monitor := monitor self;
     model_kws := model_kws self; param_space := param_space self;
     x0 := x0 self; eval_models := eval_models self;
     optimized_models := optimized_models self;
     cv_scores_ := cv_scores_ self; _cv_scoring := _cv_scoring self;
     metrics := metrics self; features := features self;
     iter_metrics := iter_metrics self;
     model_iter_metric := model_iter_metric self; iter_ := iter_ self;
     model_ := model_ self; optimizer := optimizer self;
     opt_results := opt_results self; files := v |}.

End State.

(** ** Methods are computations over the object state that may raise.
    The state reached when an exception is raised is kept, as in Python. *)

Definition M `{Collaborators} (A : Type) : Type :=
  Experiments -> Experiments * result A.

Definition ret `{Collaborators} {A} (a : A) : M A := fun self => (self, Ok a).
Definition raise `{Collaborators} {A} (e : exn) : M A :=
  fun self => (self, Raise e).
Definition lift `{Collaborators} {A} (r : result A) : M A := fun self => (self, r).
Definition get `{Collaborators} {A} (f : Experiments -> A) : M A :=
  fun self => (self, Ok (f self)).
Definition modify `{Collaborators} (f : Experiments -> Experiments) : M unit :=
  fun self => (f self, Ok tt).
Definition sbind `{Collaborators} {A B} (m : M A) (k : A -> M B) : M B :=
  fun self =>
    match m self with
    | (self', Ok a) => k a self'
    | (self', Raise e) => (self', Raise e)
    end.

Notation "'let*' x ':=' m 'in' k" := (sbind m (fun x => k))
  (at level 10, x name, m at level 100, k at level 200,
   format "'[v' 'let*'  x  ':='  m  'in' '/' k ']'").
Notation "'let*' ' pat ':=' m 'in' k" :=
  (sbind m (fun x => match x with pat => k end))
  (at level 10, pat pattern, m at level 100, k at level 200,
   format "'[v' 'let*'  ' pat  ':='  m  'in' '/' k ']'").
Notation "m ';;' k" := (sbind m (fun _ => k))
  (at level 100, k at level 200, right associativity).

(** Reading an attribute that may not have been set. *)
Definition attr `{Collaborators} {A} (f : Experiments -> option A) : M A :=
  fun self =>
    (self, match f self with Some a => Ok a | None => Raise AttributeError end).

(** [for x in l: body(x)] *)
Fixpoint for_each `{Collaborators} {A} (l : list A) (body : A -> M unit) : M unit :=
  match l with
  | [] => ret tt
  | x :: r => body x ;; for_each r body
  end.

Section Methods.
Context {collaborators : Collaborators}.

(** The property [mode]. *)
Definition mode : M Mode :=
  let* c := get cls in
  match c with
  | Subclass (Some m) => ret m
  | Subclass None => raise NotImplementedError
  | TransformationExperiments => ret regression
  | DLRegressionExperiments => ret regression
  end.

(** [callable(getattr(self, method))] is evaluated for every name in
    [dir(self)], so the list comprehension that collects the builder
    methods reads every property of the object.  Those of the base class
    itself raise ([mode] is the first of them); of the properties of
    [DLRegressionExperiments] only [input_shape] can raise; the properties
    of [TransformationExperiments] return. *)
Definition scan_attributes (c : ExpClass) (input_features : list string)
    (model_kws : option kwargs) : result unit :=
  match c with
  | Subclass None => Raise NotImplementedError
  | Subclass (Some _) => Ok tt
  | TransformationExperiments => Ok tt
  | DLRegressionExperiments =>
      match model_kws with
      | Some kws => let! _ := DL.shape_of input_features kws in Ok tt
      | None => Raise AttributeError
      end
  end.

(** [Experiments.__init__], run on an object of class [c] on which the
    constructor of the subclass, if it has one, has bound [model_kws],
    [param_space] and [x0].  [exp_name] is the name after its default was
    filled in, [cwd] is [os.getcwd()].  The models are the builder methods
    followed by the keys of [cases] in the order of the dictionary, each
    key given its [model_] prefix; a key that arises twice keeps its first
    place and its last value.  [monitor] is bound only when the argument is
    [None].  The tables that [_reset] creates are not attributes yet; the
    record shows them empty. *)
Definition Experiments_init (c : ExpClass) (input_features : list string)
    (model_kws : option kwargs) (param_space : option (list space_attr))
    (x0 : option (list pyval)) (cases : list (string * kwargs))
    (exp_name cwd : string) (verbosity : Z) (monitor_arg : pyval)
  : result Experiments :=
  let! _ := scan_attributes c input_features model_kws in
  let cases := foldl (fun d kv => setitem d (canonical kv.1) kv.2) [] cases in
  let models := (fst <$> builders) ++ (fst <$> cases) in
  let! monitor :=
    match monitor_arg with
    | VNone =>
        match c with
        | Subclass (Some m) => Ok (Some (Monitor m))
        | Subclass None => Raise NotImplementedError
        | TransformationExperiments => Ok (Some (Monitor regression))
        | DLRegressionExperiments => Ok (Some (Monitor regression))
        end
    | _ => Ok None
    end in
  Ok {| cls := c; exp_name := exp_name;
        exp_path := path_join (path_join cwd "results") exp_name;
        cwd := cwd; verbosity := verbosity; models := models;
        cases := list_to_map cases; monitor := monitor; model_kws := model_kws;
        param_space := param_space; x0 := x0;
        eval_models := ∅; optimized_models := ∅; cv_scores_ := ∅;
        _cv_scoring := None; metrics := ∅; features := ∅; iter_metrics := ∅;
        model_iter_metric := ∅; iter_ := 0; model_ := None;
        optimizer := None; opt_results := None; files := ∅ |}.

(** [DLRegressionExperiments.__init__] and
    [TransformationExperiments.__init__]: every keyword that is not a
    parameter of theirs goes to [model_kws], [monitor] among them, and the
    base class is initialized without a [monitor]. *)
Definition DLRegressionExperiments_init (input_features : list string)
    (param_space : option (list space_attr)) (x0 : option (list pyval))
    (cases : list (string * kwargs)) (exp_name cwd : string) (verbosity : Z)
    (model_kws : kwargs) : result Experiments :=
  Experiments_init DLRegressionExperiments input_features (Some model_kws)
    param_space x0 cases exp_name cwd verbosity VNone.

Definition TransformationExperiments_init
    (param_space : option (list space_attr)) (x0 : option (list pyval))
    (cases : list (string * kwargs)) (exp_name cwd : string) (verbosity : Z)
    (model_kws : kwargs) : result Experiments :=
  Experiments_init TransformationExperiments [] (Some model_kws)
    param_space x0 cases exp_name cwd verbosity VNone.

(** [save_config] *)
Definition save_config : M unit :=
  modify (fun self =>
    set_files (<[path_join (exp_path self) "config.json" :=
                   ConfigFile (models self) (cases self) (eval_models self)
                              (optimized_models self)]> (files self)) self).

(** [save_json_file] *)
Definition save_json_file (fpath : string) (obj : file_content) : M unit :=
  modify (fun self => set_files (<[fpath := obj]> (files self)) self).

(** [_reset] *)
Definition _reset : M unit :=
  modify (set_cv_scores_ ∅) ;;
  modify (set_eval_models ∅) ;;
  modify (set_optimized_models ∅) ;;
  modify (set_metrics ∅) ;;
  modify (set_features ∅) ;;
  modify (set_iter_metrics ∅).

(** [_check_include_arg] *)
Definition _check_include_arg (include : names_arg) : M (list string) :=
  let* models := get models in
  let include := match include with OneName s => Names [s] | i => i end in
  let include := match include with Names l => l | _ => models end in
  let include := canonical <$> include in
  lift (assert_each (fun elem => bool_decide (elem ∈ models)) include) ;;
  ret include.

(** [_build]: the base-class version passes the model keywords and the
    suggested parameters to [Model]; the version of
    [TransformationExperiments] passes the suggested parameters through
    [update_paras] first.  Python rejects a call in which the same keyword
    arrives twice. *)
Definition _build (title : string) (suggested_paras : kwargs) : M unit :=
  let* v := get verbosity in
  let verbosity := VInt (Z.max (v - 1) 0) in
  let* kws := attr model_kws in
  let* verbosity :=
    match kws !! "verbosity" with
    | Some v' => modify (set_model_kws (Some (delete "verbosity" kws))) ;; ret v'
    | None => ret verbosity
    end in
  let* kws := attr model_kws in
  let* c := get cls in
  let* paras :=
    match c with
    | TransformationExperiments => lift (update_paras suggested_paras)
    | _ => ret suggested_paras
    end in
  let* model :=
    lift (if bool_decide (dom kws ∩ dom paras = ∅)
             && bool_decide ("prefix" ∉ dom kws ∪ dom paras)
             && bool_decide ("verbosity" ∉ dom kws ∪ dom paras)
          then Model_new title verbosity (kws ∪ paras)
          else Raise TypeError) in
  modify (set_model_ (Some model)).

(** [_fit] *)
Definition _fit (data : Data) (cross_validate : bool) : M unit :=
  let* m := attr model_ in
  if cross_validate then
    let* scoring :=
      lift (match model_config m !! "val_metric" with
            | Some s => Ok s | None => Raise KeyError end) in
    let* m' := lift (model_cross_val_score m data scoring) in
    modify (set_model_ (Some m'))
  else
    let* m' := lift (model_fit m data) in
    modify (set_model_ (Some m')).

(** [for metric in self.monitor: test_metrics[metric] = getattr(metrics, metric)()] *)
Fixpoint monitor_metrics (calc : MetricsObj) (mon : list string)
    (acc : gmap string float) : result (gmap string float) :=
  match mon with
  | [] => Ok acc
  | metric :: rest =>
      let! v := metric_call calc metric in
      monitor_metrics calc rest (<[metric := v]> acc)
  end.

(** The validation score before the check for finiteness:
    [1.0 - val_score] when [config['val_metric']] is one of the listed
    names, the metric itself otherwise. *)
Definition oriented_score (config_val_metric : pyval) (val_score : float) : float :=
  if in_strs config_val_metric larger_is_better
  then (1.0 - val_score)%float
  else val_score.

(** [if not math.isfinite(val_score): val_score = 9999] *)
Definition finite_or_sentinel (val_score : float) : pyval :=
  if negb (PrimFloat.is_finite val_score) then VInt 9999 else VFloat val_score.

(** [_evaluate] *)
Definition _evaluate (data : pred_data Data) : M pyval :=
  let* m := attr model_ in
  let* '(t, p) := lift (model_predict m data false) in
  let* md := mode in
  let* calc :=
    lift (Metrics md t p {| remove_zero := true; remove_neg := true;
                            multiclass := is_multiclass m |}) in
  let* mon := attr monitor in
  let* test_metrics := lift (monitor_metrics calc mon ∅) in
  modify (fun self =>
    set_model_iter_metric
      (<[iter_ self := test_metrics]> (model_iter_metric self)) self) ;;
  modify (fun self => set_iter_ (iter_ self + 1) self) ;;
  let* val_score := lift (metric_call calc (val_metric m)) in
  let* cvm :=
    lift (match model_config m !! "val_metric" with
          | Some s => Ok s | None => Raise KeyError end) in
  let val_score := oriented_score cvm val_score in
  ret (finite_or_sentinel val_score).

(** [_predict] *)
Definition _predict (data : Data) : M (results * results) :=
  let* m := attr model_ in
  let* test := lift (model_predict m (Given data) true) in
  let* train := lift (model_predict m (Split "training") true) in
  ret (train, test).

(** [_build_and_run].  The configuration arrives as keyword arguments: a
    key that names one of the method's own parameters other than [view]
    collides with the argument passed explicitly, and a [view] key binds
    that parameter; [_build] returns nothing, so a true [view] fails on
    [model.view()]. *)
Definition _build_and_run (data : Data) (predict : bool) (title : string)
    (cross_validate : bool) (config : kwargs) : M run_out :=
  (if bool_decide
        (dom config ∩ {["data"; "predict"; "title"; "cross_validate"]} = ∅)
   then ret tt else raise TypeError) ;;
  let view := truthy (dict_get config "view" (VBool false)) in
  _build title (delete "view" config) ;;
  _fit data cross_validate ;;
  (if view then raise AttributeError else ret tt) ;;
  if predict then
    let* '(train, test) := _predict data in ret (Predictions train test)
  else
    let* v := _evaluate (Split "validation") in ret (Score v).

(** [{'std': v}] and the nested dictionaries of [features]. *)
Definition std_dict (a : list float) : gmap string float :=
  {["std" := np_std a]}.

Definition features_entry (train_results test_results : results)
  : gmap string (gmap string (gmap string float)) :=
  <["train" := <["true" := std_dict train_results.1]>
               (<["simulation" := std_dict train_results.2]> ∅)]>
  (<["test" := <["true" := std_dict test_results.1]>
              (<["simulation" := std_dict test_results.2]> ∅)]> ∅).

(** [_populate_results] *)
Definition _populate_results (model_type : string)
    (train_results test_results : results) : M unit :=
  let model_type :=
    if negb (startswith model_type "model_")
    then "model_" +:+ model_type else model_type in
  modify (fun self =>
    set_features
      (<[model_type := features_entry train_results test_results]> (features self))
      self) ;;
  let* md := mode in
  let* m := attr model_ in
  let opts := {| remove_zero := false; remove_neg := false;
                 multiclass := is_multiclass m |} in
  let* calc := lift (Metrics md train_results.1 train_results.2 opts) in
  let* mon := attr monitor in
  let* train_metrics := lift (monitor_metrics calc mon ∅) in
  let* calc := lift (Metrics md test_results.1 test_results.2 opts) in
  let* mon := attr monitor in
  let* test_metrics := lift (monitor_metrics calc mon ∅) in
  modify (fun self =>
    set_metrics
      (<[model_type := <["train" := train_metrics]>
                       (<["test" := test_metrics]> ∅)]> (metrics self))
      self).

(** [train_best] *)
Definition train_best (data : Data) (model_type : string) : M unit :=
  let* opt := attr optimizer in
  let best_paras := backend_best (history opt) in
  let* deep := lift (py_gt (dict_get best_paras "lookback" (VInt 1)) 1) in
  let _model := if deep then "layers" else model_type in
  let* name := get exp_name in
  let* out :=
    _build_and_run data true
      (name +:+ SEP +:+ model_type +:+ SEP +:+ "best") false
      {["model" := VDict [(_model, VDict (map_to_list (backend_best (history opt))))]]} in
  match out with
  | Predictions train_results test_results =>
      _populate_results model_type train_results test_results
  | Score _ => raise TypeError
  end.

(** [build_from_config]: not implemented in the base class; the version of
    [DLRegressionExperiments] also binds [model_], the version of
    [TransformationExperiments] does not.  (The base-class version binds
    [model_] to [None] before it raises; an attribute bound to [None] is
    rendered like one that is not set.) *)
Definition build_from_config (data : Data) (config_path weight_file : string)
  : M (results * results) :=
  let* c := get cls in
  match c with
  | Subclass _ => modify (set_model_ None) ;; raise NotImplementedError
  | DLRegressionExperiments =>
      let* model := lift (Model_from_config_file config_path) in
      let weight_file := path_join (w_path model) weight_file in
      let* model := lift (update_weights model weight_file) in
      let* test := lift (model_predict model (Given data) true) in
      let* train := lift (model_predict model (Split "training") true) in
      modify (set_model_ (Some model)) ;;
      ret (train, test)
  | TransformationExperiments =>
      let* model := lift (Model_from_config_file config_path) in
      let weight_file := path_join (w_path model) weight_file in
      let* model := lift (update_weights model weight_file) in
      let* model := lift (process_model_before_fit model) in
      let* train := lift (model_predict model (Given data) true) in
      let* test := lift (model_predict model (Split "test") true) in
      let* model := lift (allow_nan_labels model) in
      lift (model_predict model Unspecified true) ;;
      ret (train, test)
  end.

(** [eval_best] *)
Definition eval_best (data : Data) (model_type opt_dir : string) : M unit :=
  let* best_models := lift (clear_weights opt_dir) in
  if (length best_models <? 1)%nat then train_best data model_type
  else
    for_each best_models (fun '(mod_, props) =>
      let mod_path := path_join (ck_path props) "config.json" in
      let mod_weights := ck_weights props in
      let* '(train_results, test_results) :=
        build_from_config data mod_path mod_weights in
      if startswith mod_ "1_"
      then _populate_results model_type train_results test_results
      else ret tt).

(** [hasattr(self, name)] / [getattr(self, name)] for a builder method. *)
Definition builder (name : string) :=
  snd <$> list_find (fun b => b.1 = name) builders.

(** Calling a builder method: it may rebind [param_space] and [x0]. *)
Definition call_builder
    (b : kwargs -> space_state -> result (space_state * kwargs))
    (suggested_paras : kwargs) : M kwargs :=
  let* ps := get param_space in
  let* x := get x0 in
  let* '((ps', x'), config) := lift (b suggested_paras (ps, x)) in
  modify (set_param_space ps') ;;
  modify (set_x0 x') ;;
  ret config.

(** The closure [objective_fn] of [fit].  A configuration taken from
    [cases] is updated in place with the suggested parameters. *)
Definition objective_fn (data : Data) (predict cross_validate : bool)
    (model_type model_name : string) (suggested_paras : kwargs) : M run_out :=
  let* cs := get cases in
  let* config :=
    match cs !! model_type with
    | Some config =>
        let config := suggested_paras ∪ config in
        modify (set_cases (<[model_type := config]> cs)) ;; ret config
    | None =>
        match cs !! model_name with
        | Some config =>
            let config := suggested_paras ∪ config in
            modify (set_cases (<[model_name := config]> cs)) ;; ret config
        | None =>
            match builder model_type with
            | Some b => call_builder b.2 suggested_paras
            | None => raise TypeError
            end
        end
    end in
  let* name := get exp_name in
  _build_and_run data predict (name +:+ SEP +:+ model_name) cross_validate config.

(** ** The optimizer *)

(** Modelled from the spec: [HyperOpt.fit] is not among the sources.
    Section 4.4 has the driver call the objective once per trial with the
    assignment the backend suggests, append the assignment and the scalar
    objective to the trial history, and return the history. *)
Fixpoint run_trials (objective : kwargs -> M run_out)
    (suggest : list (kwargs * pyval) -> kwargs)
    (n : nat) (hist : list (kwargs * pyval)) : M (list (kwargs * pyval)) :=
  match n with
  | O => ret hist
  | S n' =>
      let x := suggest hist in
      let* out := objective x in
      match out with
      | Score v => run_trials objective suggest n' (hist ++ [(x, v)])
      | Predictions _ _ => raise TypeError
      end
  end.

(** [self.optimizer = HyperOpt(...)] followed by
    [self.opt_results = self.optimizer.fit()]. *)
Definition optimize (method : string) (objective : kwargs -> M run_out)
    (opt_dir : string) (num_iterations : Z) (hpo_kws : kwargs) : M unit :=
  let* ps := get param_space in
  let* x := get x0 in
  let* n := lift (backend_trials method num_iterations ps hpo_kws) in
  modify (set_optimizer
            (Some {| opt_method := method; opt_path := opt_dir; history := [] |})) ;;
  let* hist := run_trials objective (backend_suggest method ps x) n [] in
  modify (set_optimizer
            (Some {| opt_method := method; opt_path := opt_dir; history := hist |})) ;;
  modify (set_opt_results (Some hist)).

(** [results{SEP}{exp_name}{SEP}{model_name}] below the working directory. *)
Definition opt_dir_of (wd exp_name model_name : string) : string :=
  path_join wd ("results" +:+ SEP +:+ exp_name +:+ SEP +:+ model_name).

(** The two branches of the loop body of [fit]: one dry pass, or a search
    followed by the post-optimization step. *)
Definition run_model (data : Data) (run_type opt_method : string)
    (num_iterations : Z) (cross_validate : bool)
    (post_optimize : string) (hpo_kws : kwargs) (predict : bool)
    (model_type model_name : string) : M unit :=
  let objective :=
    objective_fn data predict cross_validate model_type model_name in
  if String.eqb run_type "dry_run" then
    let* out := objective ∅ in
    match out with
    | Predictions train_results test_results =>
        _populate_results model_name train_results test_results
    | Score _ => raise TypeError
    end
  else
    match builder model_type with
    | Some b => let* _ := call_builder b.2 ∅ in ret tt
    | None => ret tt
    end ;;
    let* wd := get cwd in
    let* name := get exp_name in
    let opt_dir := opt_dir_of wd name model_name in
    optimize opt_method objective opt_dir num_iterations hpo_kws ;;
    let* opt := attr optimizer in
    modify (fun self =>
      set_optimized_models
        (<[model_type := opt_path opt]> (optimized_models self)) self) ;;
    if String.eqb post_optimize "eval_best"
    then eval_best data model_name opt_dir
    else if String.eqb post_optimize "train_best"
    then train_best data model_name
    else ret tt.

(** The end of the loop body of [fit]: the model must have been bound;
    its path, its cross-validation scores and the metrics of the trials
    are filed under the variant. *)
Definition register_model (cross_validate : bool) (model_type : string) : M unit :=
  let* built := get model_ in
  match built with
  | None => raise ValueError
  | Some m =>
      modify (fun self =>
        set_eval_models (<[model_type := model_path m]> (eval_models self)) self) ;;
      (if cross_validate then
         let cv_scoring := val_metric m in
         let* score := lift (cross_val_attr m cv_scoring) in
         modify (fun self =>
           set_cv_scores_ (<[model_type := score]> (cv_scores_ self)) self) ;;
         modify (set_cv_scoring (Some cv_scoring))
       else ret tt) ;;
      modify (fun self =>
        set_iter_metrics
          (<[model_type := model_iter_metric self]> (iter_metrics self)) self)
  end.

(** The body of the loop of [fit] for one element of [include]. *)
Definition fit_model (data : Data) (run_type opt_method : string)
    (num_iterations : Z) (exclude : list string) (cross_validate : bool)
    (post_optimize : string) (hpo_kws : kwargs) (predict : bool)
    (model_type : string) : M unit :=
  let* model_name := lift (index (split model_type "model_") 1) in
  if bool_decide (model_type ∉ exclude) then
    modify (set_model_iter_metric ∅) ;;
    modify (set_iter_ 0) ;;
    run_model data run_type opt_method num_iterations cross_validate
      post_optimize hpo_kws predict model_type model_name ;;
    register_model cross_validate model_type
  else ret tt.

(** The list that [exclude] denotes in the body of [fit]:
    [''] and [None] become [[]], a string becomes a one-element list. *)
Definition exclude_list (exclude : names_arg) : list string :=
  match exclude with
  | NoNames => []
  | OneName s => if String.eqb s "" then [] else [s]
  | Names l => l
  end.

(** [fit] *)
Definition fit (data : Data) (run_type opt_method : string)
    (num_iterations : Z) (include exclude : names_arg)
    (cross_validate : bool) (post_optimize : string) (hpo_kws : kwargs)
  : M unit :=
  lift (py_assert (bool_decide (run_type ∈ ["optimize"; "dry_run"]))) ;;
  lift (py_assert (bool_decide (post_optimize ∈ ["eval_best"; "train_best"]))) ;;
  let exclude := exclude_list exclude in
  let predict := String.eqb run_type "dry_run" in
  let* include := _check_include_arg include in
  let* models := get models in
  let* filtered := lift (consider_exclude (Names exclude) models (Some include)) in
  let include := default include filtered in
  _reset ;;
  for_each include
    (fit_model data run_type opt_method num_iterations exclude cross_validate
       post_optimize hpo_kws predict) ;;
  save_config ;;
  let* p := get exp_path in
  let* f := get features in
  save_json_file (path_join p "features.json") (FeaturesFile f) ;;
  let* m := get metrics in
  save_json_file (path_join p "metrics.json") (MetricsFile m).


(** ** The data behind the plot of the cross-validation scores *)

(** [_consider_include]: the entries of [to_filter] for the included
    names, in the order of [include]. *)
Definition _consider_include {V} (include : names_arg) (to_filter : gmap string V)
  : M (list (string * V)) :=
  let* include := _check_include_arg include in
  ret (foldl (fun filtered m =>
                match to_filter !! m with
                | Some v => setitem filtered m v
                | None => filtered
                end) [] include).

(** [consider_exclude] with [self.cv_scores_] as the dictionary to
    filter: the excluded names are popped from the object's own table, one
    after the other. *)
Fixpoint pop_cv_scores (exclude : list string) : M unit :=
  match exclude with
  | [] => ret tt
  | elem :: rest =>
      let* ms := get models in
      lift (py_assert (bool_decide (elem ∈ ms))) ;;
      let* scores := get cv_scores_ in
      lift (py_assert (bool_decide (elem ∈ dom scores))) ;;
      modify (set_cv_scores_ (delete elem scores)) ;;
      pop_cv_scores rest
  end.

Definition consider_exclude_cv_scores (exclude : names_arg) : M unit :=
  match exclude with
  | NoNames => ret tt
  | OneName s => pop_cv_scores [canonical s]
  | Names l => pop_cv_scores (canonical <$> l)
  end.

(** What [plot_cv_scores] hands to matplotlib: the scores and the labels
    of the boxes, the rotation of the labels, and the file name. *)
Record boxplot := {
  bp_scores : list pyval;
  bp_labels : list string;
  bp_rotation : Z;
  bp_fname : string;
}.

(** [[m.split('model_')[1] for m in keys]] *)
Fixpoint model_names (keys : list string) : result (list string) :=
  match keys with
  | [] => Ok []
  | m :: rest =>
      let! name := index (split m "model_") 1 in
      let! names := model_names rest in
      Ok (name :: names)
  end.

(** [plot_cv_scores], up to the drawing; [None] without scores. *)
Definition plot_cv_scores (name : string) (exclude include : names_arg)
  : M (option boxplot) :=
  let* scores := get cv_scores_ in
  if (size scores =? 0)%nat then ret None
  else
    let* scoring := attr _cv_scoring in
    consider_exclude_cv_scores exclude ;;
    let* cv_scores := get cv_scores_ in
    let* cv_scores := _consider_include include cv_scores in
    let* names := lift (model_names (fst <$> cv_scores)) in
    let rotation := if (length names <? 5)%nat then 0 else 90 in
    let* wd := get cwd in
    let* exp := get exp_name in
    let fname :=
      path_join wd ("results" +:+ SEP +:+ exp +:+ SEP +:+ name +:+ "_"
                    +:+ pretty (length names) +:+ ".png") in
    ret (Some {| bp_scores := snd <$> cv_scores; bp_labels := names;
                 bp_rotation := rotation; bp_fname := fname |}).

End Methods.

(** ** [sort_models_by_metric] *)

(** A row of the data frame: the index and the columns [train], [test]. *)
Abbreviation row := (string * float * float)%type.

(** [v['train'][metric_name]], [v['test'][metric_name]] for every entry. *)
Fixpoint frame_rows (metric_name : string)
    (entries : list (string * gmap string (gmap string float)))
  : result (list row) :=
  match entries with
  | [] => Ok []
  | (k, v) :: rest =>
      let! tr := match v !! "train" ≫= (.!! metric_name) with
                 | Some x => Ok x | None => Raise KeyError end in
      let! te := match v !! "test" ≫= (.!! metric_name) with
                 | Some x => Ok x | None => Raise KeyError end in
      let! rows := frame_rows metric_name rest in
      Ok ((k, tr, te) :: rows)
  end.

(** The column that [sort_by] names. *)
Inductive column := train_column | test_column.

Definition column_of (sort_by : string) : result column :=
  if String.eqb sort_by "train" then Ok train_column
  else if String.eqb sort_by "test" then Ok test_column
  else Raise KeyError.

(** [df[sort_by]] for one row. *)
Definition col (c : column) (r : row) : float :=
  match c with train_column => r.1.2 | test_column => r.2 end.

(** [df.dropna()]: a row goes when any of its columns is NaN. *)
Definition dropna (rows : list row) : list row :=
  filter (fun r => PrimFloat.is_nan r.1.2 = false ∧ PrimFloat.is_nan r.2 = false) rows.

(** [df.sort_values(by=[sort_by], ascending=False)]: larger values first,
    NaN last.  (The order among equal values is left to the sorting
    algorithm by pandas; here equal values keep their order, which is the
    order of the keys of the table, not the order of their insertion.) *)
Fixpoint insert_desc (key : column) (r : row) (sorted : list row) : list row :=
  match sorted with
  | [] => [r]
  | y :: rest =>
      if PrimFloat.ltb (col key y) (col key r)
      then r :: y :: rest
      else y :: insert_desc key r rest
  end.

Definition sort_desc (key : column) (rows : list row) : list row :=
  let nans := filter (fun r => PrimFloat.is_nan (col key r) = true) rows in
  let vals := filter (fun r => PrimFloat.is_nan (col key r) = false) rows in
  foldr (insert_desc key) [] vals ++ nans.

(** The method on the metrics table [self.metrics]. *)
Definition sort_models_by_metric
    (metrics : gmap string (gmap string (gmap string float)))
    (metric_name : string) (cutoff_val : option float)
    (cutoff_type : option string) (ignore_nans : bool) (sort_by : string)
  : result (list row) :=
  let! df := frame_rows metric_name (map_to_list metrics) in
  let df := if ignore_nans then dropna df else df in
  let! key := column_of sort_by in
  let df := sort_desc key df in
  match cutoff_type with
  | Some cutoff_type =>
      let! _ := py_assert (bool_decide (is_Some cutoff_val)) in
      let cutoff_val := default 0%float cutoff_val in
      if String.eqb cutoff_type "greater"
      then Ok (filter (fun r => PrimFloat.ltb cutoff_val (col key r) = true) df)
      else Ok (filter (fun r => PrimFloat.ltb (col key r) cutoff_val = true) df)
  | None => Ok df
  end.

(** ** [shred_model_name] *)

Definition shred_model_name (model_name : string) : string :=
  let key := if startswith model_name "model_"
             then str_drop 6 model_name else model_name in
  if endswith key "Regressor"
  then str_take (String.length key - 9) key else key.

End Exp.

(* ===================================================================== *)
(** * A small concrete set of collaborators                               *)
(* ===================================================================== *)

(** A stand-in for the external libraries, small enough to run the
    orchestrator on: three builder methods [model_A], [model_B], [model_C];
    a model that only remembers how it was built; a metrics library with
    fixed values; a backend that runs [num_iterations] trials. *)
Module Toy.
Import Space Exp.

Record toy_model := {
  tm_prefix : string;
  tm_kwargs : kwargs;
  tm_fitted : bool;
}.

Definition toy_val_metric (m : toy_model) : string :=
  match tm_kwargs m !! "val_metric" with
  | Some (VStr s) => s
  | _ => "mse"
  end.

(** The value of each metric: NaN for [nse] and [f1_score], 0.75 for
    [r2], 0.25 for any other name. *)
Definition toy_metric (name : string) : float :=
  if String.eqb name "nse" then nan
  else if String.eqb name "f1_score" then nan
  else if String.eqb name "r2" then 0.75%float
  else 0.25%float.

Definition toy_builder : kwargs -> space_state -> result (space_state * kwargs) :=
  fun paras st => Ok (st, paras).

(** [ranked] is what [clear_weights] finds in every directory. *)
Definition toy (ranked : list (string * checkpoint)) : Collaborators :=
  {| Data := unit;
     Model := toy_model;
     Model_new := fun prefix _ kw =>
       Ok {| tm_prefix := prefix; tm_kwargs := kw; tm_fitted := false |};
     Model_from_config_file := fun path =>
       Ok {| tm_prefix := path; tm_kwargs := ∅; tm_fitted := true |};
     update_weights := fun m _ => Ok m;
     model_fit := fun m _ =>
       Ok {| tm_prefix := tm_prefix m; tm_kwargs := tm_kwargs m; tm_fitted := true |};
     model_cross_val_score := fun m _ _ => Ok m;
     model_predict := fun _ _ _ =>
       Ok ([1%float; 2%float; 3%float], [1%float; 2%float; 4%float]);
     val_metric := toy_val_metric;
     model_config := fun m => {["val_metric" := VStr (toy_val_metric m)]};
     is_multiclass := fun _ => false;
     model_path := fun m => tm_prefix m;
     w_path := fun m => tm_prefix m +:+ "/weights";
     cross_val_attr := fun _ _ => Ok (VList []);
     allow_nan_labels := fun m => Ok m;
     MetricsObj := unit;
     Metrics := fun _ _ _ _ => Ok tt;
     metric_call := fun _ name => Ok (toy_metric name);
     np_std := fun _ => 1%float;
     clear_weights := fun _ => Ok ranked;
     backend_trials := fun _ n _ _ => Ok (Z.to_nat n);
     backend_suggest := fun _ _ _ _ => ∅;
     backend_best := fun _ => ∅;
     builders := [("model_A", toy_builder); ("model_B", toy_builder);
                  ("model_C", toy_builder)];
     update_paras := fun kw => Ok kw;
     process_model_before_fit := fun m => Ok m |}.

(** An experiment of class [c] over the three variants, with the model
    keywords [kws], before any call of [fit]. *)
Definition experiment (ranked : list (string * checkpoint)) (c : ExpClass)
    (md : Mode) (kws : kwargs) : @Experiments (toy ranked) :=
  {| cls := c; exp_name := "exp"; exp_path := "/home/results/exp";
     cwd := "/home"; verbosity := 1;
     models := ["model_A"; "model_B"; "model_C"]; cases := ∅;
     monitor := Some (Monitor md); model_kws := Some kws;
     param_space := None; x0 := None;
     eval_models := ∅; optimized_models := ∅; cv_scores_ := ∅;
     _cv_scoring := None; metrics := ∅; features := ∅; iter_metrics := ∅;
     model_iter_metric := ∅; iter_ := 0; model_ := None;
     optimizer := None; opt_results := None; files := ∅ |}.

(** The same experiment in the middle of a search: a model has been built
    and trained, [done] trials have been evaluated. *)
Definition in_search (c : ExpClass) (md : Mode) (kws : kwargs) (done : Z)
  : @Experiments (toy []) :=
  set_iter_ (collaborators := toy []) done
    (set_model_ (collaborators := toy [])
       (Some {| tm_prefix := "exp/A"; tm_kwargs := kws; tm_fitted := true |})
       (experiment [] c md kws)).

End Toy.

(* ===================================================================== *)
(** * Properties of the Python values                                     *)
(* ===================================================================== *)

Module PyFacts.

(** ** Dictionaries that keep their order *)

Lemma setitem_keys_new {V} (d : list (string * V)) k v :
  k ∉ fst <$> d -> fst <$> setitem d k v = (fst <$> d) ++ [k].
Proof.
  induction d as [|[k' v'] d IH]; simpl; [done|].
  intros [Hne Hnew]%not_elem_of_cons.
  destruct (String.eqb_spec k' k) as [->|_]; [done|].
  rewrite fmap_cons. simpl. f_equal. by apply IH.
Qed.

Lemma setitem_keys_old {V} (d : list (string * V)) k v :
  k ∈ fst <$> d -> fst <$> setitem d k v = fst <$> d.
Proof.
  induction d as [|[k' v'] d IH]; simpl; [by intros ?%elem_of_nil|].
  destruct (String.eqb_spec k' k) as [->|Hne]; [done|].
  intros [->|Hold]%elem_of_cons; [done|].
  rewrite fmap_cons. simpl. f_equal. by apply IH.
Qed.

Lemma getitem_setitem_eq {V} (d : list (string * V)) k v :
  getitem (setitem d k v) k = Some v.
Proof.
  induction d as [|[k' v'] d IH]; simpl.
  - by rewrite String.eqb_refl.
  - destruct (String.eqb_spec k' k) as [->|Hne]; simpl.
    + by rewrite String.eqb_refl.
    + by destruct (String.eqb_spec k' k).
Qed.

Lemma getitem_setitem_ne {V} (d : list (string * V)) k k' v :
  k <> k' -> getitem (setitem d k v) k' = getitem d k'.
Proof.
  intros Hne. induction d as [|[k0 v0] d IH]; simpl.
  - by destruct (String.eqb_spec k k').
  - destruct (String.eqb_spec k0 k) as [->|Hk]; simpl.
    + by destruct (String.eqb_spec k k').
    + by rewrite IH.
Qed.

Lemma elem_of_setitem {V} (d : list (string * V)) k v k' v' :
  NoDup (fst <$> d) ->
  (k', v') ∈ setitem d k v <-> (k' = k /\ v' = v) \/ (k' <> k /\ (k', v') ∈ d).
Proof.
  induction d as [|[k0 v0] d IH]; simpl.
  - intros _. rewrite list_elem_of_singleton. split.
    + intros [= -> ->]. by left.
    + intros [[-> ->]|[_ ?%elem_of_nil]]; done.
  - rewrite ?fmap_cons. simpl. intros [Hk0 Hd]%NoDup_cons.
    destruct (String.eqb_spec k0 k) as [->|Hne].
    + rewrite !elem_of_cons. split.
      * intros [[= -> ->]|Hin]; [by left|]. right. split; [|by right].
        intros ->. apply Hk0. apply list_elem_of_fmap. by exists (k, v').
      * intros [[-> ->]|[Hne [[= -> ->]|Hin]]]; [by left|done|by right].
    + rewrite !elem_of_cons, (IH Hd). split.
      * intros [[= -> ->]|[[-> ->]|[Hk Hin]]];
          [right; split; [done|by left]|by left|right; split; [done|by right]].
      * intros [[-> ->]|[Hk [[= -> ->]|Hin]]];
          [right; by left|by left|right; by right].
Qed.

(** ** Slices of strings *)

Lemma str_length_app (a b : string) :
  String.length (a +:+ b) = (String.length a + String.length b)%nat.
Proof. induction a as [|c a IH]; simpl; [done|]. by rewrite IH. Qed.

Lemma str_drop_app (a b : string) : str_drop (String.length a) (a +:+ b) = b.
Proof. induction a as [|c a IH]; simpl; [by destruct b|done]. Qed.

Lemma str_take_app (a b : string) : str_take (String.length a) (a +:+ b) = a.
Proof.
  induction a as [|c a IH]; simpl; [by destruct b|]. by rewrite IH.
Qed.

Lemma endswith_app (a suffix : string) : endswith (a +:+ suffix) suffix = true.
Proof.
  unfold endswith. rewrite str_length_app.
  replace (String.length a + String.length suffix - String.length suffix)%nat
    with (String.length a) by lia.
  rewrite str_drop_app, String.eqb_refl, andb_true_r.
  apply Nat.leb_le. lia.
Qed.

Lemma length_str_take n s : (String.length (str_take n s) <= String.length s)%nat.
Proof.
  revert s. induction n as [|n IH]; intros [|c s]; simpl; try lia.
  specialize (IH s). lia.
Qed.

Lemma length_str_drop n s : (String.length (str_drop n s) <= String.length s)%nat.
Proof.
  revert s. induction n as [|n IH]; intros [|c s]; simpl; try lia.
  specialize (IH s). lia.
Qed.

End PyFacts.

(* ===================================================================== *)
(** * Properties of the search space                                      *)
(* ===================================================================== *)

Module SpaceFacts.
Import Numpy Space.

(** skopt 0.9.0: its constructors accept bounds in increasing order and
    the priors [uniform] and [log-uniform]. *)
Definition skopt_0_9 : Skopt :=
  {| skopt_version := "0.9.0";
     skopt_Real_init := fun low high prior =>
       if PrimFloat.ltb low high
          && bool_decide (prior ∈ ["uniform"; "log-uniform"])
       then Ok tt else Raise ValueError;
     skopt_Integer_init := fun low high prior =>
       if (low <? high) && bool_decide (prior ∈ ["uniform"; "log-uniform"])
       then Ok tt else Raise ValueError |}.

(** A skopt of another version, whose constructors accept bounds in
    increasing order and take the prior as it is given. *)
Definition skopt_0_5 : Skopt :=
  {| skopt_version := "0.5.2";
     skopt_Real_init := fun low high _ =>
       if PrimFloat.ltb low high then Ok tt else Raise ValueError;
     skopt_Integer_init := fun low high _ =>
       if low <? high then Ok tt else Raise ValueError |}.

Lemma rbind_ok {A B} (r : result A) (f : A -> result B) (b : B) :
  rbind r f = Ok b -> exists a, r = Ok a /\ f a = Ok b.
Proof. destruct r as [a|e]; simpl; [eauto | discriminate]. Qed.

Ltac inv_ok :=
  repeat match goal with
  | H : rbind _ _ = Ok _ |- _ =>
      let a := fresh "a" in
      let Ha := fresh "Ha" in
      apply rbind_ok in H; destruct H as (a & Ha & H)
  | H : Ok _ = Ok _ |- _ => injection H as H
  | H : Raise _ = Ok _ |- _ => discriminate H
  end.

Lemma length_iota n : length (iota n) = n.
Proof. unfold iota. by rewrite length_fmap, length_seq. Qed.

Lemma lookup_iota n k x : iota n !! k = Some x <-> x = Z.of_nat k /\ (k < n)%nat.
Proof.
  unfold iota. rewrite list_lookup_fmap.
  destruct (seq 0 n !! k) as [j|] eqn:Hj; simpl.
  - apply lookup_seq in Hj as [-> Hlt]. split.
    + intros [= <-]. done.
    + intros [-> _]. done.
  - split; [done|]. intros [_ Hlt].
    rewrite lookup_seq_lt in Hj by done. discriminate.
Qed.

Lemma linspace_length start stop num g :
  linspace start stop num = Ok g -> Z.of_nat (length g) = num.
Proof.
  unfold linspace. destruct (num <? 0) eqn:Hneg; [discriminate|].
  apply Z.ltb_ge in Hneg. intros [= <-].
  assert (Hlen : forall y : list float,
             length y = Z.to_nat num ->
             Z.of_nat (length (if 1 <? num then set_last y stop else y)) = num).
  { intros y Hy. destruct (1 <? num); unfold set_last;
      rewrite ?length_insert, Hy; lia. }
  apply Hlen. rewrite length_fmap.
  destruct (0 <? num - 1); [destruct (PrimFloat.eqb _ _)|];
    by rewrite !length_fmap, length_iota.
Qed.

Lemma linspace_last start stop num g :
  linspace start stop num = Ok g -> 1 < num -> last g = Some stop.
Proof.
  intros Hg Hnum. pose proof (linspace_length _ _ _ _ Hg) as Hlen.
  revert Hg. unfold linspace.
  destruct (num <? 0); [discriminate|].
  destruct (1 <? num) eqn:H1; [|apply Z.ltb_ge in H1; lia].
  intros [= <-]. unfold set_last in *.
  rewrite last_lookup, length_insert. rewrite length_insert in Hlen.
  apply list_lookup_insert_eq. lia.
Qed.

Lemma given_nonzero k : k <> 0 -> given (Some k) = true.
Proof. intros Hk. simpl. by destruct (Z.eqb_spec k 0). Qed.

Lemma Real_grid_num_samples low high k step g :
  k <> 0 ->
  Real_grid_setter low high (Some k) step None = Ok g ->
  exists l, g = Some l /\ Z.of_nat (length l) = k /\ (1 < k -> last l = Some high).
Proof.
  intros Hk. unfold Real_grid_setter. rewrite (given_nonzero k Hk). simpl.
  intros H. inv_ok. subst g. eexists; split; [done|]. split.
  - eauto using linspace_length.
  - eauto using linspace_last.
Qed.

Lemma Integer_grid_num_samples low high k step g :
  k <> 0 ->
  Integer_grid_setter low high (Some k) step None = Ok g ->
  exists l, g = Some l /\ Z.of_nat (length l) = k.
Proof.
  intros Hk. unfold Integer_grid_setter, linspace_int32.
  rewrite (given_nonzero k Hk). simpl.
  intros H. inv_ok. subst. eexists; split; [done|].
  rewrite length_fmap. eauto using linspace_length.
Qed.

Lemma Real_init_grid `{Skopt} cls low high ns step grid name prior r :
  (Real_init cls low high ns step grid name prior).2 = Ok r ->
  Real_grid_setter (r_low r) (r_high r) ns step grid = Ok (r_grid r) /\
  (forall l h, low = Some l -> high = Some h -> r_low r = l /\ r_high r = h).
Proof.
  unfold Real_init. simpl. intros Hr. inv_ok.
  destruct a as [lo hi]. inv_ok. subst r. simpl. split; [done|].
  intros l h -> ->. inv_ok. subst. simpl in *. inv_ok. by subst.
Qed.

Lemma Integer_init_grid `{Skopt} cls low high ns step grid name prior r :
  (Integer_init cls low high ns step grid name prior).2 = Ok r ->
  Integer_grid_setter (i_low r) (i_high r) ns step grid = Ok (i_grid r).
Proof.
  unfold Integer_init. simpl. intros Hr. inv_ok.
  destruct a as [lo hi]. inv_ok. subst r. by simpl.
Qed.

(** ** Grids derived from [num_samples] *)

(** The grid of the specification: [num] points from [start] to [stop],
    both ends included.  Point [i] is [start] plus [i] steps of
    [(stop - start) / (num - 1)], and the last point is [stop] itself; when
    the step underflows to zero, point [i] is [start] plus the fraction
    [i / (num - 1)] of the distance; a single point is [start]. *)
Definition evenly_spaced (start stop : float) (num i : Z) : float :=
  if (1 <? num) && (i =? num - 1) then stop
  else
    let delta := (stop - start)%float in
    let h := (delta / Z2float (num - 1))%float in
    let offset :=
      if 1 <? num then
        if PrimFloat.eqb h 0%float
        then (Z2float i / Z2float (num - 1) * delta)%float
        else (Z2float i * h)%float
      else (Z2float i * delta)%float in
    (offset + start)%float.

Lemma linspace_lookup start stop num g i :
  linspace start stop num = Ok g -> (i < length g)%nat ->
  g !! i = Some (evenly_spaced start stop num (Z.of_nat i)).
Proof.
  intros Hg Hi. pose proof (linspace_length _ _ _ _ Hg) as Hlen.
  assert (Hin : (i < Z.to_nat num)%nat) by lia.
  assert (Hiota : iota (Z.to_nat num) !! i = Some (Z.of_nat i))
    by (by apply lookup_iota).
  clear Hi Hlen. revert Hg. unfold linspace, evenly_spaced.
  destruct (num <? 0) eqn:Hneg; [discriminate|]. intros [= <-].
  replace (0 <? num - 1) with (1 <? num)
    by (destruct (Z.ltb_spec 1 num), (Z.ltb_spec 0 (num - 1)); lia).
  destruct (1 <? num) eqn:H1; simpl.
  - apply Z.ltb_lt in H1. unfold set_last.
    match goal with |- <[_ := _]> ?y !! _ = _ => set (pts := y) end.
    assert (Hlen : length pts = Z.to_nat num).
    { unfold pts. rewrite length_fmap.
      destruct (PrimFloat.eqb _ _); by rewrite !length_fmap, length_iota. }
    rewrite Hlen.
    destruct (Z.eqb_spec (Z.of_nat i) (num - 1)) as [Hlast|Hmid].
    + replace (Nat.pred (Z.to_nat num)) with i by lia.
      apply list_lookup_insert_eq. lia.
    + rewrite list_lookup_insert_ne by lia.
      unfold pts. rewrite list_lookup_fmap.
      destruct (PrimFloat.eqb _ _);
        by rewrite !list_lookup_fmap, Hiota.
  - by rewrite !list_lookup_fmap, Hiota.
Qed.

(** The statement "a parameter constructed with [num_samples = k] and no
    explicit grid has a grid of length [k]", for one constructor call. *)
Definition Real_grid_has_length `{Skopt} (cls : ClassAttrs)
    (low high : option float) (k : Z) (step : option Z)
    (name prior : option string) : Prop :=
  forall r, (Real_init cls low high (Some k) step None name prior).2 = Ok r ->
    exists g, r_grid r = Some g /\ Z.of_nat (length g) = k.

Definition Integer_grid_has_length `{Skopt} (cls : ClassAttrs)
    (low high : option Z) (k : Z) (step : option Z)
    (name prior : option string) : Prop :=
  forall i, (Integer_init cls low high (Some k) step None name prior).2 = Ok i ->
    exists g, i_grid i = Some g /\ Z.of_nat (length g) = k.

Lemma Real_init_bounds `{Skopt} cls low high ns step name prior :
  skopt_Real_init low high (check_prior prior) = Ok tt ->
  (Real_init cls (Some low) (Some high) ns step None name prior).2
  = let! g := Real_grid_setter low high ns step None in
    Ok {| r_counter := counter cls + 1; r_num_samples := ns; r_step := step;
          r_low := low; r_high := high; r_prior := check_prior prior;
          r_name := match name with
                    | None => "real_" +:+ pretty (counter cls + 1)
                    | Some n => n
                    end;
          r_grid := g |}.
Proof. intros Hskopt. unfold Real_init. simpl. by rewrite Hskopt. Qed.

Lemma Integer_init_bounds `{Skopt} cls low high ns step name prior :
  skopt_Integer_init low high (check_prior prior) = Ok tt ->
  (Integer_init cls (Some low) (Some high) ns step None name prior).2
  = let! g := Integer_grid_setter low high ns step None in
    Ok {| i_counter := counter cls + 1; i_num_samples := ns; i_step := step;
          i_low := low; i_high := high; i_prior := check_prior prior;
          i_name := match name with
                    | None => "integer_" +:+ pretty (counter cls + 1)
                    | Some n => n
                    end;
          i_grid := g |}.
Proof. intros Hskopt. unfold Integer_init. simpl. by rewrite Hskopt. Qed.

Lemma linspace_ok start stop num :
  0 <= num -> exists g, linspace start stop num = Ok g.
Proof.
  intros Hnum. unfold linspace.
  destruct (Z.ltb_spec num 0); [lia|]. eauto.
Qed.

Lemma linspace_negative start stop num :
  num < 0 -> linspace start stop num = Raise ValueError.
Proof. intros Hnum. unfold linspace. by destruct (Z.ltb_spec num 0); [|lia]. Qed.

(** A float that is a number: a zero or a finite value. *)
Definition is_number (f : float) : bool :=
  match Prim2SF f with
  | S754_zero _ | S754_finite _ _ _ => true
  | _ => false
  end.

(** A float that the addition of a zero leaves as it is: any but a zero
    and NaN. *)
Definition absorbs_zero (f : float) : bool :=
  match Prim2SF f with
  | S754_finite _ _ _ | S754_infinity _ => true
  | _ => false
  end.

Lemma zero_steps_from_start h start :
  is_number h = true -> absorbs_zero start = true ->
  (0 * h + start)%float = start.
Proof.
  unfold is_number, absorbs_zero. intros Hh Hs.
  apply Prim2SF_inj. rewrite add_spec, mul_spec.
  change (Prim2SF 0) with (S754_zero false).
  unfold SF64add, SF64mul, SFadd, SFmul.
  destruct (Prim2SF h); try discriminate;
    destruct (Prim2SF start); try discriminate; reflexivity.
Qed.

(** The points before the last, when the step did not underflow. *)
Lemma evenly_spaced_inner start stop num i :
  1 < num -> i <> num - 1 ->
  PrimFloat.eqb ((stop - start) / Z2float (num - 1)) 0 = false ->
  evenly_spaced start stop num i
  = (Z2float i * ((stop - start) / Z2float (num - 1)) + start)%float.
Proof.
  intros Hnum Hi Hh. unfold evenly_spaced.
  destruct (Z.ltb_spec 1 num); [|lia].
  destruct (Z.eqb_spec i (num - 1)); [lia|]. simpl. by rewrite Hh.
Qed.

(** C8, as amended.  Take a Real or an Integer constructed with both
    bounds, which skopt accepts, with [num_samples = k] and without an
    explicit grid, whatever [step] is.  For a positive [k] the parameter is
    constructed and its grid has exactly [k] points: for a Real point [i]
    is the [i]-th of [k] evenly spaced points from [low] to [high]: [low]
    plus [i] steps of [(high - low) / (k - 1)], the first being [low] and
    the last [high] itself; for an Integer it is that point of the float
    grid, floored and cast to a 32-bit integer.  [step] plays no part, so
    [num_samples] takes precedence.  A negative [k] makes the constructor
    raise a ValueError.  [k = 0] counts as not given: the grid is the one
    that the setter derives from [step] alone. *)
Theorem grid_length_is_num_samples `{Skopt} cls (k : Z) step name prior :
  (forall low high,
     skopt_Real_init low high (check_prior prior) = Ok tt ->
     let made :=
       (Real_init cls (Some low) (Some high) (Some k) step None name prior).2 in
     (0 < k ->
      exists r g,
        made = Ok r /\ r_low r = low /\ r_high r = high /\
        r_grid r = Some g /\ Z.of_nat (length g) = k /\
        (forall i, (i < length g)%nat ->
           g !! i = Some (evenly_spaced low high k (Z.of_nat i))) /\
        (1 < k -> last g = Some high) /\
        (let h := ((high - low) / Z2float (k - 1))%float in
         1 < k -> PrimFloat.eqb h 0 = false ->
         (forall i, Z.of_nat i < k - 1 ->
            g !! i = Some (Z2float (Z.of_nat i) * h + low)%float) /\
         (is_number h = true -> absorbs_zero low = true ->
          g !! 0%nat = Some low))) /\
     (k < 0 -> made = Raise ValueError) /\
     (k = 0 -> forall r, made = Ok r ->
        Real_grid_setter low high None step None = Ok (r_grid r))) /\
  (forall low high,
     skopt_Integer_init low high (check_prior prior) = Ok tt ->
     let made :=
       (Integer_init cls (Some low) (Some high) (Some k) step None name prior).2 in
     (0 < k ->
      exists i g,
        made = Ok i /\ i_low i = low /\ i_high i = high /\
        i_grid i = Some g /\ Z.of_nat (length g) = k /\
        (forall j, (j < length g)%nat ->
           g !! j = Some (float_to_int32
                            (evenly_spaced (Z2float low) (Z2float high) k
                               (Z.of_nat j))))) /\
     (k < 0 -> made = Raise ValueError) /\
     (k = 0 -> forall i, made = Ok i ->
        Integer_grid_setter low high None step None = Ok (i_grid i))).
Proof.
  split; intros low high Hskopt made; unfold made; clear made.
  - rewrite (Real_init_bounds _ _ _ _ _ _ _ Hskopt). split; [|split].
    + intros Hk. unfold Real_grid_setter.
      rewrite (given_nonzero k) by lia. simpl.
      destruct (linspace_ok low high k ltac:(lia)) as [g Hg]. rewrite Hg. simpl.
      eexists _, g. split; [done|]. simpl.
      split; [done|]. split; [done|]. split; [done|].
      split; [eauto using linspace_length|].
      split; [intros i Hi; eauto using linspace_lookup|].
      split; [eauto using linspace_last|].
      intros Hk1 Hh.
      assert (Hinner : forall i, Z.of_nat i < k - 1 ->
                g !! i = Some (Z2float (Z.of_nat i)
                               * ((high - low) / Z2float (k - 1)) + low)%float).
      { intros i Hi.
        rewrite (linspace_lookup _ _ _ _ i Hg)
          by (apply Nat2Z.inj_lt; rewrite (linspace_length _ _ _ _ Hg); lia).
        by rewrite evenly_spaced_inner by (done || lia). }
      split; [exact Hinner|]. intros Hnum Hlow.
      rewrite (Hinner 0%nat) by lia.
      simpl. by rewrite zero_steps_from_start.
    + intros Hk. unfold Real_grid_setter.
      rewrite (given_nonzero k) by lia. simpl.
      by rewrite linspace_negative.
    + intros -> r Hr. apply rbind_ok in Hr as (g & Hg & [= <-]). exact Hg.
  - rewrite (Integer_init_bounds _ _ _ _ _ _ _ Hskopt). split; [|split].
    + intros Hk. unfold Integer_grid_setter, linspace_int32.
      rewrite (given_nonzero k) by lia. simpl.
      destruct (linspace_ok (Z2float low) (Z2float high) k ltac:(lia)) as [g Hg].
      rewrite Hg. simpl.
      eexists _, (float_to_int32 <$> g). split; [done|]. simpl.
      split_and!; try done.
      * rewrite length_fmap. eauto using linspace_length.
      * intros j Hj. rewrite length_fmap in Hj.
        by rewrite list_lookup_fmap, (linspace_lookup _ _ _ _ _ Hg Hj).
    + intros Hk. unfold Integer_grid_setter, linspace_int32.
      rewrite (given_nonzero k) by lia. simpl.
      by rewrite linspace_negative.
    + intros -> i Hi. apply rbind_ok in Hi as (g & Hg & [= <-]). exact Hg.
Qed.

(** [Real(low=0, high=1, num_samples=5)] has the grid
    [0, 0.25, 0.5, 0.75, 1], and [Integer(low=1, high=10, num_samples=4)]
    the grid [1, 4, 7, 10]. *)
Lemma grid_length_is_num_samples_witness :
  (exists r,
     (Real_init (skopt := skopt_0_9) class_initial (Some 0%float)
        (Some 1%float) (Some 5) None None None None).2 = Ok r /\
     r_grid r = Some [0; 0.25; 0.5; 0.75; 1]%float) /\
  (exists i,
     (Integer_init (skopt := skopt_0_9) class_initial (Some 1) (Some 10)
        (Some 4) None None None None).2 = Ok i /\
     i_grid i = Some [1; 4; 7; 10]).
Proof.
  split.
  - destruct (grid_length_is_num_samples (H := skopt_0_9) class_initial 5 None
                None None) as [HR _].
    destruct (HR 0%float 1%float eq_refl) as (Hpos & _ & _).
    destruct (Hpos ltac:(lia)) as (r & g & Hr & _ & _ & Hg & Hlen & Hpts & _ & _).
    exists r. split; [exact Hr|]. rewrite Hg. f_equal.
    apply list_eq. intros j.
    destruct (decide (j < length g)%nat) as [Hj|Hj].
    + rewrite (Hpts j Hj).
      do 5 (destruct j as [|j]; [vm_compute; reflexivity|]). lia.
    + rewrite lookup_ge_None_2 by lia.
      symmetry. apply lookup_ge_None_2. simpl. lia.
  - destruct (grid_length_is_num_samples (H := skopt_0_9) class_initial 4 None
                None None) as [_ HI].
    destruct (HI 1 10 eq_refl) as (Hpos & _ & _).
    destruct (Hpos ltac:(lia)) as (i & g & Hi & _ & _ & Hg & Hlen & Hpts).
    exists i. split; [exact Hi|]. rewrite Hg. f_equal.
    apply list_eq. intros j.
    destruct (decide (j < length g)%nat) as [Hj|Hj].
    + rewrite (Hpts j Hj).
      do 4 (destruct j as [|j]; [vm_compute; reflexivity|]). lia.
    + rewrite lookup_ge_None_2 by lia.
      symmetry. apply lookup_ge_None_2. simpl. lia.
Defined.

(** C8, as stated, fails for [num_samples = 0]:
    [Integer(low=0, high=4, num_samples=0, step=1)] is constructed, and its
    grid is [np.arange(0, 4, 1)], of length 4. *)
Lemma grid_length_num_samples_zero :
  ~ Integer_grid_has_length (H := skopt_0_9) class_initial (Some 0) (Some 4) 0
      (Some 1) None None.
Proof.
  intros Hclaim.
  destruct (Hclaim _ eq_refl) as (g & Hg & Hlen).
  vm_compute in Hg. injection Hg as <-. discriminate Hlen.
Qed.

(** ** Automatic names *)

(** Whether a call without a name returns a parameter.  Nothing in the
    constructors depends on the class counter but the name. *)
Definition Real_accepts `{Skopt} (a : unnamed_args float) : bool :=
  is_ok (Real_unnamed class_initial a).2.

Definition Integer_accepts `{Skopt} (a : unnamed_args Z) : bool :=
  is_ok (Integer_unnamed class_initial a).2.

Lemma Real_unnamed_name `{Skopt} cls a r :
  (Real_unnamed cls a).2 = Ok r ->
  r_name r = "real_" +:+ pretty (counter cls + 1) /\ r_counter r = counter cls + 1.
Proof.
  unfold Real_unnamed, Real_init. simpl. intros Hr. inv_ok.
  destruct a0. inv_ok. by subst r.
Qed.

Lemma Integer_unnamed_name `{Skopt} cls a i :
  (Integer_unnamed cls a).2 = Ok i ->
  i_name i = "integer_" +:+ pretty (counter cls + 1) /\
  i_counter i = counter cls + 1.
Proof.
  unfold Integer_unnamed, Integer_init. simpl. intros Hi. inv_ok.
  destruct a0. inv_ok. by subst i.
Qed.

Lemma Real_unnamed_accepts `{Skopt} cls a :
  (Real_unnamed cls a).1 = cls /\ is_ok (Real_unnamed cls a).2 = Real_accepts a.
Proof.
  split; [done|]. unfold Real_accepts, Real_unnamed, Real_init. simpl.
  destruct (match a_low a with Some _ => _ | None => _ end) as [[lo hi]|]; [|done].
  simpl. destruct hi as [hi|]; [|done]. simpl.
  destruct (skopt_Real_init _ _ _); [|done]. simpl.
  by destruct (Real_grid_setter _ _ _ _ _).
Qed.

Lemma Integer_unnamed_accepts `{Skopt} cls a :
  (Integer_unnamed cls a).1 = cls /\
  is_ok (Integer_unnamed cls a).2 = Integer_accepts a.
Proof.
  split; [done|]. unfold Integer_accepts, Integer_unnamed, Integer_init. simpl.
  destruct (match a_low a with Some _ => _ | None => _ end) as [[lo hi]|]; [|done].
  simpl. destruct hi as [hi|]; [|done]. simpl.
  destruct (skopt_Integer_init _ _ _); [|done]. simpl.
  by destruct (Integer_grid_setter _ _ _ _ _).
Qed.

Lemma Real_names_spec `{Skopt} cls calls :
  Real_names cls calls
  = (cls, replicate (length (filter (fun a => Real_accepts a = true) calls))
            ("real_" +:+ pretty (counter cls + 1))).
Proof.
  induction calls as [|a rest IH]; [done|]. cbn [Real_names].
  destruct (Real_unnamed_accepts cls a) as [Hcls Hok].
  destruct (Real_unnamed cls a) as [cls1 r] eqn:Ha. simpl in Hcls, Hok. subst cls1.
  rewrite IH, filter_cons. f_equal.
  destruct r as [p|e]; simpl in Hok; rewrite <- Hok.
  - rewrite decide_True by done. simpl. f_equal.
    apply (Real_unnamed_name cls a). by rewrite Ha.
  - by rewrite decide_False by done.
Qed.

Lemma Integer_names_spec `{Skopt} cls calls :
  Integer_names cls calls
  = (cls, replicate (length (filter (fun a => Integer_accepts a = true) calls))
            ("integer_" +:+ pretty (counter cls + 1))).
Proof.
  induction calls as [|a rest IH]; [done|]. cbn [Integer_names].
  destruct (Integer_unnamed_accepts cls a) as [Hcls Hok].
  destruct (Integer_unnamed cls a) as [cls1 r] eqn:Ha. simpl in Hcls, Hok.
  subst cls1. rewrite IH, filter_cons. f_equal.
  destruct r as [p|e]; simpl in Hok; rewrite <- Hok.
  - rewrite decide_True by done. simpl. f_equal.
    apply (Integer_unnamed_name cls a). by rewrite Ha.
  - by rewrite decide_False by done.
Qed.

(** A call with both bounds, which skopt accepts, and nothing else. *)
Definition bounds_only {A} (low high : A) (prior : option string)
  : unnamed_args A :=
  {| a_low := Some low; a_high := Some high; a_num_samples := None;
     a_step := None; a_grid := None; a_prior := prior |}.

(** C10: in a process that starts with the class counters at 0, however
    many unnamed parameters were created before, the class counter is
    still 0 and every unnamed Real that was constructed is called
    [real_1]; the next call without a name, if it returns a parameter --
    as every call does that gives two bounds which skopt accepts and
    nothing else -- returns one whose own counter is 1 and whose name is
    [real_1] again.  Likewise for Integer and [integer_1].  So two unnamed
    parameters of one kind have the same name. *)
Theorem unnamed_parameters_share_one_name `{Skopt} :
  (forall (earlier : list (unnamed_args float)) (a : unnamed_args float),
     Real_names class_initial earlier
     = (class_initial,
        replicate (length (filter (fun a => Real_accepts a = true) earlier))
          "real_1") /\
     (Real_accepts a = true ->
      exists r,
        Real_unnamed (Real_names class_initial earlier).1 a
          = (class_initial, Ok r) /\
        r_name r = "real_1" /\ r_counter r = 1) /\
     (forall low high prior,
        skopt_Real_init low high (check_prior prior) = Ok tt ->
        Real_accepts (bounds_only low high prior) = true)) /\
  (forall (earlier : list (unnamed_args Z)) (a : unnamed_args Z),
     Integer_names class_initial earlier
     = (class_initial,
        replicate (length (filter (fun a => Integer_accepts a = true) earlier))
          "integer_1") /\
     (Integer_accepts a = true ->
      exists i,
        Integer_unnamed (Integer_names class_initial earlier).1 a
          = (class_initial, Ok i) /\
        i_name i = "integer_1" /\ i_counter i = 1) /\
     (forall low high prior,
        skopt_Integer_init low high (check_prior prior) = Ok tt ->
        Integer_accepts (bounds_only low high prior) = true)).
Proof.
  split; intros earlier a.
  - rewrite (Real_names_spec class_initial earlier). split; [done|]. split.
    + intros Hacc. simpl.
      destruct (Real_unnamed_accepts class_initial a) as [Hcls Hok].
      rewrite Hacc in Hok.
      destruct (Real_unnamed class_initial a) as [cls1 [r|e]] eqn:Ha;
        simpl in Hcls, Hok; [|done].
      subst cls1. exists r. split; [done|].
      apply (Real_unnamed_name class_initial a). by rewrite Ha.
    + intros low high prior Hskopt.
      unfold Real_accepts, Real_unnamed, Real_init. simpl. by rewrite Hskopt.
  - rewrite (Integer_names_spec class_initial earlier). split; [done|]. split.
    + intros Hacc. simpl.
      destruct (Integer_unnamed_accepts class_initial a) as [Hcls Hok].
      rewrite Hacc in Hok.
      destruct (Integer_unnamed class_initial a) as [cls1 [i|e]] eqn:Ha;
        simpl in Hcls, Hok; [|done].
      subst cls1. exists i. split; [done|].
      apply (Integer_unnamed_name class_initial a). by rewrite Ha.
    + intros low high prior Hskopt.
      unfold Integer_accepts, Integer_unnamed, Integer_init. simpl.
      by rewrite Hskopt.
Qed.

(** Two unnamed reals in a row, as in
    [[Real(low=10, high=100), Real(low=-2.0, high=2.0)]], and two unnamed
    integers: each pair shares its name. *)
Lemma unnamed_parameters_share_one_name_witness :
  Real_names (skopt := skopt_0_9) class_initial
    [bounds_only 10%float 100%float None; bounds_only (-2)%float 2%float None]
  = (class_initial, ["real_1"; "real_1"]) /\
  Integer_names (skopt := skopt_0_9) class_initial
    [bounds_only 1 10 None; bounds_only 16 64 None]
  = (class_initial, ["integer_1"; "integer_1"]).
Proof.
  destruct (unnamed_parameters_share_one_name (H := skopt_0_9)) as [HR HI].
  split.
  - destruct (HR [bounds_only 10%float 100%float None;
                  bounds_only (-2)%float 2%float None]
                (bounds_only 10%float 100%float None)) as (Hnames & _ & _).
    rewrite Hnames. reflexivity.
  - destruct (HI [bounds_only 1 10 None; bounds_only 16 64 None]
                (bounds_only 1 10 None)) as (Hnames & _ & _).
    rewrite Hnames. reflexivity.
Defined.

(** Two unnamed reals with grids derived from [num_samples], as in
    [[Real(low=10, high=100, num_samples=20), Real(low=-2.0, high=2.0, num_samples=20)]]. *)
Example two_unnamed_reals :
  Real_names (skopt := skopt_0_9) class_initial
    [ {| a_low := Some 10%float; a_high := Some 100%float;
         a_num_samples := Some 20; a_step := None; a_grid := None;
         a_prior := None |};
      {| a_low := Some (-2)%float; a_high := Some 2%float;
         a_num_samples := Some 20; a_step := None; a_grid := None;
         a_prior := None |} ]
  = (class_initial, ["real_1"; "real_1"]).
Proof. vm_compute. reflexivity. Qed.

(** ** Serialization *)

(** The example of the class documentation,
    [Categorical(categories=['relu', 'tanh', 'sigmoid'], name='activations')]. *)
Definition activations : Categorical :=
  {| c_categories := [VStr "relu"; VStr "tanh"; VStr "sigmoid"];
     c_prior := None; c_name := Some "activations" |}.

(** C5 fails on the code: the type tag written by [Real.serialize] and
    [Integer.serialize] is the name of the class, but
    [Categorical.serialize] writes the tag of [Integer]; the serialized
    [activations] carries the tag ["Integer"], not ["Categorical"]. *)
Theorem Categorical_serialize_type_tag :
  (forall r, serialize (PReal r) !! "type" = Some (VStr (class_name (PReal r)))) /\
  (forall i, serialize (PInteger i) !! "type"
             = Some (VStr (class_name (PInteger i)))) /\
  (forall c, serialize (PCategorical c) !! "type" = Some (VStr "Integer")) /\
  serialize (PCategorical activations) !! "type" = Some (VStr "Integer") /\
  serialize (PCategorical activations) !! "type"
    <> Some (VStr (class_name (PCategorical activations))).
Proof.
  repeat split; intros; simpl;
    unfold Real_serialize, Integer_serialize, Categorical_serialize;
    rewrite ?lookup_insert_eq; try done.
Qed.

(** ** Grids derived from [step] *)

Lemma wrap_int32_id z : - 2 ^ 31 <= z < 2 ^ 31 -> wrap_int32 z = z.
Proof.
  intros Hz. unfold wrap_int32.
  rewrite Z.mod_small by lia. lia.
Qed.

Lemma arange_len_spec start stop step k :
  0 < step -> (k < arange_len start stop step)%nat <-> start + Z.of_nat k * step < stop.
Proof.
  intros Hs. unfold arange_len.
  set (d := stop - start).
  assert (Hceil : forall j, j < - (- d / step) <-> j * step < d).
  { intros j. pose proof (Z.div_mod (- d) step ltac:(lia)) as Hdm.
    pose proof (Z.mod_pos_bound (- d) step Hs) as Hb. split; intros; nia. }
  specialize (Hceil (Z.of_nat k)). unfold d in *. lia.
Qed.

(** With a positive [step] and no [num_samples], the grid of an Integer
    is the arithmetic progression from [low] in steps of [step] that stays
    below [high]. *)
Lemma Integer_grid_step low high ns s g :
  given ns = false -> 0 < s -> - 2 ^ 31 <= low -> high <= 2 ^ 31 ->
  Integer_grid_setter low high ns (Some s) None = Ok g ->
  exists l, g = Some l /\
    forall k x, l !! k = Some x <-> x = low + Z.of_nat k * s /\ x < high.
Proof.
  intros Hns Hs Hlow Hhigh. unfold Integer_grid_setter. rewrite Hns.
  rewrite given_nonzero by lia. simpl. unfold arange_int32.
  destruct (Z.eqb_spec s 0) as [->|_]; [lia|]. simpl. intros [= <-].
  eexists. split; [done|]. intros k x.
  rewrite list_lookup_fmap.
  destruct (iota (arange_len low high s) !! k) as [j|] eqn:Hj; simpl.
  - apply lookup_iota in Hj as [-> Hk].
    apply arange_len_spec in Hk; [|done].
    rewrite wrap_int32_id by nia. split.
    + intros [= <-]. done.
    + intros [-> _]. done.
  - split; [done|]. intros [-> Hlt].
    assert (Hk : (k < arange_len low high s)%nat) by (by apply arange_len_spec).
    assert (iota (arange_len low high s) !! k = Some (Z.of_nat k))
      by (by apply lookup_iota).
    congruence.
Qed.

(** X1: an Integer constructed with a positive [step], without
    [num_samples] and without an explicit grid, within the 32-bit range,
    has as its grid the points [low], [low + step], [low + 2 * step], ...
    that lie below [high]: the upper bound itself is never a grid point. *)
Theorem Integer_step_grid_is_half_open `{Skopt} cls low high ns s name prior i :
  given ns = false -> 0 < s -> - 2 ^ 31 <= low -> high <= 2 ^ 31 ->
  (Integer_init cls (Some low) (Some high) ns (Some s) None name prior).2 = Ok i ->
  exists g, i_grid i = Some g /\
    (forall k x, g !! k = Some x <-> x = low + Z.of_nat k * s /\ x < high) /\
    (high ∉ g) /\
    (low < high -> g !! 0%nat = Some low).
Proof.
  intros Hns Hs Hlow Hhigh Hi.
  pose proof (Integer_init_grid _ _ _ _ _ _ _ _ _ Hi) as Hg.
  assert (Hb : i_low i = low /\ i_high i = high).
  { revert Hi. unfold Integer_init. simpl. intros Hi. inv_ok. by subst i. }
  destruct Hb as [Hl Hh]. rewrite Hl, Hh in Hg.
  apply Integer_grid_step in Hg as (g & Hgrid & Hspec); try done.
  exists g. split; [done|]. split; [exact Hspec|]. split.
  - intros Hin. apply list_elem_of_lookup in Hin as [k Hk].
    apply Hspec in Hk. lia.
  - intros Hlt. apply Hspec. lia.
Qed.

(** [Integer(10, 100, step=20)] has the five grid points 10, 30, 50, 70
    and 90. *)
Lemma Integer_step_grid_is_half_open_witness :
  exists i g,
    (Integer_init (skopt := skopt_0_9) class_initial (Some 10) (Some 100) None
       (Some 20) None None None).2 = Ok i /\
    i_grid i = Some g /\ g !! 4%nat = Some 90 /\ g !! 5%nat = None /\ 100 ∉ g.
Proof.
  eexists.
  assert (Hi : (Integer_init (skopt := skopt_0_9) class_initial (Some 10)
                  (Some 100) None (Some 20) None None None).2 = Ok _)
    by (vm_compute; reflexivity).
  destruct (Integer_step_grid_is_half_open (H := skopt_0_9) class_initial 10 100
              None 20 None None _ eq_refl ltac:(lia) ltac:(lia) ltac:(lia) Hi)
    as (g & Hg & Hspec & Hhigh & _).
  exists g. split; [exact Hi|]. split; [exact Hg|]. split; [|split; [|exact Hhigh]].
  - apply Hspec. lia.
  - destruct (g !! 5%nat) as [x|] eqn:Hx; [|done].
    apply Hspec in Hx. lia.
Defined.



(** ** Construction from a grid alone *)

Lemma foldl_min_spec (l : list Z) x :
  let m := foldl Z.min x l in
  m ∈ x :: l /\ forall y, y ∈ x :: l -> m <= y.
Proof.
  revert x. induction l as [|z l IH]; intros x; simpl.
  - split; [left|]. intros y Hy. apply list_elem_of_singleton in Hy. lia.
  - destruct (IH (Z.min x z)) as [Hin Hle]. split.
    + apply elem_of_cons in Hin as [Hin|Hin]; [|by do 2 right].
      rewrite Hin. destruct (Z.min_spec x z) as [[_ ->]|[_ ->]];
        [left|right; left].
    + intros y Hy.
      assert (foldl Z.min (Z.min x z) l <= Z.min x z) by (apply Hle; left).
      apply elem_of_cons in Hy as [->|Hy]; [lia|].
      apply elem_of_cons in Hy as [->|Hy]; [lia|].
      apply Hle. by right.
Qed.

Lemma foldl_max_spec (l : list Z) x :
  let m := foldl Z.max x l in
  m ∈ x :: l /\ forall y, y ∈ x :: l -> y <= m.
Proof.
  revert x. induction l as [|z l IH]; intros x; simpl.
  - split; [left|]. intros y Hy. apply list_elem_of_singleton in Hy. lia.
  - destruct (IH (Z.max x z)) as [Hin Hle]. split.
    + apply elem_of_cons in Hin as [Hin|Hin]; [|by do 2 right].
      rewrite Hin. destruct (Z.max_spec x z) as [[_ ->]|[_ ->]];
        [right; left|left].
    + intros y Hy.
      assert (Z.max x z <= foldl Z.max (Z.max x z) l) by (apply Hle; left).
      apply elem_of_cons in Hy as [->|Hy]; [lia|].
      apply elem_of_cons in Hy as [->|Hy]; [lia|].
      apply Hle. by right.
Qed.

(** X2: an Integer constructed without a lower bound takes everything from
    the grid: without a grid the constructor raises an AssertionError,
    with an empty grid the reduction raises a ValueError; otherwise the
    [high] argument, [num_samples] and [step] play no part: the grid is
    kept as given, the lower bound is its smallest and the upper bound its
    largest element. *)
Theorem Integer_bounds_come_from_the_grid `{Skopt} cls high ns step name prior :
  (Integer_init cls None high ns step None name prior).2 = Raise AssertionError /\
  (Integer_init cls None high ns step (Some []) name prior).2 = Raise ValueError /\
  forall g i,
    (Integer_init cls None high ns step (Some g) name prior).2 = Ok i ->
    i_grid i = Some g /\
    i_low i ∈ g /\ i_high i ∈ g /\
    forall x, x ∈ g -> i_low i <= x <= i_high i.
Proof.
  split; [done|]. split; [done|].
  intros g i. unfold Integer_init. simpl.
  destruct g as [|x g]; [done|]. simpl. intros Hi. inv_ok. subst i. simpl.
  destruct (foldl_min_spec g x) as [Hmin_in Hmin].
  destruct (foldl_max_spec g x) as [Hmax_in Hmax].
  split_and!; try done. intros y Hy. split; auto.
Qed.

(** [Integer(grid=[3, 1, 2])] has the bounds 1 and 3. *)
Lemma Integer_bounds_come_from_the_grid_witness :
  exists i,
    (Integer_init (skopt := skopt_0_9) class_initial None None None None
       (Some [3; 1; 2]) None None).2 = Ok i /\
    i_grid i = Some [3; 1; 2] /\ i_low i ∈ [3; 1; 2] /\ i_high i ∈ [3; 1; 2] /\
    i_low i <= 1 /\ 3 <= i_high i.
Proof.
  eexists.
  assert (Hi : (Integer_init (skopt := skopt_0_9) class_initial None None None
                  None (Some [3; 1; 2]) None None).2 = Ok _)
    by (vm_compute; reflexivity).
  destruct (Integer_bounds_come_from_the_grid (H := skopt_0_9) class_initial
              None None None None None) as (_ & _ & Hgrid).
  destruct (Hgrid _ _ Hi) as (Hg & Hlow & Hhigh & Hbounds).
  split; [exact Hi|]. split; [exact Hg|]. split; [exact Hlow|].
  split; [exact Hhigh|]. split.
  - apply (Hbounds 1). apply list_elem_of_further, list_elem_of_here.
  - apply (Hbounds 3). apply list_elem_of_here.
Defined.

(** ** A logarithmic prior *)

(** X3: a Real constructed with [prior='log'] is not translated alike
    for the back ends.  Under skopt 0.9.0 the prior is stored as
    [log-uniform]: optuna gets a uniform distribution and [suggest] asks
    for a trial with [log=False], and [as_hp] raises an AttributeError.
    Under any other version the prior stays [log]: optuna gets a
    log-uniform distribution and [suggest] passes [log=True], and [as_hp]
    fails its assertion.  [as_hp] returns for no Real at all: it fails its
    assertion or raises the AttributeError. *)
Theorem log_prior_is_not_translated_alike `{Skopt} cls low high ns step grid name r :
  (Real_init cls low high ns step grid name (Some "log")).2 = Ok r ->
  (if bool_decide (skopt_version = "0.9.0") then
     r_prior r = "log-uniform" /\
     Real_as_hp r = Raise AttributeError /\
     Real_to_optuna r = UniformDistribution (r_low r) (r_high r) /\
     sg_log (Real_suggest r) = false
   else
     r_prior r = "log" /\
     Real_as_hp r = Raise AssertionError /\
     Real_to_optuna r = LogUniformDistribution (r_low r) (r_high r) /\
     sg_log (Real_suggest r) = true) /\
  (forall r' : Real,
     Real_as_hp r' = Raise AttributeError \/ Real_as_hp r' = Raise AssertionError).
Proof.
  intros Hr. split.
  - assert (Hprior : r_prior r = check_prior (Some "log")).
    { revert Hr. unfold Real_init. simpl. intros Hr. inv_ok.
      destruct a as [lo hi]. inv_ok. by subst r. }
    unfold check_prior in Hprior. simpl in Hprior.
    unfold Real_as_hp, Real_to_optuna, Real_suggest. simpl.
    destruct (decide (skopt_version = "0.9.0")) as [Hv|Hv].
    + rewrite (bool_decide_eq_true_2 _ Hv).
      rewrite bool_decide_eq_true_2 in Hprior
        by (apply list_elem_of_singleton; exact Hv).
      rewrite Hprior. done.
    + rewrite (bool_decide_eq_false_2 _ Hv).
      rewrite bool_decide_eq_false_2 in Hprior
        by (intros Hin; apply list_elem_of_singleton in Hin; done).
      rewrite Hprior. done.
  - intros r'. unfold Real_as_hp.
    destruct (String.eqb _ _); [by left|].
    unfold py_assert. destruct (bool_decide _); [by left|by right].
Qed.

(** The example of the class documentation,
    [Real(low=0.0005, high=0.01, prior='log', name='lr')], under skopt
    0.9.0 and under another version. *)
Lemma log_prior_is_not_translated_alike_witness :
  (exists r,
     (Real_init (skopt := skopt_0_9) class_initial (Some 0.0005%float)
        (Some 0.01%float) None None None (Some "lr") (Some "log")).2 = Ok r /\
     r_prior r = "log-uniform" /\
     Real_to_optuna r = UniformDistribution 0.0005 0.01 /\
     sg_log (Real_suggest r) = false /\
     Real_as_hp r = Raise AttributeError) /\
  (exists r,
     (Real_init (skopt := skopt_0_5) class_initial (Some 0.0005%float)
        (Some 0.01%float) None None None (Some "lr") (Some "log")).2 = Ok r /\
     r_prior r = "log" /\
     Real_to_optuna r = LogUniformDistribution 0.0005 0.01 /\
     sg_log (Real_suggest r) = true /\
     Real_as_hp r = Raise AssertionError).
Proof.
  split.
  - eexists.
    assert (Hr : (Real_init (skopt := skopt_0_9) class_initial
                    (Some 0.0005%float) (Some 0.01%float) None None None
                    (Some "lr") (Some "log")).2 = Ok _)
      by (vm_compute; reflexivity).
    split; [exact Hr|].
    destruct (log_prior_is_not_translated_alike (H := skopt_0_9)
                _ _ _ _ _ _ _ _ Hr) as [(Hprior & Hhp & Hopt & Hlog) _].
    split; [exact Hprior|]. split; [exact Hopt|]. split; [exact Hlog|exact Hhp].
  - eexists.
    assert (Hr : (Real_init (skopt := skopt_0_5) class_initial
                    (Some 0.0005%float) (Some 0.01%float) None None None
                    (Some "lr") (Some "log")).2 = Ok _)
      by (vm_compute; reflexivity).
    split; [exact Hr|].
    destruct (log_prior_is_not_translated_alike (H := skopt_0_5)
                _ _ _ _ _ _ _ _ Hr) as [(Hprior & Hhp & Hopt & Hlog) _].
    split; [exact Hprior|]. split; [exact Hopt|]. split; [exact Hlog|exact Hhp].
Defined.

(** ** The printed form of a Categorical *)

(** X4: [Categorical.__repr__] prints at most seven entries of the
    categories: all of them when there are seven or fewer; otherwise the
    first three, an ellipsis and the last three.  The ellipsis appears
    exactly when something was left out, every printed entry is a
    category, and the first three and the last category are always
    printed. *)
Theorem repr_shows_at_most_seven_categories (c : Categorical) :
  let cats := Categorical_repr_cats c in
  length cats = Nat.min (length (c_categories c)) 7 /\
  (Ellipsis ∈ cats <-> (7 < length (c_categories c))%nat) /\
  (forall a, Item a ∈ cats -> a ∈ c_categories c) /\
  (forall k a, (k < 3)%nat -> c_categories c !! k = Some a ->
     cats !! k = Some (Item a)) /\
  (forall a, last (c_categories c) = Some a -> last cats = Some (Item a)).
Proof.
  unfold Categorical_repr_cats, abbreviate. simpl.
  set (l := c_categories c).
  assert (Hitem : forall (l' : list pyval), Ellipsis ∉ (Item <$> l')).
  { intros l' Hin. apply list_elem_of_fmap in Hin as (a & [=] & _). }
  destruct (7 <? length l)%nat eqn:Hlen.
  - apply Nat.ltb_lt in Hlen. split_and!.
    + rewrite length_app. simpl.
      rewrite !length_fmap, length_take, length_drop. lia.
    + split; [done|]. intros _.
      apply elem_of_app. right. left.
    + intros a Hin. apply elem_of_app in Hin as [Hin|Hin].
      * apply list_elem_of_fmap in Hin as (b & [= ->] & Hb).
        by apply elem_of_take in Hb as (i & Hb%list_elem_of_lookup_2 & _).
      * apply elem_of_cons in Hin as [[=]|Hin].
        apply list_elem_of_fmap in Hin as (b & [= ->] & Hb).
        apply list_elem_of_lookup in Hb as [i Hb].
        rewrite lookup_drop in Hb. by apply list_elem_of_lookup_2 in Hb.
    + intros k a Hk Ha. rewrite lookup_app_l
        by (rewrite length_fmap, length_take; lia).
      by rewrite list_lookup_fmap, lookup_take_lt, Ha by done.
    + intros a Ha.
      assert (Hlast : last (drop (length l - 3) l) = Some a).
      { rewrite last_lookup, lookup_drop, length_drop.
        rewrite last_lookup in Ha.
        replace (length l - 3 + Nat.pred (length l - (length l - 3)))%nat
          with (Nat.pred (length l)) by lia.
        exact Ha. }
      by rewrite last_app, last_cons, fmap_last, Hlast.
  - apply Nat.ltb_ge in Hlen. split_and!.
    + rewrite length_fmap. lia.
    + split; [by intros ?%Hitem|lia].
    + intros a Hin. by apply list_elem_of_fmap in Hin as (b & [= ->] & Hb).
    + intros k a _ Ha. by rewrite list_lookup_fmap, Ha.
    + intros a Ha. by rewrite fmap_last, Ha.
Qed.

(** Ten activation functions are printed as six names around an
    ellipsis. *)
Example repr_of_ten_categories :
  Categorical_repr_cats
    {| c_categories := VStr <$> ["relu"; "tanh"; "sigmoid"; "elu"; "selu";
                                 "gelu"; "swish"; "softplus"; "softsign";
                                 "linear"];
       c_prior := None; c_name := Some "activation" |}
  = [Item (VStr "relu"); Item (VStr "tanh"); Item (VStr "sigmoid"); Ellipsis;
     Item (VStr "softplus"); Item (VStr "softsign"); Item (VStr "linear")].
Proof. reflexivity. Qed.

End SpaceFacts.

(* ===================================================================== *)
(** * Properties of the layer dictionaries                                *)
(* ===================================================================== *)

Module ModelsFacts.
Import Models PyFacts.
Import SpaceFacts (rbind_ok).

Lemma for_range_snoc idxs idx body l :
  for_range (idxs ++ [idx]) body l
  = let! l' := for_range idxs body l in body l' idx.
Proof.
  revert l. induction idxs as [|i idxs IH]; intros l; simpl.
  - by destruct (body l idx).
  - destruct (body l i) as [l1|e]; simpl; [apply IH|done].
Qed.

(** ** The arguments given per layer *)

Lemma _check_length_ok parameter num_layers l :
  0 <= num_layers ->
  _check_length parameter num_layers = Ok l -> length l = Z.to_nat num_layers.
Proof.
  intros Hn. unfold _check_length.
  destruct parameter; try (intros [= <-]; by rewrite length_replicate).
  intros Hl. apply rbind_ok in Hl as (u & Hlen & [= <-]).
  unfold py_assert in Hlen. destruct (Z.eqb_spec (Z.of_nat (length l0)) num_layers); [lia|done].
Qed.

Lemma _check_length_scalar parameter num_layers :
  (forall l, parameter <> VList l) ->
  _check_length parameter num_layers = Ok (replicate (Z.to_nat num_layers) parameter).
Proof. intros Hs. destruct parameter; try done. by destruct (Hs l). Qed.

Lemma index_ok {A} (l : list A) i : (i < length l)%nat -> exists x, index l i = Ok x /\ l !! i = Some x.
Proof.
  intros Hi. unfold index. destruct (lookup_lt_is_Some_2 l i Hi) as [x Hx].
  exists x. by rewrite Hx.
Qed.

(** ** Names of layers *)

(** The decimal form of a number does not start with the letter o. *)
Lemma pretty_N_go_ne_o x s s' :
  s <> "o" +:+ s' -> pretty_N_go x s <> "o" +:+ s'.
Proof.
  revert s. induction (N.lt_wf_0 x) as [x _ IH]; intros s ?.
  assert (x = 0 \/ 0 < x)%N as [->|?] by lia.
  - by rewrite pretty_N_go_0.
  - rewrite pretty_N_go_step by done. apply IH.
    { by apply N.div_lt. }
    unfold pretty_N_char. by repeat case_match.
Qed.

Lemma pretty_nat_ne_out (n : nat) : pretty n <> "out".
Proof.
  unfold pretty, pretty_nat, pretty, pretty_N.
  case_decide; [done|]. by apply pretty_N_go_ne_o.
Qed.

Definition dense (lyr : nat) : string := "Dense_" +:+ pretty lyr.

Lemma dense_inj i j : dense i = dense j -> i = j.
Proof.
  unfold dense. intros H. apply (inj (String.app "Dense_")) in H.
  by apply (inj pretty) in H.
Qed.

Lemma dense_ne_out lyr : dense lyr <> "Dense_out".
Proof.
  unfold dense. change "Dense_out" with ("Dense_" +:+ "out"). intros H.
  apply (inj (String.app "Dense_")) in H. by apply pretty_nat_ne_out in H.
Qed.

(** The names of the hidden layers after [k] rounds of the loop of [MLP],
    with ([on]) or without a positive dropout rate. *)
Definition hidden_names (on : bool) (k : nat) : list string :=
  match k with
  | O => []
  | S k' => dense 0 :: (if on then ["Dropout"] else []) ++ (dense <$> seq 1 k')
  end.

Lemma hidden_names_elem on k name :
  name ∈ hidden_names on k ->
  name = "Dropout" \/ exists i, (i < k)%nat /\ name = dense i.
Proof.
  destruct k as [|k]; simpl; [by intros ?%elem_of_nil|].
  intros [->|Hin]%elem_of_cons; [right; exists 0%nat; split; [lia|done]|].
  apply elem_of_app in Hin as [Hin|Hin].
  - left. destruct on; [by apply list_elem_of_singleton in Hin|by apply elem_of_nil in Hin].
  - right. apply list_elem_of_fmap in Hin as (i & -> & Hi).
    apply elem_of_seq in Hi. exists i. split; [lia|done].
Qed.

Lemma hidden_names_S on k :
  hidden_names on (S k)
  = hidden_names on k ++ dense k :: (if on then match k with O => ["Dropout"] | _ => [] end else []).
Proof.
  destruct k as [|k]; [by destruct on|].
  cbn [hidden_names]. rewrite seq_S, fmap_app.
  destruct on; cbn [app fmap list_fmap]; by rewrite ?app_nil_r.
Qed.

Section MLP_loop.
Context (units activation : list pyval) (d : pyval) (kwargs : kwargs).
Context (n : nat) (on : bool).
Context (Hunits : length units = n) (Hact : length activation = n).
Context (Hon : positive d = Ok on).

(** The body of the loop of [MLP], with one dropout rate. *)
Definition MLP_body (l : layers) (lyr : nat) : result layers :=
  let! u := index units lyr in
  let! a := index activation lyr in
  let config := kwargs ∪ (<["units" := u]> (<["activation" := a]> ∅)) in
  let l := setitem l (dense lyr) config in
  let! _dropout := index (replicate n d) lyr in
  add_dropout l _dropout.

Lemma MLP_loop_names l0 k l :
  (k <= n)%nat ->
  (forall name, name ∈ fst <$> l0 -> name = "Input") ->
  for_range (seq 0 k) MLP_body l0 = Ok l ->
  fst <$> l = (fst <$> l0) ++ hidden_names on k /\
  (on = true -> (0 < k)%nat -> getitem l "Dropout" = Some {["rate" := d]}).
Proof.
  intros Hk Hl0. revert l. induction k as [|k IH]; intros l.
  - simpl. intros [= <-]. split; [by rewrite app_nil_r|lia].
  - rewrite seq_S, for_range_snoc. intros Hrun. simpl in Hrun.
    apply rbind_ok in Hrun as (lk & Hlk & Hrun).
    destruct (IH ltac:(lia) lk Hlk) as [Hnames Hdrop].
    unfold MLP_body in Hrun.
    destruct (index_ok units k ltac:(lia)) as (u & Hu & _).
    destruct (index_ok activation k ltac:(lia)) as (a & Ha & _).
    destruct (index_ok (replicate n d) k ltac:(rewrite length_replicate; lia))
      as (d' & Hd & Hd').
    apply lookup_replicate in Hd' as [-> _].
    rewrite Hu, Ha in Hrun. simpl in Hrun. rewrite Hd in Hrun. simpl in Hrun.
    unfold add_dropout in Hrun. rewrite Hon in Hrun. simpl in Hrun.
    injection Hrun as <-.
    set (cfg := kwargs ∪ _).
    assert (Hnew : dense k ∉ fst <$> lk).
    { rewrite Hnames. intros [Hin|Hin]%elem_of_app.
      - apply Hl0 in Hin. discriminate Hin.
      - apply hidden_names_elem in Hin as [Hin|(i & Hi & Hin)]; [discriminate Hin|].
        apply dense_inj in Hin. lia. }
    pose proof (setitem_keys_new lk (dense k) cfg Hnew) as Hkeys.
    rewrite hidden_names_S, app_assoc, <- Hnames.
    destruct on.
    + destruct k as [|k].
      * split.
        -- rewrite setitem_keys_new; [by rewrite Hkeys, <- app_assoc|].
           rewrite Hkeys, Hnames. simpl. rewrite app_nil_r.
           intros [Hin|Hin]%elem_of_app; [by apply Hl0 in Hin|].
           by apply list_elem_of_singleton in Hin.
        -- intros _ _. apply getitem_setitem_eq.
      * split.
        -- rewrite setitem_keys_old; [done|].
           rewrite Hkeys, Hnames. simpl.
           apply elem_of_app. left. apply elem_of_app. right.
           right. left.
        -- intros _ _. apply getitem_setitem_eq.
    + split; [by rewrite Hkeys|done].
Qed.

End MLP_loop.

(** X5: with one dropout rate for all layers, the network that [MLP]
    returns has the layers [Input] (when a shape is given), [Dense_0], ...,
    [Dense_(n-1)], [Flatten] and [Dense_out] in this order, and, when the
    rate is positive, exactly one [Dropout] layer, which follows [Dense_0]
    and has that rate, however many layers there are. *)
Theorem MLP_adds_one_dropout_layer units num_layers input_shape output_features
    activation dropout mode output_activation kwargs net :
  (forall l, dropout <> VList l) ->
  MLP units num_layers input_shape output_features activation dropout mode
    output_activation kwargs = Ok net ->
  exists on,
    positive dropout = Ok on /\
    fst <$> net
      = (fst <$> input_layer input_shape)
        ++ hidden_names on (Z.to_nat num_layers) ++ ["Flatten"; "Dense_out"] /\
    (on = true -> getitem net "Dropout" = Some {["rate" := dropout]}).
Proof.
  intros Hscalar. unfold MLP. intros Hrun.
  apply rbind_ok in Hrun as (u0 & Hn & Hrun).
  assert (Hpos : 1 <= num_layers).
  { unfold py_assert in Hn. by destruct (Z.leb_spec 1 num_layers). }
  apply rbind_ok in Hrun as (us & Hus & Hrun).
  apply rbind_ok in Hrun as (ds & Hds & Hrun).
  apply rbind_ok in Hrun as (acts & Hacts & Hrun).
  apply rbind_ok in Hrun as (l & Hloop & Hrun). injection Hrun as <-.
  apply _check_length_ok in Hus; [|lia].
  apply _check_length_ok in Hacts; [|lia].
  rewrite _check_length_scalar in Hds by done. injection Hds as <-.
  set (n := Z.to_nat num_layers) in *.
  assert (Hinput : forall name, name ∈ fst <$> input_layer input_shape -> name = "Input").
  { intros name. destruct input_shape; simpl; [|by intros ?%elem_of_nil].
    by intros ?%list_elem_of_singleton. }
  destruct (positive dropout) as [on|e] eqn:Hon.
  - exists on. split; [done|].
    destruct (MLP_loop_names us acts dropout kwargs n on Hus Hacts Hon
                (input_layer input_shape) n l ltac:(lia) Hinput Hloop)
      as [Hnames Hdrop].
    assert (Hflat : "Flatten" ∉ fst <$> l).
    { rewrite Hnames. intros [Hin|Hin]%elem_of_app.
      - apply Hinput in Hin. discriminate Hin.
      - apply hidden_names_elem in Hin as [Hin|(i & _ & Hin)]; discriminate Hin. }
    assert (Hout : "Dense_out" ∉ fst <$> setitem l "Flatten" ∅).
    { rewrite setitem_keys_new, Hnames by done.
      intros [Hin|Hin]%elem_of_app.
      - apply elem_of_app in Hin as [Hin|Hin].
        + apply Hinput in Hin. discriminate Hin.
        + apply hidden_names_elem in Hin as [Hin|(i & _ & Hin)]; [discriminate Hin|].
          symmetry in Hin. by apply dense_ne_out in Hin.
      - apply list_elem_of_singleton in Hin. discriminate Hin. }
    unfold _make_output_layer.
    destruct (output_config mode output_features output_activation) as [outf outa].
    split.
    + rewrite setitem_keys_new by done.
      rewrite setitem_keys_new by done.
      by rewrite Hnames, <- !app_assoc.
    + intros ->. rewrite !getitem_setitem_ne by done. apply Hdrop; [done|lia].
  - exfalso. destruct n as [|n'] eqn:Hn'; [lia|]. simpl in Hloop.
    destruct (index_ok us 0 ltac:(lia)) as (u & Hu & _).
    destruct (index_ok acts 0 ltac:(lia)) as (a & Ha & _).
    rewrite Hu, Ha in Hloop. simpl in Hloop.
    unfold add_dropout in Hloop. rewrite Hon in Hloop. discriminate Hloop.
Qed.

(** [MLP(32, 3, (10,), dropout=0.5)] has three Dense layers and one
    Dropout layer. *)
Lemma MLP_adds_one_dropout_layer_witness :
  exists net,
    MLP (VInt 32) 3 (Some [VInt 10]) 1 VNone (VFloat 0.5) "regression" VNone ∅
      = Ok net /\
    fst <$> net = ["Input"; "Dense_0"; "Dropout"; "Dense_1"; "Dense_2";
                   "Flatten"; "Dense_out"].
Proof.
  destruct (MLP (VInt 32) 3 (Some [VInt 10]) 1 VNone (VFloat 0.5) "regression"
              VNone ∅) as [net|e] eqn:Hrun;
    [|exfalso; revert Hrun; vm_compute; discriminate].
  exists net. split; [reflexivity|].
  assert (Hscalar : forall l, VFloat 0.5 <> VList l) by (intros l; discriminate).
  destruct (MLP_adds_one_dropout_layer _ _ _ _ _ _ _ _ _ _ Hscalar Hrun)
    as (on & Hon & Hnames & _).
  injection Hon as <-. exact Hnames.
Defined.

(** ** The recurrent layers *)

Definition lstm (lyr : nat) : string := "LSTM_" +:+ pretty lyr.

Lemma lstm_inj i j : lstm i = lstm j -> i = j.
Proof.
  unfold lstm. intros H. apply (inj (String.app "LSTM_")) in H.
  by apply (inj pretty) in H.
Qed.

Lemma lstm_ne i name : String.prefix "L" name = false -> lstm i <> name.
Proof.
  assert (Hl : String.prefix "L" (lstm i) = true) by reflexivity.
  intros Hname Heq. congruence.
Qed.

(** Whether the layer [lyr] of [num_layers] passes the whole sequence
    on. *)
Definition returns_sequences (num_layers : Z) (lyr : nat) (l : layers) : Prop :=
  exists config,
    getitem l (lstm lyr) = Some config /\
    config !! "return_sequences"
      = Some (VBool (bool_decide (Z.of_nat lyr + 1 <> num_layers))).

Lemma add_dropout_layer l d l' name :
  name <> "Dropout" -> add_dropout l d = Ok l' -> getitem l' name = getitem l name.
Proof.
  intros Hne. unfold add_dropout. intros Hrun.
  apply rbind_ok in Hrun as (on & _ & [= <-]).
  destruct on; [|done]. by rewrite getitem_setitem_ne.
Qed.

Lemma LSTM_loop units activation dropout (kwargs : kwargs) num_layers l0 k l :
  kwargs !! "return_sequences" = None ->
  for_range (seq 0 k) (fun l lyr =>
    let return_sequences := negb (Z.of_nat lyr + 1 =? num_layers) in
    let! u := index units lyr in
    let! a := index activation lyr in
    let config :=
      kwargs ∪ (<["units" := u]> (<["activation" := a]>
                 (<["return_sequences" := VBool return_sequences]> ∅))) in
    let l := setitem l (lstm lyr) config in
    let! _dropout := index dropout lyr in
    add_dropout l _dropout) l0 = Ok l ->
  forall i, (i < k)%nat -> returns_sequences num_layers i l.
Proof.
  intros Hkw. revert l. induction k as [|k IH]; intros l; [intros _ i; lia|].
  rewrite seq_S, for_range_snoc. intros Hrun. simpl in Hrun.
  apply rbind_ok in Hrun as (lk & Hlk & Hrun).
  apply rbind_ok in Hrun as (u & _ & Hrun).
  apply rbind_ok in Hrun as (a & _ & Hrun).
  apply rbind_ok in Hrun as (d & _ & Hrun).
  intros i Hi. unfold returns_sequences.
  rewrite (add_dropout_layer _ _ _ _ (lstm_ne i "Dropout" eq_refl) Hrun).
  destruct (decide (i = k)) as [->|Hne].
  - rewrite getitem_setitem_eq. eexists. split; [done|].
    rewrite lookup_union_r by done.
    rewrite !lookup_insert_ne, lookup_insert_eq by done.
    do 2 f_equal. by destruct (Z.eqb_spec (Z.of_nat k + 1) num_layers);
      [rewrite bool_decide_eq_false_2 by tauto|rewrite bool_decide_eq_true_2].
  - rewrite getitem_setitem_ne by (intros H%lstm_inj; lia).
    apply (IH lk Hlk i). lia.
Qed.

(** X6: in the network that [LSTM] returns, every LSTM layer but the last
    passes the whole sequence on ([return_sequences] is true), and the last
    one does not, unless the caller's keyword arguments set
    [return_sequences] themselves. *)
Theorem LSTM_returns_sequences_between_layers units num_layers input_shape
    output_features activation dropout mode output_activation kwargs net :
  kwargs !! "return_sequences" = None ->
  LSTM units num_layers input_shape output_features activation dropout mode
    output_activation kwargs = Ok net ->
  forall lyr, (lyr < Z.to_nat num_layers)%nat ->
    exists config,
      getitem net ("LSTM_" +:+ pretty lyr) = Some config /\
      config !! "return_sequences"
        = Some (VBool (bool_decide (Z.of_nat lyr + 1 <> num_layers))).
Proof.
  intros Hkw. unfold LSTM. intros Hrun.
  apply rbind_ok in Hrun as (u0 & _ & Hrun).
  apply rbind_ok in Hrun as (u1 & _ & Hrun).
  apply rbind_ok in Hrun as (us & _ & Hrun).
  apply rbind_ok in Hrun as (ds & _ & Hrun).
  apply rbind_ok in Hrun as (acts & _ & Hrun).
  apply rbind_ok in Hrun as (l & Hloop & Hrun). injection Hrun as <-.
  intros lyr Hlyr.
  destruct (LSTM_loop _ _ _ _ _ _ _ _ Hkw Hloop lyr Hlyr) as (config & Hl & Hrs).
  exists config. split; [|done].
  unfold _make_output_layer.
  destruct (output_config mode output_features output_activation) as [outf outa].
  fold (lstm lyr).
  rewrite !getitem_setitem_ne; [done|..]; intros H; symmetry in H; revert H;
    by apply lstm_ne.
Qed.

(** [LSTM(32, num_layers=2, input_shape=(5, 10))]: the first layer
    returns sequences, the second does not. *)
Lemma LSTM_returns_sequences_between_layers_witness :
  exists net c0 c1,
    LSTM (VInt 32) 2 (Some [VInt 5; VInt 10]) 1 VNone VNone "regression" VNone ∅
      = Ok net /\
    getitem net "LSTM_0" = Some c0 /\ c0 !! "return_sequences" = Some (VBool true) /\
    getitem net "LSTM_1" = Some c1 /\ c1 !! "return_sequences" = Some (VBool false).
Proof.
  destruct (LSTM (VInt 32) 2 (Some [VInt 5; VInt 10]) 1 VNone VNone "regression"
              VNone ∅) as [net|e] eqn:Hrun;
    [|exfalso; revert Hrun; vm_compute; discriminate].
  pose proof (LSTM_returns_sequences_between_layers (VInt 32) 2
                (Some [VInt 5; VInt 10]) 1 VNone VNone "regression" VNone ∅ net
                eq_refl Hrun) as Hlayers.
  destruct (Hlayers 0%nat ltac:(simpl; lia)) as (c0 & H0 & Hrs0).
  destruct (Hlayers 1%nat ltac:(simpl; lia)) as (c1 & H1 & Hrs1).
  exists net, c0, c1. split; [reflexivity|]. split; [exact H0|].
  split; [exact Hrs0|]. split; [exact H1|exact Hrs1].
Defined.

(** ** The output layer *)

(** X7: the network that [MLP] or [LSTM] returns has the output layer
    [Dense_out].  A classifier without an output activation gets one
    [sigmoid] unit for two classes or fewer, even when two output features
    were asked for, and a [softmax] over all classes for more; in every
    other case the layer has the units and the activation that were
    given. *)
Theorem output_layer_follows_the_mode units num_layers input_shape
    output_features activation dropout mode output_activation kwargs net :
  MLP units num_layers input_shape output_features activation dropout mode
    output_activation kwargs = Ok net \/
  LSTM units num_layers input_shape output_features activation dropout mode
    output_activation kwargs = Ok net ->
  exists out_units out_activation,
    getitem net "Dense_out"
      = Some (<["units" := VInt out_units]>
                (<["activation" := out_activation]> ∅)) /\
    (output_activation = VNone -> mode = "classification" ->
     output_features <= 2 ->
     out_units = 1 /\ out_activation = VStr "sigmoid") /\
    (output_activation = VNone -> mode = "classification" ->
     2 < output_features ->
     out_units = output_features /\ out_activation = VStr "softmax") /\
    (output_activation <> VNone \/ mode <> "classification" ->
     out_units = output_features /\ out_activation = output_activation).
Proof.
  intros Hrun.
  assert (Hnet : exists l,
            net = _make_output_layer l mode output_features output_activation).
  { destruct Hrun as [Hrun|Hrun]; [unfold MLP in Hrun|unfold LSTM in Hrun].
    - apply rbind_ok in Hrun as (u0 & _ & Hrun).
      apply rbind_ok in Hrun as (us & _ & Hrun).
      apply rbind_ok in Hrun as (ds & _ & Hrun).
      apply rbind_ok in Hrun as (acts & _ & Hrun).
      apply rbind_ok in Hrun as (l & _ & [= <-]). by eexists.
    - apply rbind_ok in Hrun as (u0 & _ & Hrun).
      apply rbind_ok in Hrun as (u1 & _ & Hrun).
      apply rbind_ok in Hrun as (us & _ & Hrun).
      apply rbind_ok in Hrun as (ds & _ & Hrun).
      apply rbind_ok in Hrun as (acts & _ & Hrun).
      apply rbind_ok in Hrun as (l & _ & [= <-]). by eexists. }
  destruct Hnet as (l & ->). unfold _make_output_layer.
  destruct (output_config mode output_features output_activation)
    as [out_units out_activation] eqn:Hout.
  exists out_units, out_activation. split; [apply getitem_setitem_eq|].
  unfold output_config in Hout. split_and!.
  - intros -> -> Hle. simpl in Hout.
    destruct (Z.ltb_spec 2 output_features); [lia|]. by injection Hout as <- <-.
  - intros -> -> Hlt. simpl in Hout.
    destruct (Z.ltb_spec 2 output_features); [|lia]. by injection Hout as <- <-.
  - intros [Hact|Hmode].
    + destruct output_activation; try done; by injection Hout as <- <-.
    + destruct output_activation; try (by injection Hout as <- <-).
      destruct (String.eqb_spec mode "classification"); [done|].
      by injection Hout as <- <-.
Qed.

(** A classifier of two classes built by [MLP(32, output_features=2,
    mode="classification")] ends in one sigmoid unit. *)
Lemma output_layer_follows_the_mode_witness :
  exists net,
    MLP (VInt 32) 1 None 2 VNone VNone "classification" VNone ∅ = Ok net /\
    getitem net "Dense_out"
      = Some (<["units" := VInt 1]> (<["activation" := VStr "sigmoid"]> ∅)).
Proof.
  destruct (MLP (VInt 32) 1 None 2 VNone VNone "classification" VNone ∅)
    as [net|e] eqn:Hrun; [|exfalso; revert Hrun; vm_compute; discriminate].
  exists net. split; [reflexivity|].
  destruct (output_layer_follows_the_mode (VInt 32) 1 None 2 VNone VNone
              "classification" VNone ∅ net (or_introl Hrun))
    as (out_units & out_activation & Hlayer & Hbinary & _ & _).
  destruct (Hbinary eq_refl eq_refl ltac:(lia)) as [-> ->]. exact Hlayer.
Defined.

End ModelsFacts.

(* ===================================================================== *)
(** * Properties of the static search space                               *)
(* ===================================================================== *)

Module DLFacts.
Import Space DL.

(** The static parameters that are switched on, in order. *)
Definition enabled_params (self : DLRegressionExperiments) : list static_param :=
  filter (fun p => enabled self p = true) static_params.

(** As created by [__init__] with [Real(1e-5, 0.005, name="lr")] and no
    model keywords. *)
Definition fresh : DLRegressionExperiments :=
  init_attrs
    {| r_counter := 1; r_num_samples := None; r_step := None;
       r_low := 1e-5; r_high := 0.005; r_prior := "uniform"; r_name := "lr";
       r_grid := None |} ∅.

(** C9: the static default point has one entry per enabled static
    parameter, in the order of the static space; each entry is the user's
    value for that parameter's keyword or, without one, the documented
    default (lookback 5, batch size 32, learning rate 0.001); hence the two
    lists have the same length. *)
Theorem static_x0_matches_static_space (self : DLRegressionExperiments) :
  static_space self = space_of self <$> enabled_params self /\
  static_x0 self
    = (fun p => dict_get (model_kws self) (keyword p) (documented_default p))
        <$> enabled_params self /\
  ((forall p, model_kws self !! keyword p = None) ->
     static_x0 self = documented_default <$> enabled_params self) /\
  length (static_x0 self) = length (static_space self).
Proof.
  assert (Hs : static_space self = space_of self <$> enabled_params self).
  { unfold static_space, enabled_params, static_params, enabled. simpl.
    rewrite !filter_cons, filter_nil. simpl.
    repeat case_decide; repeat destruct (space_truthy _); simpl in *;
      congruence. }
  assert (Hx : static_x0 self
    = (fun p => dict_get (model_kws self) (keyword p) (documented_default p))
        <$> enabled_params self).
  { unfold static_x0, enabled_params, static_params, enabled. simpl.
    rewrite !filter_cons, filter_nil. simpl.
    repeat case_decide; repeat destruct (space_truthy _); simpl in *;
      congruence. }
  repeat split; try done.
  - intros Hnone. rewrite Hx. apply list_fmap_ext. intros _ p _.
    unfold dict_get. by rewrite Hnone.
  - by rewrite Hs, Hx, !length_fmap.
Qed.

(** A fresh experiment has no lookback space: its static point is the
    default batch size and learning rate. *)
Example static_x0_fresh :
  static_x0 fresh = [VInt 32; VFloat 0.001] /\
  length (static_space fresh) = 2%nat.
Proof. split; reflexivity. Qed.

(** With a lookback space and a user-supplied batch size. *)
Example static_x0_override :
  let self :=
    {| lookback_space := SpList [PInteger
         {| i_counter := 1; i_num_samples := None; i_step := None; i_low := 1;
            i_high := 100; i_prior := "uniform"; i_name := "lookback";
            i_grid := None |}];
       batch_size_space := batch_size_space fresh;
       lr_space := lr_space fresh;
       model_kws := {["batch_size" := VInt 16]} |} in
  static_x0 self = [VInt 5; VInt 16; VFloat 0.001] /\
  length (static_space self) = 3%nat.
Proof. split; vm_compute; reflexivity. Qed.

(** ** The builder methods *)

Lemma static_lengths (self : DLRegressionExperiments) :
  length (static_x0 self) = length (static_space self).
Proof.
  unfold static_x0, static_space.
  by destruct (space_truthy (lookback_space self)),
    (space_truthy (batch_size_space self)), (space_truthy (lr_space self)).
Qed.

(** X8: a builder method that returns has split the suggested parameters:
    [batch_size] and [lr] are options of the configuration itself and are
    withheld from the network function, which gets every other parameter
    and the input shape; the configuration has no other key than [model],
    [batch_size] and [lr].  The search space left on the object is the
    architecture's own space followed by the static space, the default
    point likewise, so that the two have the same length whenever the
    architecture's own entries have. *)
Theorem builder_withholds_batch_size_and_lr name net self kws self' config :
  model name net self kws = (self', Ok config) ->
  exists entry shape m,
    spaces self !! name = Some entry /\
    input_shape self = Ok shape /\
    net shape (delete "lr" (delete "batch_size" kws)) = Ok m /\
    config !! "model" = Some m /\
    config !! "batch_size" = kws !! "batch_size" /\
    config !! "lr" = kws !! "lr" /\
    dom config ⊆ {["model"; "batch_size"; "lr"]} /\
    param_space self' = Some (se_param_space entry ++ static_space (attrs self)) /\
    x0 self' = Some (se_x0 entry ++ static_x0 (attrs self)) /\
    (length (se_x0 entry) = length (se_param_space entry) ->
     length <$> x0 self' = length <$> param_space self').
Proof.
  unfold model. destruct (spaces self !! name) as [entry|] eqn:Hentry; [|done].
  intros [= <- Hrun].
  apply SpaceFacts.rbind_ok in Hrun as (shape & Hshape & Hrun).
  apply SpaceFacts.rbind_ok in Hrun as (u & _ & Hrun).
  apply SpaceFacts.rbind_ok in Hrun as (m & Hm & [= <-]).
  exists entry, shape, m. split_and!; try done.
  - rewrite lookup_union_r; [by rewrite lookup_singleton_eq|].
    apply map_lookup_filter_None. right. intros v _. simpl.
    intros Hin. repeat (apply elem_of_cons in Hin as [[=]|Hin]).
    by apply elem_of_nil in Hin.
  - destruct (kws !! "batch_size") as [v|] eqn:Hbs.
    + apply lookup_union_Some_l, map_lookup_filter_Some. split; [done|].
      simpl. left.
    + rewrite lookup_union_r, lookup_singleton_ne; [done..|].
      apply map_lookup_filter_None. by left.
  - destruct (kws !! "lr") as [v|] eqn:Hlr.
    + apply lookup_union_Some_l, map_lookup_filter_Some. split; [done|].
      simpl. right. left.
    + rewrite lookup_union_r, lookup_singleton_ne; [done..|].
      apply map_lookup_filter_None. by left.
  - intros k Hk. apply elem_of_dom in Hk as [v Hk].
    apply lookup_union_Some_raw in Hk as [Hk|[_ Hk]].
    + apply map_lookup_filter_Some in Hk as [_ Hk]. simpl in Hk.
      set_solver.
    + apply lookup_singleton_Some in Hk as [<- _]. set_solver.
  - intros Hlen. simpl. by rewrite !length_app, static_lengths, Hlen.
Qed.

(** An experiment with a table entry for MLP, and a network function
    that only reports what it was given. *)
Definition with_units : DLObject :=
  {| attrs := fresh; input_features := ["tide_cm"; "wat_temp_c"];
     spaces :=
       {["MLP" := {| se_param_space :=
                       [SpDim (PInteger
                          {| i_counter := 1; i_num_samples := None;
                             i_step := None; i_low := 16; i_high := 64;
                             i_prior := "uniform"; i_name := "units";
                             i_grid := None |})];
                     se_x0 := [VInt 32] |}]};
     param_space := None; x0 := None |}.

Definition echo (shape : list pyval) (kws : kwargs) : result pyval :=
  Ok (VDict [("input_shape", VList shape); ("kwargs", VDict (map_to_list kws))]).

(** [model_MLP(units=64, batch_size=16)]: the batch size stays out of
    the network, and the space and the default point have three entries
    each. *)
Lemma builder_withholds_batch_size_and_lr_witness :
  exists self' config,
    model_MLP echo with_units {["units" := VInt 64; "batch_size" := VInt 16]}
      = (self', Ok config) /\
    config !! "batch_size" = Some (VInt 16) /\
    config !! "model"
      = Some (VDict [("input_shape", VList [VInt 2]);
                     ("kwargs", VDict [("units", VInt 64)])]) /\
    length <$> x0 self' = Some 3%nat /\
    length <$> param_space self' = Some 3%nat.
Proof.
  unfold model_MLP.
  assert (Hrun : model "MLP" echo with_units
                   {["units" := VInt 64; "batch_size" := VInt 16]}
                 = ((model "MLP" echo with_units
                       {["units" := VInt 64; "batch_size" := VInt 16]}).1,
                    Ok (<["batch_size" := VInt 16]>
                          {["model" := VDict [("input_shape", VList [VInt 2]);
                                              ("kwargs", VDict [("units", VInt 64)])]]})))
    by (vm_compute; reflexivity).
  destruct (builder_withholds_batch_size_and_lr _ _ _ _ _ _ Hrun)
    as (entry & shape & m & Hentry & Hshape & Hnet & Hmodel & Hbs & _ & _
        & Hps & Hx0 & Hlen).
  eexists _, _. split; [exact Hrun|].
  vm_compute in Hentry. injection Hentry as <-.
  split; [rewrite Hbs; reflexivity|]. split; [reflexivity|].
  rewrite Hx0, Hps. split; reflexivity.
Defined.

End DLFacts.

(* ===================================================================== *)
(** * Properties of the experiment orchestrator                           *)
(* ===================================================================== *)

Module ExpFacts.
Import Space Exp.
Import SpaceFacts (rbind_ok).

Section Reasoning.
Context {collaborators : Collaborators}.

(** ** Successful runs of a computation, step by step *)

Lemma sbind_ok {A B} (m : M A) (k : A -> M B) self self' b :
  sbind m k self = (self', Ok b) ->
  exists a self1, m self = (self1, Ok a) /\ k a self1 = (self', Ok b).
Proof.
  unfold sbind. destruct (m self) as [self1 [a|e]]; [eauto|discriminate].
Qed.

Lemma lift_ok {A} (r : result A) self self' a :
  lift r self = (self', Ok a) -> self' = self /\ r = Ok a.
Proof. unfold lift. by intros [= -> ->]. Qed.

Lemma get_ok {A} (f : Experiments -> A) self self' a :
  get f self = (self', Ok a) -> self' = self /\ a = f self.
Proof. unfold get. by intros [= -> ->]. Qed.

Lemma attr_ok {A} (f : Experiments -> option A) self self' a :
  attr f self = (self', Ok a) -> self' = self /\ f self = Some a.
Proof. unfold attr. destruct (f self); by intros [= -> ->]. Qed.

Lemma modify_ok (f : Experiments -> Experiments) self self' u :
  modify f self = (self', Ok u) -> self' = f self.
Proof. unfold modify. by intros [= ->]. Qed.

Lemma ret_ok {A} (x : A) self self' a :
  ret x self = (self', Ok a) -> self' = self /\ a = x.
Proof. unfold ret. by intros [= -> ->]. Qed.

Lemma raise_ok {A} e self self' (a : A) :
  raise e self = (self', Ok a) -> False.
Proof. unfold raise. by intros [=]. Qed.

(** ** Attributes that a computation leaves alone *)

Definition preserves {T A} (f : Experiments -> T) (m : M A) : Prop :=
  forall self, f (m self).1 = f self.

Lemma preserves_ret {T A} (f : Experiments -> T) (a : A) : preserves f (ret a).
Proof. by intros self. Qed.

Lemma preserves_raise {T A} (f : Experiments -> T) e :
  preserves f (raise e : M A).
Proof. by intros self. Qed.

Lemma preserves_lift {T A} (f : Experiments -> T) (r : result A) :
  preserves f (lift r).
Proof. by intros self. Qed.

Lemma preserves_get {T A} (f : Experiments -> T) (g : Experiments -> A) :
  preserves f (get g).
Proof. by intros self. Qed.

Lemma preserves_attr {T A} (f : Experiments -> T) (g : Experiments -> option A) :
  preserves f (attr g).
Proof. by intros self. Qed.

Lemma preserves_modify {T} (f : Experiments -> T) g :
  (forall self, f (g self) = f self) -> preserves f (modify g).
Proof. intros Hg self. apply Hg. Qed.

Lemma preserves_bind {T A B} (f : Experiments -> T) (m : M A) (k : A -> M B) :
  preserves f m -> (forall a, preserves f (k a)) -> preserves f (sbind m k).
Proof.
  intros Hm Hk self. unfold sbind. specialize (Hm self).
  destruct (m self) as [self1 [a|e]]; simpl in *; [|done].
  by rewrite Hk.
Qed.

Lemma preserves_for_each {T A} (f : Experiments -> T) (l : list A) body :
  (forall x, preserves f (body x)) -> preserves f (for_each l body).
Proof.
  intros Hb. induction l as [|x l IH]; simpl.
  - apply preserves_ret.
  - apply preserves_bind; auto.
Qed.

Lemma preserves_ok {T A} (f : Experiments -> T) (m : M A) self self' r :
  preserves f m -> m self = (self', r) -> f self' = f self.
Proof. intros Hm Hrun. specialize (Hm self). by rewrite Hrun in Hm. Qed.

End Reasoning.

(** Decompose a hypothesis [m self = (self', Ok a)] along the structure
    of [m]. *)
Ltac run_step :=
  match goal with
  | H : sbind _ _ _ = (_, Ok _) |- _ =>
      let a := fresh "x" in
      let s := fresh "self" in
      let H1 := fresh "Hrun" in
      apply sbind_ok in H; destruct H as (a & s & H1 & H)
  | H : lift _ _ = (_, Ok _) |- _ =>
      apply lift_ok in H; destruct H as [-> H]
  | H : get _ _ = (_, Ok _) |- _ =>
      apply get_ok in H; destruct H as [-> ->]
  | H : attr _ _ = (_, Ok _) |- _ =>
      apply attr_ok in H; destruct H as [-> H]
  | H : modify _ _ = (_, Ok _) |- _ =>
      apply modify_ok in H; subst
  | H : ret _ _ = (_, Ok _) |- _ =>
      apply ret_ok in H; destruct H as [-> ->]
  | H : raise _ _ = (_, Ok _) |- _ =>
      by apply raise_ok in H
  | H : (_, Raise _) = (_, Ok _) |- _ => discriminate H
  end.

(** An attribute (or a function of several attributes) that none of the
    steps of a single trial writes: these steps assign [model_],
    [model_kws], [model_iter_metric], [iter_], [cases], [param_space],
    [x0], [optimizer], [opt_results] and [features]. *)
Record trial_frame `{Collaborators} {T} (f : Experiments -> T) : Prop := {
  tf_model_ : forall v self, f (set_model_ v self) = f self;
  tf_model_kws : forall v self, f (set_model_kws v self) = f self;
  tf_model_iter_metric : forall v self, f (set_model_iter_metric v self) = f self;
  tf_iter_ : forall v self, f (set_iter_ v self) = f self;
  tf_cases : forall v self, f (set_cases v self) = f self;
  tf_param_space : forall v self, f (set_param_space v self) = f self;
  tf_x0 : forall v self, f (set_x0 v self) = f self;
  tf_optimizer : forall v self, f (set_optimizer v self) = f self;
  tf_opt_results : forall v self, f (set_opt_results v self) = f self;
  tf_features : forall v self, f (set_features v self) = f self;
}.

(** Not written by [_populate_results] either. *)
Definition metrics_frame `{Collaborators} {T} (f : Experiments -> T) : Prop :=
  forall v self, f (set_metrics v self) = f self.

Ltac solve_frame :=
  first
    [ reflexivity
    | match goal with
      | H : trial_frame ?f |- ?f _ = ?f _ =>
          first [ apply (tf_model_ _ H) | apply (tf_model_kws _ H)
                | apply (tf_model_iter_metric _ H) | apply (tf_iter_ _ H)
                | apply (tf_cases _ H) | apply (tf_param_space _ H)
                | apply (tf_x0 _ H) | apply (tf_optimizer _ H)
                | apply (tf_opt_results _ H) | apply (tf_features _ H) ]
      end
    | match goal with
      | H : metrics_frame ?f |- ?f _ = ?f _ => apply H
      end ].

(** Establish [preserves f m] by following the structure of [m]. *)
Ltac preserves_step :=
  match goal with
  | |- preserves _ (sbind _ _) => apply preserves_bind; [|intros ?]
  | |- preserves _ (ret _) => apply preserves_ret
  | |- preserves _ (raise _) => apply preserves_raise
  | |- preserves _ (lift _) => apply preserves_lift
  | |- preserves _ (get _) => apply preserves_get
  | |- preserves _ (attr _) => apply preserves_attr
  | |- preserves _ (modify _) => apply preserves_modify; intros ?; solve_frame
  | |- preserves _ (for_each _ _) => apply preserves_for_each; intros ?
  | |- preserves _ (match ?x with _ => _ end) => destruct x
  | |- preserves _ (if ?x then _ else _) => destruct x
  end.

Ltac preserves_auto :=
  repeat first [ preserves_step | solve [eauto with preserved] ].

#[local] Create HintDb preserved.

Section Preserved.
Context {collaborators : Collaborators}.
Context {T : Type} (f : Experiments -> T).
Context (Hf : trial_frame f).

Lemma preserves_mode : preserves f mode.
Proof. unfold mode. preserves_auto. Qed.
Hint Resolve preserves_mode : preserved.

Lemma preserves__build title paras : preserves f (_build title paras).
Proof. unfold _build. preserves_auto. Qed.
Hint Resolve preserves__build : preserved.

Lemma preserves__fit data cv : preserves f (_fit data cv).
Proof. unfold _fit. preserves_auto. Qed.
Hint Resolve preserves__fit : preserved.

Lemma preserves__evaluate data : preserves f (_evaluate data).
Proof. unfold _evaluate. preserves_auto. Qed.
Hint Resolve preserves__evaluate : preserved.

Lemma preserves__predict data : preserves f (_predict data).
Proof. unfold _predict. preserves_auto. Qed.
Hint Resolve preserves__predict : preserved.

Lemma preserves__build_and_run data predict title cv config :
  preserves f (_build_and_run data predict title cv config).
Proof. unfold _build_and_run. preserves_auto. Qed.
Hint Resolve preserves__build_and_run : preserved.

Lemma preserves_build_from_config data path weights :
  preserves f (build_from_config data path weights).
Proof. unfold build_from_config. preserves_auto. Qed.
Hint Resolve preserves_build_from_config : preserved.

Lemma preserves_call_builder b paras : preserves f (call_builder b paras).
Proof. unfold call_builder. preserves_auto. Qed.
Hint Resolve preserves_call_builder : preserved.

Lemma preserves_objective_fn data predict cv model_type model_name paras :
  preserves f (objective_fn data predict cv model_type model_name paras).
Proof. unfold objective_fn. preserves_auto. Qed.
Hint Resolve preserves_objective_fn : preserved.

Lemma preserves_run_trials objective suggest n hist :
  (forall x, preserves f (objective x)) ->
  preserves f (run_trials objective suggest n hist).
Proof.
  intros Hobj. revert hist. induction n as [|n IH]; intros hist; simpl;
    preserves_auto.
Qed.
Hint Resolve preserves_run_trials : preserved.

Lemma preserves_optimize method objective opt_dir n hpo_kws :
  (forall x, preserves f (objective x)) ->
  preserves f (optimize method objective opt_dir n hpo_kws).
Proof. intros Hobj. unfold optimize. preserves_auto. Qed.
Hint Resolve preserves_optimize : preserved.

(** The steps that record results also write [metrics]. *)
Context (Hm : metrics_frame f).

Lemma preserves__populate_results model_type train test :
  preserves f (_populate_results model_type train test).
Proof. unfold _populate_results. preserves_auto. Qed.
Hint Resolve preserves__populate_results : preserved.

Lemma preserves_train_best data model_type :
  preserves f (train_best data model_type).
Proof. unfold train_best. preserves_auto. Qed.
Hint Resolve preserves_train_best : preserved.

Lemma preserves_eval_best data model_type opt_dir :
  preserves f (eval_best data model_type opt_dir).
Proof. unfold eval_best. preserves_auto. Qed.

End Preserved.

(** ** One trial: [_evaluate] *)

Section Evaluate.
Context {collaborators : Collaborators}.

(** The dictionary built by the loop over [monitor] holds, for every
    monitored name, the value the calculator returns for it, and nothing
    else is added. *)
Lemma monitor_metrics_spec calc mon acc res :
  monitor_metrics calc mon acc = Ok res ->
  (forall name, name ∈ mon ->
     exists x, metric_call calc name = Ok x /\ res !! name = Some x) /\
  (forall name, name ∉ mon -> res !! name = acc !! name).
Proof.
  revert acc. induction mon as [|metric rest IH]; intros acc Hres; simpl in *.
  - injection Hres as <-. split; [|done]. intros name Hin. by apply elem_of_nil in Hin.
  - apply rbind_ok in Hres as (v & Hv & Hres).
    destruct (IH _ Hres) as [IHin IHout]. split.
    + intros name Hin. destruct (decide (name ∈ rest)) as [Hrest|Hrest]; [by apply IHin|].
      apply elem_of_cons in Hin as [->|Hin]; [|done].
      exists v. split; [done|]. by rewrite IHout, lookup_insert_eq.
    + intros name Hout. apply not_elem_of_cons in Hout as [Hne Hout].
      by rewrite IHout, lookup_insert_ne.
Qed.

(** The options [_evaluate] passes to the metrics calculator. *)
Definition evaluate_opts (m : Model) : metric_opts :=
  {| remove_zero := true; remove_neg := true; multiclass := is_multiclass m |}.

Lemma mode_ok self self' md : mode self = (self', Ok md) -> self' = self.
Proof.
  intros Hrun.
  apply (preserves_ok (fun s => s) mode self self' (Ok md)); [|done].
  unfold mode. preserves_auto.
Qed.

(** What a successful [_evaluate] did. *)
Lemma _evaluate_ok data self self' v :
  _evaluate data self = (self', Ok v) ->
  exists m t p md calc mon rec raw cvm,
    model_ self = Some m /\
    model_predict m data false = Ok (t, p) /\
    mode self = (self, Ok md) /\
    Metrics md t p (evaluate_opts m) = Ok calc /\
    monitor self = Some mon /\
    monitor_metrics calc mon ∅ = Ok rec /\
    metric_call calc (val_metric m) = Ok raw /\
    model_config m !! "val_metric" = Some cvm /\
    v = finite_or_sentinel (oriented_score cvm raw) /\
    model_iter_metric self' = <[iter_ self := rec]> (model_iter_metric self) /\
    iter_ self' = iter_ self + 1.
Proof.
  unfold _evaluate. intros Hrun.
  apply sbind_ok in Hrun as (m & s1 & Hm & Hrun). apply attr_ok in Hm as [-> Hm].
  apply sbind_ok in Hrun as ([t p] & s1 & Hp & Hrun). apply lift_ok in Hp as [-> Hp].
  apply sbind_ok in Hrun as (md & s1 & Hmd & Hrun).
  pose proof (mode_ok _ _ _ Hmd) as ->.
  apply sbind_ok in Hrun as (calc & s1 & Hcalc & Hrun).
  apply lift_ok in Hcalc as [-> Hcalc].
  apply sbind_ok in Hrun as (mon & s1 & Hmon & Hrun).
  apply attr_ok in Hmon as [-> Hmon].
  apply sbind_ok in Hrun as (rec & s1 & Hrec & Hrun).
  apply lift_ok in Hrec as [-> Hrec].
  apply sbind_ok in Hrun as (u1 & s1 & Hset & Hrun). apply modify_ok in Hset as ->.
  apply sbind_ok in Hrun as (u2 & s1 & Hinc & Hrun). apply modify_ok in Hinc as ->.
  apply sbind_ok in Hrun as (raw & s1 & Hraw & Hrun). apply lift_ok in Hraw as [-> Hraw].
  apply sbind_ok in Hrun as (cvm & s1 & Hcvm & Hrun). apply lift_ok in Hcvm as [-> Hcvm].
  apply ret_ok in Hrun as [-> ->].
  exists m, t, p, md, calc, mon, rec, raw, cvm.
  destruct (model_config m !! "val_metric"); [|done].
  injection Hcvm as ->. by repeat split.
Qed.

(** The statement of C1 as it is written, for one trial: the returned
    objective is finite, and when the sentinel was substituted the record
    of the trial shows a non-finite raw value. *)
Definition finite_objective_and_raw_value_recorded
    (data : pred_data Data) (self : Experiments) : Prop :=
  forall self' v, _evaluate data self = (self', Ok v) ->
    math_isfinite v = Ok true /\
    exists rec, model_iter_metric self' !! iter_ self = Some rec /\
      (v = VInt 9999 ->
       exists name x, rec !! name = Some x /\ PrimFloat.is_finite x = false).

(** C1, as amended: a trial that is evaluated returns a finite objective;
    a non-finite score is replaced by 9999, a finite one is returned as it
    is; the record of the trial, stored under the iteration index the
    trial started with, holds the raw value of every monitored metric and
    of no other, so it shows the raw validation metric exactly when that
    metric is one of the monitored ones. *)
Theorem evaluate_returns_finite_objective data self self' v :
  _evaluate data self = (self', Ok v) ->
  math_isfinite v = Ok true /\
  exists m t p md calc mon rec raw cvm,
    model_ self = Some m /\
    model_predict m data false = Ok (t, p) /\
    Metrics md t p (evaluate_opts m) = Ok calc /\
    monitor self = Some mon /\
    metric_call calc (val_metric m) = Ok raw /\
    model_config m !! "val_metric" = Some cvm /\
    (PrimFloat.is_finite (oriented_score cvm raw) = false -> v = VInt 9999) /\
    (PrimFloat.is_finite (oriented_score cvm raw) = true ->
       v = VFloat (oriented_score cvm raw)) /\
    model_iter_metric self' !! iter_ self = Some rec /\
    iter_ self' = iter_ self + 1 /\
    (forall name, name ∈ mon ->
       exists x, metric_call calc name = Ok x /\ rec !! name = Some x) /\
    (forall name, name ∉ mon -> rec !! name = None) /\
    (val_metric m ∈ mon -> rec !! val_metric m = Some raw).
Proof.
  intros Hrun.
  apply _evaluate_ok in Hrun
    as (m & t & p & md & calc & mon & rec & raw & cvm & Hm & Hp & _ & Hcalc
        & Hmon & Hrec & Hraw & Hcvm & -> & Hrecord & Hiter).
  destruct (monitor_metrics_spec _ _ _ _ Hrec) as [Hin Hout].
  split.
  - unfold finite_or_sentinel.
    by destruct (PrimFloat.is_finite (oriented_score cvm raw)) eqn:Hfin;
      simpl; rewrite ?Hfin.
  - exists m, t, p, md, calc, mon, rec, raw, cvm.
    split_and!; try done.
    + unfold finite_or_sentinel. by intros ->.
    + unfold finite_or_sentinel. by intros ->.
    + by rewrite Hrecord, lookup_insert_eq.
    + intros Hval. destruct (Hin _ Hval) as (x & Hx & Hlook). congruence.
Qed.

(** C3: the score of a trial, before the check for finiteness, is the
    value of the model's validation metric, subtracted from 1.0 when the
    configured validation metric is one of r2, nse, kge, r2_mod, r2_adj,
    r2_score, accuracy, f1_score, and taken as it is otherwise. *)
Theorem evaluate_orients_validation_metric data self self' v :
  _evaluate data self = (self', Ok v) ->
  exists m t p md calc raw cvm score,
    model_ self = Some m /\
    model_predict m data false = Ok (t, p) /\
    Metrics md t p (evaluate_opts m) = Ok calc /\
    metric_call calc (val_metric m) = Ok raw /\
    model_config m !! "val_metric" = Some cvm /\
    score = (if in_strs cvm ["r2"; "nse"; "kge"; "r2_mod"; "r2_adj";
                             "r2_score"; "accuracy"; "f1_score"]
             then (1.0 - raw)%float else raw) /\
    v = (if PrimFloat.is_finite score then VFloat score else VInt 9999).
Proof.
  intros Hrun.
  apply _evaluate_ok in Hrun
    as (m & t & p & md & calc & mon & rec & raw & cvm & Hm & Hp & _ & Hcalc
        & Hmon & Hrec & Hraw & Hcvm & -> & _).
  exists m, t, p, md, calc, raw, cvm, (oriented_score cvm raw).
  split_and!; try done.
  unfold finite_or_sentinel. by destruct (PrimFloat.is_finite _).
Qed.

End Evaluate.

(** *** The trial on the concrete collaborators *)

Section EvaluateExamples.
Import Toy.

(** A regression experiment whose validation metric, [nse], is monitored
    and evaluates to NaN. *)
Definition nse_search : @Experiments (toy []) :=
  in_search DLRegressionExperiments regression {["val_metric" := VStr "nse"]} 3.

(** The fourth trial returns the sentinel, and its record, under index 3,
    shows the NaN. *)
Lemma evaluate_returns_finite_objective_witness :
  exists self' rec,
    _evaluate (Split "validation") nse_search = (self', Ok (VInt 9999)) /\
    model_iter_metric self' !! 3 = Some rec /\
    rec !! "nse" = Some nan /\
    iter_ self' = 4.
Proof.
  assert (Hrun : _evaluate (Split "validation") nse_search
                 = ((_evaluate (Split "validation") nse_search).1, Ok (VInt 9999)))
    by (vm_compute; reflexivity).
  destruct (evaluate_returns_finite_objective _ _ _ _ Hrun)
    as [_ (m & t & p & md & calc & mon & rec & raw & cvm & Hm & _ & _ & Hmon
           & Hraw & _ & _ & _ & Hrec & Hiter & _ & _ & Hval)].
  injection Hm as <-. injection Hmon as <-. injection Hraw as <-.
  eexists _, rec. split; [exact Hrun|]. split; [exact Hrec|].
  split; [|exact Hiter].
  apply Hval. vm_compute. set_solver.
Defined.

(** A regression experiment validated on [r2], which evaluates to 0.75. *)
Definition r2_search : @Experiments (toy []) :=
  in_search DLRegressionExperiments regression {["val_metric" := VStr "r2"]} 0.

(** The trial returns [1.0 - 0.75]. *)
Lemma evaluate_orients_validation_metric_witness :
  exists self' v,
    _evaluate (Split "validation") r2_search = (self', Ok v) /\
    v = VFloat (1.0 - 0.75).
Proof.
  assert (Hrun : _evaluate (Split "validation") r2_search
                 = ((_evaluate (Split "validation") r2_search).1, Ok (VFloat 0.25)))
    by (vm_compute; reflexivity).
  destruct (evaluate_orients_validation_metric _ _ _ _ Hrun)
    as (m & t & p & md & calc & raw & cvm & score & Hm & _ & _ & Hraw & Hcvm
        & Hscore & Hv).
  injection Hm as <-. injection Hraw as <-.
  vm_compute in Hcvm. injection Hcvm as <-.
  eexists _, _. split; [exact Hrun|].
  rewrite Hv, Hscore. vm_compute. reflexivity.
Defined.

(** A classification experiment validated on [f1_score], which is not one
    of the monitored metrics of that mode and evaluates to NaN. *)
Definition f1_search : @Experiments (toy []) :=
  in_search (Subclass (Some classification)) classification
    {["val_metric" := VStr "f1_score"]} 3.

(** C1, as stated, fails on that trial: the sentinel is returned, and the
    record holds accuracy, precision, recall and mse, all finite. *)
Lemma evaluate_raw_value_not_recorded :
  ~ finite_objective_and_raw_value_recorded (Split "validation") f1_search.
Proof.
  intros Hclaim.
  destruct (Hclaim (_evaluate (Split "validation") f1_search).1 (VInt 9999)
              ltac:(vm_compute; reflexivity)) as [_ (rec & Hrec & Hraw)].
  destruct (Hraw eq_refl) as (name & x & Hx & Hfin).
  pose (recorded := <["accuracy" := 0.25%float]> (<["precision" := 0.25%float]>
          (<["recall" := 0.25%float]> (<["mse" := 0.25%float]>
             (∅ : gmap string float))))).
  assert (Hstored :
    model_iter_metric (_evaluate (Split "validation") f1_search).1
      !! iter_ f1_search = Some recorded) by (vm_compute; reflexivity).
  rewrite Hstored in Hrec. injection Hrec as <-.
  assert (Hall : map_Forall (fun _ y => PrimFloat.is_finite y = true) recorded).
  { unfold recorded. repeat apply map_Forall_insert_2; try reflexivity.
    apply map_Forall_empty. }
  pose proof (Hall name x Hx) as Hx'. simpl in Hx'. congruence.
Qed.

End EvaluateExamples.

(** ** Recording results: [_populate_results] *)

(** Conditions on the state that successful steps maintain. *)
Definition keeps `{Collaborators} {A} (P : Experiments -> Prop) (m : M A) : Prop :=
  forall self self' a, P self -> m self = (self', Ok a) -> P self'.

Section Keeps.
Context {collaborators : Collaborators}.

Lemma keeps_bind {A B} P (m : M A) (k : A -> M B) :
  keeps P m -> (forall a, keeps P (k a)) -> keeps P (sbind m k).
Proof.
  intros Hm Hk self self' b HP Hrun.
  apply sbind_ok in Hrun as (a & self1 & Hrun1 & Hrun2).
  apply (Hk a self1 self' b); [|done]. by apply (Hm self self1 a).
Qed.

Lemma keeps_ret {A} P (a : A) : keeps P (ret a).
Proof. intros self self' b HP Hrun. by apply ret_ok in Hrun as [-> _]. Qed.

Lemma keeps_raise {A} P e : keeps P (raise e : M A).
Proof. intros self self' b HP Hrun. by apply raise_ok in Hrun. Qed.

Lemma keeps_lift {A} P (r : result A) : keeps P (lift r).
Proof. intros self self' b HP Hrun. by apply lift_ok in Hrun as [-> _]. Qed.

Lemma keeps_get {A} P (g : Experiments -> A) : keeps P (get g).
Proof. intros self self' b HP Hrun. by apply get_ok in Hrun as [-> _]. Qed.

Lemma keeps_attr {A} P (g : Experiments -> option A) : keeps P (attr g).
Proof. intros self self' b HP Hrun. by apply attr_ok in Hrun as [-> _]. Qed.

Lemma keeps_modify P g : (forall self, P self -> P (g self)) -> keeps P (modify g).
Proof. intros Hg self self' b HP Hrun. apply modify_ok in Hrun as ->. auto. Qed.

Lemma keeps_for_each {A} P (l : list A) body :
  (forall x, keeps P (body x)) -> keeps P (for_each l body).
Proof.
  intros Hb. induction l as [|x l IH]; simpl.
  - apply keeps_ret.
  - apply keeps_bind; auto.
Qed.

(** A condition on attributes that a computation never writes is
    maintained. *)
Lemma preserves_keeps {T A} (f : Experiments -> T) (R : T -> Prop) (m : M A) :
  preserves f m -> keeps (fun self => R (f self)) m.
Proof.
  intros Hm self self' a HP Hrun. by rewrite (preserves_ok f m _ _ _ Hm Hrun).
Qed.

End Keeps.

Ltac keeps_step :=
  match goal with
  | |- keeps _ (sbind _ _) => apply keeps_bind; [|intros ?]
  | |- keeps _ (ret _) => apply keeps_ret
  | |- keeps _ (raise _) => apply keeps_raise
  | |- keeps _ (lift _) => apply keeps_lift
  | |- keeps _ (get _) => apply keeps_get
  | |- keeps _ (attr _) => apply keeps_attr
  | |- keeps _ (modify _) => apply keeps_modify; intros ? ?; assumption
  | |- keeps _ (for_each _ _) => apply keeps_for_each; intros ?
  | |- keeps _ (match ?x with _ => _ end) => destruct x
  | |- keeps _ (if ?x then _ else _) => destruct x
  end.


#[local] Create HintDb kept.

Section Recording.
Context {collaborators : Collaborators}.

(** An entry of the metrics table is complete for the monitored names
    [mon] when its keys are exactly [train] and [test] and each of the two
    dictionaries has a value for every monitored name. *)
Definition entry_complete (mon : list string)
    (e : gmap string (gmap string float)) : Prop :=
  dom e = {["train"; "test"]} /\
  forall part, part ∈ ["train"; "test"] ->
    exists row, e !! part = Some row /\
      forall name, name ∈ mon -> is_Some (row !! name).

(** The table has a complete entry under [key]. *)
Definition recorded (mon : list string) (key : string) (self : Experiments) : Prop :=
  monitor self = Some mon /\
  exists e, metrics self !! key = Some e /\ entry_complete mon e.

Lemma entry_complete_intro mon train_metrics test_metrics :
  (forall name, name ∈ mon -> is_Some (train_metrics !! name)) ->
  (forall name, name ∈ mon -> is_Some (test_metrics !! name)) ->
  entry_complete mon (<["train" := train_metrics]> (<["test" := test_metrics]> ∅)).
Proof.
  intros Htrain Htest. split.
  - rewrite !dom_insert_L, dom_empty_L. set_solver.
  - intros part Hpart.
    apply elem_of_cons in Hpart as [->|Hpart].
    + exists train_metrics. by rewrite lookup_insert_eq.
    + apply list_elem_of_singleton in Hpart as ->.
      exists test_metrics. by rewrite lookup_insert_ne, lookup_insert_eq.
Qed.

Lemma populate_key model_type :
  (if negb (startswith model_type "model_")
   then "model_" +:+ model_type else model_type) = canonical model_type.
Proof. unfold canonical. by destruct (startswith _ _). Qed.

(** What a successful [_populate_results] did to the metrics table. *)
Lemma _populate_results_ok model_type train test self self' u :
  _populate_results model_type train test self = (self', Ok u) ->
  exists mon train_metrics test_metrics,
    monitor self = Some mon /\
    monitor self' = Some mon /\
    entry_complete mon (<["train" := train_metrics]> (<["test" := test_metrics]> ∅)) /\
    metrics self'
      = <[canonical model_type := <["train" := train_metrics]>
                                  (<["test" := test_metrics]> ∅)]> (metrics self).
Proof.
  unfold _populate_results. rewrite populate_key. intros Hrun.
  apply sbind_ok in Hrun as (u1 & s1 & Hf & Hrun). apply modify_ok in Hf as ->.
  apply sbind_ok in Hrun as (md & s1 & Hmd & Hrun).
  pose proof (mode_ok _ _ _ Hmd) as ->.
  apply sbind_ok in Hrun as (m & s1 & Hm & Hrun). apply attr_ok in Hm as [-> Hm].
  apply sbind_ok in Hrun as (calc1 & s1 & Hc1 & Hrun). apply lift_ok in Hc1 as [-> Hc1].
  apply sbind_ok in Hrun as (mon & s1 & Hmon & Hrun). apply attr_ok in Hmon as [-> Hmon].
  apply sbind_ok in Hrun as (train_metrics & s1 & Htr & Hrun).
  apply lift_ok in Htr as [-> Htr].
  apply sbind_ok in Hrun as (calc2 & s1 & Hc2 & Hrun). apply lift_ok in Hc2 as [-> Hc2].
  apply sbind_ok in Hrun as (mon2 & s1 & Hmon2 & Hrun).
  apply attr_ok in Hmon2 as [-> Hmon2].
  apply sbind_ok in Hrun as (test_metrics & s1 & Hte & Hrun).
  apply lift_ok in Hte as [-> Hte].
  apply modify_ok in Hrun as ->.
  simpl in Hmon, Hmon2. assert (mon2 = mon) as -> by congruence.
  exists mon, train_metrics, test_metrics. split_and!; try done.
  apply entry_complete_intro.
  - intros name Hname.
    destruct (monitor_metrics_spec _ _ _ _ Htr) as [Hin _].
    destruct (Hin _ Hname) as (x & _ & Hx). by exists x.
  - intros name Hname.
    destruct (monitor_metrics_spec _ _ _ _ Hte) as [Hin _].
    destruct (Hin _ Hname) as (x & _ & Hx). by exists x.
Qed.

(** Recording results for a variant gives it a complete entry ... *)
Lemma _populate_results_records mon model_type train test self self' u :
  monitor self = Some mon ->
  _populate_results model_type train test self = (self', Ok u) ->
  recorded mon (canonical model_type) self'.
Proof.
  intros Hmon Hrun.
  apply _populate_results_ok in Hrun
    as (mon' & trm & tem & Hmon' & Hmon'' & Hentry & Hmetrics).
  assert (mon' = mon) as -> by congruence.
  split; [done|]. eexists. split; [|exact Hentry].
  by rewrite Hmetrics, lookup_insert_eq.
Qed.

(** ... and keeps the complete entries of the others. *)
Lemma keeps__populate_results mon key model_type train test :
  keeps (recorded mon key) (_populate_results model_type train test).
Proof.
  intros self self' u [Hmon (e & He & Hentry)] Hrun.
  apply _populate_results_ok in Hrun
    as (mon' & trm & tem & Hmon' & Hmon'' & Hentry' & Hmetrics).
  assert (mon' = mon) as -> by congruence.
  split; [done|]. rewrite Hmetrics.
  destruct (decide (canonical model_type = key)) as [<-|Hne].
  - eexists. by rewrite lookup_insert_eq.
  - exists e. by rewrite lookup_insert_ne.
Qed.

End Recording.

(** ** One variant: [train_best], [eval_best], the loop body of [fit] *)

#[local] Hint Resolve preserves_mode preserves__build preserves__fit
  preserves__evaluate preserves__predict preserves__build_and_run
  preserves_build_from_config preserves_call_builder preserves_objective_fn
  preserves_run_trials preserves_optimize preserves__populate_results
  preserves_train_best preserves_eval_best : preserved.

Section Variant.
Context {collaborators : Collaborators}.

(** The monitored names and the metrics table together. *)
Definition monitored_metrics (self : Experiments) :=
  (monitor self, metrics self).

Lemma trial_frame_monitored_metrics : trial_frame monitored_metrics.
Proof. by split. Qed.

Lemma trial_frame_monitor : trial_frame monitor.
Proof. by split. Qed.

Lemma metrics_frame_monitor : metrics_frame monitor.
Proof. done. Qed.

Lemma trial_frame_eval_models : trial_frame eval_models.
Proof. by split. Qed.

Lemma metrics_frame_eval_models : metrics_frame eval_models.
Proof. done. Qed.

Hint Resolve trial_frame_monitored_metrics trial_frame_monitor
  metrics_frame_monitor trial_frame_eval_models metrics_frame_eval_models
  : preserved.

(** A step that writes neither [monitor] nor [metrics] keeps the
    complete entries. *)
Lemma keeps_recorded {A} mon key (m : M A) :
  preserves monitored_metrics m -> keeps (recorded mon key) m.
Proof.
  intros Hm.
  apply (preserves_keeps monitored_metrics
           (fun x => x.1 = Some mon /\
                     exists e, x.2 !! key = Some e /\ entry_complete mon e) m Hm).
Qed.


Lemma keeps_recorded__build_and_run mon key data predict title cv config :
  keeps (recorded mon key) (_build_and_run data predict title cv config).
Proof. apply keeps_recorded. eauto with preserved. Qed.

Lemma keeps_recorded_objective_fn mon key data predict cv model_type model_name paras :
  keeps (recorded mon key)
    (objective_fn data predict cv model_type model_name paras).
Proof. apply keeps_recorded. eauto with preserved. Qed.

Lemma keeps_recorded_build_from_config mon key data path weights :
  keeps (recorded mon key) (build_from_config data path weights).
Proof. apply keeps_recorded. eauto with preserved. Qed.

Lemma keeps_recorded_call_builder mon key b paras :
  keeps (recorded mon key) (call_builder b paras).
Proof. apply keeps_recorded. eauto with preserved. Qed.


Hint Resolve keeps_recorded__build_and_run keeps_recorded_objective_fn
  keeps_recorded_build_from_config keeps_recorded_call_builder
  keeps__populate_results : kept.





(** *** What a successful dry pass did *)

(** The parameters that reach [Model]: the suggested ones, passed through
    [update_paras] by [TransformationExperiments]. *)
Definition model_paras (c : ExpClass) (suggested paras : kwargs) : Prop :=
  match c with
  | TransformationExperiments => update_paras suggested = Ok paras
  | _ => paras = suggested
  end.

Lemma _build_ok title suggested self self' u :
  _build title suggested self = (self', Ok u) ->
  exists kws verbosity paras m,
    model_kws self = Some kws /\
    model_paras (cls self) suggested paras /\
    Model_new title verbosity (delete "verbosity" kws ∪ paras) = Ok m /\
    model_ self' = Some m /\
    monitor self' = monitor self /\ optimizer self' = optimizer self.
Proof.
  unfold _build. intros Hrun.
  apply sbind_ok in Hrun as (v & s1 & Hv & Hrun). apply get_ok in Hv as [-> ->].
  apply sbind_ok in Hrun as (kws & s1 & Hkws & Hrun). apply attr_ok in Hkws as [-> Hkws].
  apply sbind_ok in Hrun as (verbosity & s1 & Hpop & Hrun).
  apply sbind_ok in Hrun as (kws' & s2 & Hkws' & Hrun).
  apply attr_ok in Hkws' as [-> Hkws'].
  apply sbind_ok in Hrun as (c & s2 & Hc & Hrun). apply get_ok in Hc as [-> ->].
  apply sbind_ok in Hrun as (paras & s2 & Hparas & Hrun).
  apply sbind_ok in Hrun as (m & s3 & Hnew & Hrun). apply lift_ok in Hnew as [-> Hnew].
  apply modify_ok in Hrun as ->.
  assert (Hs1 : cls s1 = cls self /\ monitor s1 = monitor self /\
                optimizer s1 = optimizer self /\
                model_kws s1 = Some (delete "verbosity" kws)).
  { destruct (kws !! "verbosity") as [v'|] eqn:Hlook.
    - apply sbind_ok in Hpop as (u1 & s0 & Hmod & Hret).
      apply modify_ok in Hmod as ->. apply ret_ok in Hret as [-> _]. by simpl.
    - apply ret_ok in Hpop as [-> _]. split_and!; try done.
      by rewrite Hkws, delete_id. }
  destruct Hs1 as (Hcls & Hmonitor & Hopt & Hkws1).
  assert (kws' = delete "verbosity" kws) as -> by congruence.
  assert (Hs2 : s2 = s1 /\ model_paras (cls self) suggested paras).
  { rewrite <- Hcls. unfold model_paras.
    destruct (cls s1); first [ apply ret_ok in Hparas as [-> ->]
                             | apply lift_ok in Hparas as [-> Hparas] ]; by split. }
  destruct Hs2 as [-> Hmp].
  exists kws, verbosity, paras, m. split_and!; try done.
  destruct (_ && _); [done|discriminate].
Qed.

Lemma _fit_ok data self self' u :
  _fit data false self = (self', Ok u) ->
  exists m m', model_ self = Some m /\ model_fit m data = Ok m' /\
    model_ self' = Some m' /\
    monitor self' = monitor self /\ optimizer self' = optimizer self.
Proof.
  unfold _fit. intros Hrun.
  apply sbind_ok in Hrun as (m & s1 & Hm & Hrun). apply attr_ok in Hm as [-> Hm].
  apply sbind_ok in Hrun as (m' & s1 & Hfit & Hrun). apply lift_ok in Hfit as [-> Hfit].
  apply modify_ok in Hrun as ->. by exists m, m'.
Qed.

Lemma _predict_ok data self self' out :
  _predict data self = (self', Ok out) ->
  exists m, model_ self = Some m /\ self' = self /\
    model_predict m (Given data) true = Ok out.2 /\
    model_predict m (Split "training") true = Ok out.1.
Proof.
  unfold _predict. intros Hrun.
  apply sbind_ok in Hrun as (m & s1 & Hm & Hrun). apply attr_ok in Hm as [-> Hm].
  apply sbind_ok in Hrun as (test & s1 & Hte & Hrun). apply lift_ok in Hte as [-> Hte].
  apply sbind_ok in Hrun as (train & s1 & Htr & Hrun). apply lift_ok in Htr as [-> Htr].
  apply ret_ok in Hrun as [-> ->]. by exists m.
Qed.

(** A run with [predict=True] and without cross-validation builds a model
    from the configuration, trains it on the data and returns its
    predictions on the training split and on the data. *)
Lemma _build_and_run_predict_ok data title config self self' out :
  _build_and_run data true title false config self = (self', Ok out) ->
  exists kws verbosity paras m m' train test,
    model_kws self = Some kws /\
    model_paras (cls self) (delete "view" config) paras /\
    Model_new title verbosity (delete "verbosity" kws ∪ paras) = Ok m /\
    model_fit m data = Ok m' /\
    model_ self' = Some m' /\
    model_predict m' (Split "training") true = Ok train /\
    model_predict m' (Given data) true = Ok test /\
    out = Predictions train test /\
    monitor self' = monitor self /\ optimizer self' = optimizer self.
Proof.
  unfold _build_and_run. intros Hrun.
  apply sbind_ok in Hrun as (u0 & s0 & Hkeys & Hrun).
  assert (s0 = self) as ->.
  { destruct (bool_decide _); [by apply ret_ok in Hkeys as [-> _]
                              | by apply raise_ok in Hkeys]. }
  apply sbind_ok in Hrun as (u1 & s1 & Hbuild & Hrun).
  apply sbind_ok in Hrun as (u2 & s2 & Hfit & Hrun).
  apply sbind_ok in Hrun as (u3 & s3 & Hview & Hrun).
  assert (s3 = s2) as ->.
  { destruct (truthy _); [by apply raise_ok in Hview
                         | by apply ret_ok in Hview as [-> _]]. }
  apply sbind_ok in Hrun as ([train test] & s3 & Hpred & Hrun).
  apply ret_ok in Hrun as [-> ->].
  apply _build_ok in Hbuild
    as (kws & verbosity & paras & m & Hkws & Hparas & Hnew & Hm & Hmon1 & Hopt1).
  apply _fit_ok in Hfit as (m0 & m' & Hm0 & Hfit & Hm' & Hmon2 & Hopt2).
  assert (m0 = m) as -> by congruence.
  apply _predict_ok in Hpred as (m1 & Hm1 & -> & Htest & Htrain).
  assert (m1 = m') as -> by congruence.
  exists kws, verbosity, paras, m, m', train, test.
  split_and!; try done; congruence.
Qed.

(** [train_best] rebuilds a model under the title [.../best] from the best
    assignment of the optimizer, trains it, and records its results. *)
Lemma train_best_ok data model_type self self' u :
  train_best data model_type self = (self', Ok u) ->
  exists opt which kws verbosity paras m m',
    optimizer self = Some opt /\
    model_kws self = Some kws /\
    model_paras (cls self)
      {["model" := VDict [(which, VDict (map_to_list (backend_best (history opt))))]]}
      paras /\
    Model_new (exp_name self +:+ SEP +:+ model_type +:+ SEP +:+ "best")
      verbosity (delete "verbosity" kws ∪ paras) = Ok m /\
    model_fit m data = Ok m' /\
    model_ self' = Some m' /\
    forall mon, monitor self = Some mon -> recorded mon (canonical model_type) self'.
Proof.
  unfold train_best. intros Hrun.
  apply sbind_ok in Hrun as (opt & s1 & Hopt & Hrun). apply attr_ok in Hopt as [-> Hopt].
  apply sbind_ok in Hrun as (deep & s1 & Hdeep & Hrun). apply lift_ok in Hdeep as [-> _].
  apply sbind_ok in Hrun as (name & s1 & Hname & Hrun). apply get_ok in Hname as [-> ->].
  apply sbind_ok in Hrun as (out & s1 & Hbr & Hrun).
  apply _build_and_run_predict_ok in Hbr
    as (kws & verbosity & paras & m & m' & train & test & Hkws & Hparas & Hnew
        & Hfit & Hm' & _ & _ & -> & Hmon & _).
  rewrite delete_singleton_ne in Hparas by done.
  exists opt, (if deep then "layers" else model_type), kws, verbosity, paras, m, m'.
  split_and!; try done.
  - assert (Hp : preserves model_ (_populate_results model_type train test))
      by (unfold _populate_results; preserves_auto).
    by rewrite (preserves_ok _ _ _ _ _ Hp Hrun).
  - intros mon Hmonitor. eapply _populate_results_records; [|exact Hrun]. congruence.
Qed.




(** Attributes that the loop body writes only in its bookkeeping after the
    run: a frame of the trial steps that [metrics] and
    [optimized_models] do not touch either. *)
Lemma preserves_run_model {T} (f : Experiments -> T) data run_type opt_method
    n cv post hpo_kws predict model_type model_name :
  trial_frame f -> metrics_frame f ->
  (forall v self, f (set_optimized_models v self) = f self) ->
  preserves f
    (run_model data run_type opt_method n cv post hpo_kws predict model_type
       model_name).
Proof.
  intros Hf Hm Ho. unfold run_model. preserves_auto.
  apply preserves_modify. intros s. apply Ho.
Qed.


(** C7: when the search directory holds no ranked checkpoint, [eval_best]
    is [train_best]: it fails only where [train_best] fails, and when it
    returns, a model has been rebuilt under the title [.../best] from the
    best assignment of the optimizer, trained on the data, bound to
    [model_], and its results have been recorded under [model_<name>]. *)
Theorem eval_best_falls_back_to_train_best data model_type opt_dir self :
  clear_weights opt_dir = Ok [] ->
  eval_best data model_type opt_dir self = train_best data model_type self /\
  forall self' u, eval_best data model_type opt_dir self = (self', Ok u) ->
    exists opt which kws verbosity paras m m',
      optimizer self = Some opt /\
      model_kws self = Some kws /\
      model_paras (cls self)
        {["model" := VDict [(which, VDict (map_to_list (backend_best (history opt))))]]}
        paras /\
      Model_new (exp_name self +:+ SEP +:+ model_type +:+ SEP +:+ "best")
        verbosity (delete "verbosity" kws ∪ paras) = Ok m /\
      model_fit m data = Ok m' /\
      model_ self' = Some m' /\
      forall mon, monitor self = Some mon ->
        recorded mon (canonical model_type) self'.
Proof.
  intros Hempty.
  assert (Heq : eval_best data model_type opt_dir self
                = train_best data model_type self).
  { unfold eval_best, sbind, lift. by rewrite Hempty. }
  split; [exact Heq|].
  intros self' u Hrun. rewrite Heq in Hrun. by apply train_best_ok in Hrun.
Qed.

(** *** The loop body *)



End Variant.

(** ** The whole run: [fit] *)

Section Fit.
Context {collaborators : Collaborators}.

(** The names that [include] denotes: all models when it is [None], each
    with its [model_] prefix. *)
Definition included (include : names_arg) (self : Experiments) : list string :=
  canonical <$> match include with
                | NoNames => models self
                | OneName s => [s]
                | Names l => l
                end.

Lemma canonical_prefixed m : startswith (canonical m) "model_" = true.
Proof.
  unfold canonical. destruct (startswith m "model_") eqn:Hm; [done|].
  unfold startswith. simpl. by destruct m.
Qed.

Lemma canonical_idemp m : canonical (canonical m) = canonical m.
Proof. unfold canonical at 1. by rewrite canonical_prefixed. Qed.

Lemma assert_each_ok {A} (c : A -> bool) l u :
  assert_each c l = Ok u -> Forall (fun x => c x = true) l.
Proof.
  induction l as [|x l IH]; simpl; [done|].
  intros Hrun. apply rbind_ok in Hrun as (u1 & Hx & Hrun).
  constructor; [|auto]. unfold py_assert in Hx. by destruct (c x).
Qed.

Lemma _check_include_arg_ok include self self' incl :
  _check_include_arg include self = (self', Ok incl) ->
  self' = self /\ incl = included include self /\
  Forall (fun x => x ∈ models self) incl.
Proof.
  unfold _check_include_arg. intros Hrun.
  apply sbind_ok in Hrun as (ms & s1 & Hms & Hrun). apply get_ok in Hms as [-> ->].
  apply sbind_ok in Hrun as (u & s1 & Hassert & Hrun).
  apply lift_ok in Hassert as [-> Hassert]. apply ret_ok in Hrun as [-> ->].
  split; [done|]. split; [by destruct include|].
  apply assert_each_ok in Hassert.
  eapply Forall_impl; [exact Hassert|]. intros x Hx. simpl in Hx.
  by apply bool_decide_eq_true_1 in Hx.
Qed.

Lemma elem_of_list_remove_ne x e l : x ∈ l -> x <> e -> x ∈ list_remove e l.
Proof.
  intros Hin Hne. induction l as [|y l IH]; simpl; [done|].
  case_bool_decide as Hey.
  - subst y. apply elem_of_cons in Hin as [->|Hin]; done.
  - apply elem_of_cons in Hin as [->|Hin]; [left|right; auto].
Qed.

Lemma elem_of_list_remove x e l : x ∈ list_remove e l -> x ∈ l.
Proof.
  induction l as [|y l IH]; simpl; [done|].
  case_bool_decide; [by right|].
  intros Hin. apply elem_of_cons in Hin as [->|Hin]; [left|right; auto].
Qed.

(** The filtered list keeps every name that is not excluded and adds
    none. *)
Lemma consider_exclude_loop_ok exclude ms l r :
  consider_exclude_loop exclude ms (Some l) = Ok r ->
  exists l', r = Some l' /\
    (forall x, x ∈ l -> x ∉ exclude -> x ∈ l') /\
    (forall x, x ∈ l' -> x ∈ l).
Proof.
  revert l. induction exclude as [|e rest IH]; intros l; simpl.
  - intros [= <-]. by exists l.
  - intros Hrun. apply rbind_ok in Hrun as (u1 & _ & Hrun).
    apply rbind_ok in Hrun as (u2 & _ & Hrun).
    destruct (IH _ Hrun) as (l' & -> & Hkeep & Hsub).
    exists l'. split; [done|]. split.
    + intros x Hx Hnot. apply not_elem_of_cons in Hnot as [Hne Hnot].
      apply Hkeep; [|done]. by apply elem_of_list_remove_ne.
    + intros x Hx. eauto using elem_of_list_remove.
Qed.




(** *** Which variants run *)

Lemma fit_model_registers data run_type opt_method n exclude cv post hpo_kws
    predict model_type self self' u :
  model_type ∉ exclude ->
  fit_model data run_type opt_method n exclude cv post hpo_kws predict
    model_type self = (self', Ok u) ->
  exists path scores,
    eval_models self' = <[model_type := path]> (eval_models self) /\
    iter_metrics self' = <[model_type := scores]> (iter_metrics self).
Proof.
  intros Hex. unfold fit_model. intros Hrun.
  apply sbind_ok in Hrun as (name & s0 & Hidx & Hrun).
  apply lift_ok in Hidx as [-> Hidx].
  rewrite bool_decide_eq_true_2 in Hrun by done.
  apply sbind_ok in Hrun as (u1 & s1 & H1 & Hrun). apply modify_ok in H1 as ->.
  apply sbind_ok in Hrun as (u2 & s2 & H2 & Hrun). apply modify_ok in H2 as ->.
  apply sbind_ok in Hrun as (u3 & s3 & Hmodel & Hrun).
  assert (Hframe : eval_models s3 = eval_models self /\
                   iter_metrics s3 = iter_metrics self).
  { assert (Hp : preserves (fun s => (eval_models s, iter_metrics s))
                (run_model data run_type opt_method n cv post hpo_kws predict
                   model_type name)).
    { apply preserves_run_model; [by split|done|done]. }
    pose proof (preserves_ok _ _ _ _ _ Hp Hmodel) as [= -> ->]. done. }
  destruct Hframe as [Heval Hiter].
  unfold register_model in Hrun.
  apply sbind_ok in Hrun as (built & s4 & Hget & Hrun). apply get_ok in Hget as [-> ->].
  destruct (model_ s3) as [m|]; [|by apply raise_ok in Hrun].
  apply sbind_ok in Hrun as (u4 & s4 & Hev & Hrun). apply modify_ok in Hev as ->.
  apply sbind_ok in Hrun as (u5 & s5 & Hcv & Hrun). apply modify_ok in Hrun as ->.
  assert (Hp : preserves (fun s => (eval_models s, iter_metrics s, model_iter_metric s))
    (if cv then
       let* score := lift (cross_val_attr m (val_metric m)) in
       modify (fun self => set_cv_scores_
          (<[model_type := score]> (cv_scores_ self)) self) ;;
       modify (set_cv_scoring (Some (val_metric m)))
     else ret tt)) by preserves_auto.
  pose proof (preserves_ok _ _ _ _ _ Hp Hcv) as [= He Hi Hm]. simpl in *.
  exists (model_path m), (model_iter_metric s3).
  by rewrite He, Hi, Hm, Heval, Hiter.
Qed.

Lemma py_assert_raise c e : py_assert c = Raise e -> e = AssertionError.
Proof. unfold py_assert. destruct c; [done|]. by intros [= <-]. Qed.


End Fit.

(** *** Runs on the concrete collaborators *)

Section FitExamples.
Import Toy.

(** A regression experiment over the variants A, B and C, in a directory
    without checkpoints. *)
Definition fresh : @Experiments (toy []) :=
  experiment [] DLRegressionExperiments regression ∅.

(** It is what the constructor builds. *)
Example init_fresh :
  DLRegressionExperiments_init (collaborators := toy []) [] None None []
    "exp" "/home" 1 ∅ = Ok fresh.
Proof. reflexivity. Qed.

(** The same experiment after a search: the optimizer is bound. *)
Definition searched : @Experiments (toy []) :=
  set_optimizer (collaborators := toy [])
    (Some {| opt_method := "random"; opt_path := "/home/results/exp/A";
             history := [] |}) fresh.

Definition eval_best_of_A : @Experiments (toy []) * result unit :=
  eval_best (collaborators := toy []) tt "A" "/home/results/exp/A" searched.

(** No checkpoint: [eval_best] retrains under [exp/A/best] and records
    the results of A. *)
Lemma eval_best_falls_back_to_train_best_witness :
  eval_best_of_A = train_best (collaborators := toy []) tt "A" searched /\
  exists self',
    eval_best_of_A = (self', Ok tt) /\
    (tm_prefix <$> model_ self') = Some "exp/A/best" /\
    (tm_fitted <$> model_ self') = Some true /\
    is_Some (metrics self' !! "model_A").
Proof.
  unfold eval_best_of_A.
  destruct (eval_best_falls_back_to_train_best (collaborators := toy [])
              tt "A" "/home/results/exp/A" searched eq_refl) as [Heq Hdone].
  split; [exact Heq|].
  assert (Hrun : eval_best_of_A = (eval_best_of_A.1, Ok tt))
    by (vm_compute; reflexivity).
  eexists. split; [exact Hrun|].
  destruct (Hdone _ _ Hrun)
    as (opt & which & kws & verbosity & paras & m & m' & _ & _ & _ & Hnew & Hfit
        & Hm' & Hrec).
  rewrite Hm'. simpl. injection Hfit as <-. injection Hnew as <-. simpl.
  split; [done|]. split; [done|].
  destruct (Hrec (Monitor regression) eq_refl) as [_ (e & He & _)].
  by exists e.
Defined.






(** An experiment with the two cases [lstm_model_1] and [lstm_model_2],
    as the constructor builds it, and the dry run of both. *)
Definition two_cases : @Experiments (toy []) :=
  {| cls := DLRegressionExperiments; exp_name := "exp";
     exp_path := "/home/results/exp"; cwd := "/home"; verbosity := 1;
     models := ["model_A"; "model_B"; "model_C"; "model_lstm_model_1";
                "model_lstm_model_2"];
     cases := <["model_lstm_model_1" := ∅]> {["model_lstm_model_2" := ∅]};
     monitor := Some (Monitor regression); model_kws := Some ∅;
     param_space := None; x0 := None;
     eval_models := ∅; optimized_models := ∅; cv_scores_ := ∅;
     _cv_scoring := None; metrics := ∅; features := ∅; iter_metrics := ∅;
     model_iter_metric := ∅; iter_ := 0; model_ := None;
     optimizer := None; opt_results := None; files := ∅ |}.

Example init_two_cases :
  DLRegressionExperiments_init (collaborators := toy []) [] None None
    [("lstm_model_1", ∅); ("lstm_model_2", ∅)] "exp" "/home" 1 ∅
  = Ok two_cases.
Proof. vm_compute. reflexivity. Qed.




End FitExamples.

Import PyFacts.

(** ** Arguments that [fit] rejects *)

Section FitArguments.
Context {collaborators : Collaborators}.

Lemma assert_each_fails {A} (c : A -> bool) l x :
  x ∈ l -> c x = false -> assert_each c l = Raise AssertionError.
Proof.
  intros Hx Hc. induction l as [|y l IH]; [by apply elem_of_nil in Hx|].
  simpl. unfold py_assert. destruct (c y) eqn:Hy; simpl; [|done].
  apply elem_of_cons in Hx as [->|Hx]; [congruence|auto].
Qed.

(** X9: [fit] checks its arguments before it touches the object: a
    [run_type] other than [optimize] and [dry_run], a [post_optimize]
    other than [eval_best] and [train_best], or an included name that,
    with its [model_] prefix, is not one of the models, makes it raise an
    AssertionError and leaves the object as it was -- nothing is reset and
    no variant is run. *)
Theorem fit_checks_its_arguments_first data run_type opt_method n include
    exclude cv post hpo_kws self :
  run_type ∉ ["optimize"; "dry_run"] \/
  post ∉ ["eval_best"; "train_best"] \/
  (exists bad, bad ∈ included include self /\ bad ∉ models self) ->
  fit data run_type opt_method n include exclude cv post hpo_kws self
    = (self, Raise AssertionError).
Proof.
  intros Hbad. unfold fit, sbind, lift.
  destruct (py_assert (bool_decide (run_type ∈ ["optimize"; "dry_run"])))
    as [u1|e] eqn:Hrt; [|by rewrite (py_assert_raise _ _ Hrt)].
  destruct (py_assert (bool_decide (post ∈ ["eval_best"; "train_best"])))
    as [u2|e] eqn:Hpo; [|by rewrite (py_assert_raise _ _ Hpo)].
  destruct Hbad as [Hbad|[Hbad|(bad & Hin & Hbad)]].
  - unfold py_assert in Hrt. by rewrite bool_decide_eq_false_2 in Hrt.
  - unfold py_assert in Hpo. by rewrite bool_decide_eq_false_2 in Hpo.
  - unfold _check_include_arg, sbind, get, lift. simpl.
    assert (Hfail : assert_each (fun elem => bool_decide (elem ∈ models self))
                      (included include self) = Raise AssertionError).
    { apply (assert_each_fails _ _ bad); [done|]. by apply bool_decide_eq_false_2. }
    unfold included in Hfail. destruct include; simpl in *; by rewrite Hfail.
Qed.

End FitArguments.

(** ** Steps of one variant *)

Section Steps.
Context {collaborators : Collaborators}.

(** X15: in a class that leaves [build_from_config] to the base class,
    [eval_best] cannot use a checkpoint: as soon as the search directory
    holds one, it raises NotImplementedError, and [model_] has been set to
    [None] on the way. *)
Theorem eval_best_needs_build_from_config data model_type opt_dir self md ck rest :
  cls self = Subclass md ->
  clear_weights opt_dir = Ok (ck :: rest) ->
  eval_best data model_type opt_dir self
    = (set_model_ None self, Raise NotImplementedError).
Proof.
  intros Hcls Hcw. unfold eval_best, sbind, lift. rewrite Hcw. simpl.
  destruct ck as [mod_ props].
  unfold build_from_config, sbind, get. by rewrite Hcls.
Qed.

(** What a successful [_build] did, with the verbosity it passed on. *)
Lemma _build_verbosity title suggested self self' u :
  _build title suggested self = (self', Ok u) ->
  exists kws paras m,
    model_kws self = Some kws /\
    model_paras (cls self) suggested paras /\
    Model_new title
      (default (VInt (Z.max (verbosity self - 1) 0)) (kws !! "verbosity"))
      (delete "verbosity" kws ∪ paras) = Ok m /\
    model_ self' = Some m /\
    model_kws self' = Some (delete "verbosity" kws) /\
    verbosity self' = verbosity self /\ cls self' = cls self.
Proof.
  unfold _build. intros Hrun.
  apply sbind_ok in Hrun as (v & s1 & Hv & Hrun). apply get_ok in Hv as [-> ->].
  apply sbind_ok in Hrun as (kws & s1 & Hkws & Hrun). apply attr_ok in Hkws as [-> Hkws].
  apply sbind_ok in Hrun as (vb & s1 & Hpop & Hrun).
  apply sbind_ok in Hrun as (kws' & s2 & Hkws' & Hrun).
  apply attr_ok in Hkws' as [-> Hkws'].
  apply sbind_ok in Hrun as (c & s2 & Hc & Hrun). apply get_ok in Hc as [-> ->].
  apply sbind_ok in Hrun as (paras & s2 & Hparas & Hrun).
  apply sbind_ok in Hrun as (m & s3 & Hnew & Hrun). apply lift_ok in Hnew as [-> Hnew].
  apply modify_ok in Hrun as ->.
  assert (Hs1 : cls s1 = cls self /\ verbosity s1 = verbosity self /\
                model_kws s1 = Some (delete "verbosity" kws) /\
                vb = default (VInt (Z.max (verbosity self - 1) 0))
                       (kws !! "verbosity")).
  { destruct (kws !! "verbosity") as [v'|] eqn:Hlook.
    - apply sbind_ok in Hpop as (u1 & s0 & Hmod & Hret).
      apply modify_ok in Hmod as ->. by apply ret_ok in Hret as [-> ->].
    - apply ret_ok in Hpop as [-> ->]. split_and!; try done.
      by rewrite Hkws, delete_id. }
  destruct Hs1 as (Hcls & Hverb & Hkws1 & ->).
  assert (kws' = delete "verbosity" kws) as -> by congruence.
  assert (Hs2 : s2 = s1 /\ model_paras (cls self) suggested paras).
  { rewrite <- Hcls. unfold model_paras.
    destruct (cls s1); first [ apply ret_ok in Hparas as [-> ->]
                             | apply lift_ok in Hparas as [-> Hparas] ]; by split. }
  destruct Hs2 as [-> Hmp].
  exists kws, paras, m. split_and!; try done.
  destruct (_ && _); [done|discriminate].
Qed.

(** X14: the [verbosity] entry of the model keywords is used up by the
    first model that is built: [_build] takes it out of [model_kws], so
    the first model gets the user's verbosity and the next one the
    default, [max(self.verbosity - 1, 0)]. *)
Theorem verbosity_keyword_reaches_the_first_model_only title1 suggested1
    title2 suggested2 self self1 self2 u1 u2 :
  _build title1 suggested1 self = (self1, Ok u1) ->
  _build title2 suggested2 self1 = (self2, Ok u2) ->
  exists kws paras1 paras2 m1 m2,
    model_kws self = Some kws /\
    Model_new title1
      (default (VInt (Z.max (verbosity self - 1) 0)) (kws !! "verbosity"))
      (delete "verbosity" kws ∪ paras1) = Ok m1 /\
    model_ self1 = Some m1 /\
    Model_new title2 (VInt (Z.max (verbosity self - 1) 0))
      (delete "verbosity" kws ∪ paras2) = Ok m2 /\
    model_ self2 = Some m2 /\
    model_kws self2 = Some (delete "verbosity" kws).
Proof.
  intros H1 H2.
  apply _build_verbosity in H1
    as (kws & paras1 & m1 & Hkws & _ & Hnew1 & Hm1 & Hkws1 & Hv1 & _).
  apply _build_verbosity in H2
    as (kws2 & paras2 & m2 & Hkws2 & _ & Hnew2 & Hm2 & Hkws2' & _ & _).
  assert (kws2 = delete "verbosity" kws) as -> by congruence.
  rewrite lookup_delete_eq, Hv1 in Hnew2. simpl in Hnew2.
  rewrite delete_delete_eq in Hnew2, Hkws2'.
  by exists kws, paras1, paras2, m1, m2.
Qed.

(** X13: a trial of a search gets an index of its own.  When all recorded
    trials of the variant have indices below [iter_], a call of the
    objective that returns has added exactly one record, under the old
    value of [iter_], kept the others, advanced [iter_] by one, and
    returned a score. *)
Theorem trial_is_recorded_under_a_fresh_index data cv model_type model_name
    paras self self' out :
  (forall k, k ∈ dom (model_iter_metric self) -> k < iter_ self) ->
  objective_fn data false cv model_type model_name paras self = (self', Ok out) ->
  exists rec v,
    out = Score v /\
    model_iter_metric self !! iter_ self = None /\
    model_iter_metric self' = <[iter_ self := rec]> (model_iter_metric self) /\
    iter_ self' = iter_ self + 1 /\
    size (model_iter_metric self') = S (size (model_iter_metric self)) /\
    (forall k, k ∈ dom (model_iter_metric self') -> k < iter_ self').
Proof.
  intros Hbelow. unfold objective_fn. intros Hrun.
  set (f := fun s : Experiments => (iter_ s, model_iter_metric s)).
  apply sbind_ok in Hrun as (cs & s0 & Hcs & Hrun). apply get_ok in Hcs as [-> ->].
  apply sbind_ok in Hrun as (config & s1 & Hcfg & Hrun).
  assert (H1 : f s1 = f self).
  { eapply preserves_ok; [|exact Hcfg]. unfold call_builder. preserves_auto. }
  apply sbind_ok in Hrun as (name & s2 & Hname & Hrun). apply get_ok in Hname as [-> ->].
  unfold _build_and_run in Hrun.
  apply sbind_ok in Hrun as (u0 & s2 & Hkeys & Hrun).
  assert (H2 : f s2 = f s1).
  { eapply preserves_ok; [|exact Hkeys]. preserves_auto. }
  apply sbind_ok in Hrun as (u1 & s3 & Hbuild & Hrun).
  assert (H3 : f s3 = f s2).
  { eapply preserves_ok; [|exact Hbuild]. unfold _build. preserves_auto. }
  apply sbind_ok in Hrun as (u2 & s4 & Hfit & Hrun).
  assert (H4 : f s4 = f s3).
  { eapply preserves_ok; [|exact Hfit]. unfold _fit. preserves_auto. }
  apply sbind_ok in Hrun as (u3 & s5 & Hview & Hrun).
  assert (H5 : f s5 = f s4).
  { eapply preserves_ok; [|exact Hview]. preserves_auto. }
  apply sbind_ok in Hrun as (v & s6 & Heval & Hrun). apply ret_ok in Hrun as [-> ->].
  apply _evaluate_ok in Heval
    as (m & t & p & md & calc & mon & rec & raw & cvm & _ & _ & _ & _ & _ & _
        & _ & _ & _ & Hrec & Hiter).
  assert (Hf : f s5 = f self) by congruence.
  injection Hf as Hi Hm. rewrite Hi, Hm in *.
  assert (Hfresh : model_iter_metric self !! iter_ self = None).
  { apply not_elem_of_dom. intros Hin. apply Hbelow in Hin. lia. }
  exists rec, v. split_and!; try done.
  - by rewrite Hrec, map_size_insert_None.
  - intros k. rewrite Hrec, Hiter, dom_insert_L.
    intros [->%elem_of_singleton|Hin]%elem_of_union; [lia|].
    apply Hbelow in Hin. lia.
Qed.

End Steps.

(** ** Which variants [fit] runs, in general *)

Section FitRuns.
Context {collaborators : Collaborators}.

Lemma elem_of_list_remove_NoDup x e l :
  NoDup l -> x ∈ list_remove e l <-> x ∈ l /\ x <> e.
Proof.
  intros Hl. induction Hl as [|y l Hy Hl IH]; simpl.
  - split; [by intros ?%elem_of_nil|by intros [?%elem_of_nil _]].
  - case_bool_decide as Hey.
    + subst y. split.
      * intros Hx. split; [by right|]. by intros ->.
      * intros [[->|Hx]%elem_of_cons Hne]; done.
    + rewrite !elem_of_cons, IH. split.
      * intros [->|[Hx Hne]]; [by split; [left|]|by split; [right|]].
      * intros [[->|Hx] Hne]; [by left|by right].
Qed.

Lemma NoDup_list_remove e l : NoDup l -> NoDup (list_remove e l).
Proof.
  intros Hl. induction Hl as [|y l Hy Hl IH]; simpl; [constructor|].
  case_bool_decide; [done|]. constructor; [|done].
  intros Hin. by apply elem_of_list_remove in Hin.
Qed.

(** On a list without repetitions the filter leaves exactly the names
    that are not excluded. *)
Lemma consider_exclude_loop_NoDup exclude ms l r :
  NoDup l ->
  consider_exclude_loop exclude ms (Some l) = Ok r ->
  exists l', r = Some l' /\ NoDup l' /\
    forall x, x ∈ l' <-> x ∈ l /\ x ∉ exclude.
Proof.
  revert l. induction exclude as [|e rest IH]; intros l Hl; simpl.
  - intros [= <-]. exists l. split_and!; try done.
    intros x. split; [intros Hx; split; [done|apply not_elem_of_nil]|by intros [? _]].
  - intros Hrun. apply rbind_ok in Hrun as (u1 & _ & Hrun).
    apply rbind_ok in Hrun as (u2 & _ & Hrun).
    destruct (IH _ (NoDup_list_remove e l Hl) Hrun) as (l' & -> & Hl' & Hspec).
    exists l'. split_and!; try done. intros x.
    rewrite Hspec, elem_of_list_remove_NoDup, not_elem_of_cons by done.
    tauto.
Qed.

(** The bookkeeping at the end of the loop body. *)
Lemma fit_model_cv_scores data run_type opt_method n exclude cv post hpo_kws
    predict model_type self self' u :
  model_type ∉ exclude ->
  fit_model data run_type opt_method n exclude cv post hpo_kws predict
    model_type self = (self', Ok u) ->
  if cv then exists score, cv_scores_ self' = <[model_type := score]> (cv_scores_ self)
  else cv_scores_ self' = cv_scores_ self.
Proof.
  intros Hex. unfold fit_model. intros Hrun.
  apply sbind_ok in Hrun as (name & s0 & Hidx & Hrun).
  apply lift_ok in Hidx as [-> Hidx].
  rewrite bool_decide_eq_true_2 in Hrun by done.
  apply sbind_ok in Hrun as (u1 & s1 & H1 & Hrun). apply modify_ok in H1 as ->.
  apply sbind_ok in Hrun as (u2 & s2 & H2 & Hrun). apply modify_ok in H2 as ->.
  apply sbind_ok in Hrun as (u3 & s3 & Hmodel & Hrun).
  assert (Hframe : cv_scores_ s3 = cv_scores_ self).
  { assert (Hp : preserves cv_scores_
                (run_model data run_type opt_method n cv post hpo_kws predict
                   model_type name)).
    { apply preserves_run_model; [by split|done|done]. }
    by rewrite (preserves_ok _ _ _ _ _ Hp Hmodel). }
  unfold register_model in Hrun.
  apply sbind_ok in Hrun as (built & s4 & Hget & Hrun). apply get_ok in Hget as [-> ->].
  destruct (model_ s3) as [m|]; [|by apply raise_ok in Hrun].
  apply sbind_ok in Hrun as (u4 & s4 & Hev & Hrun). apply modify_ok in Hev as ->.
  apply sbind_ok in Hrun as (u5 & s5 & Hcv & Hrun). apply modify_ok in Hrun as ->.
  simpl. destruct cv.
  - apply sbind_ok in Hcv as (score & s6 & Hscore & Hcv).
    apply lift_ok in Hscore as [-> Hscore].
    apply sbind_ok in Hcv as (u6 & s6 & Hset & Hcv). apply modify_ok in Hset as ->.
    apply modify_ok in Hcv as ->. simpl. exists score. by rewrite Hframe.
  - by apply ret_ok in Hcv as [-> _].
Qed.

(** The tables of registered variants after the loop over [l]. *)
Lemma for_each_fit_model_registers data run_type opt_method n exclude cv post
    hpo_kws predict l self self' u :
  (forall x, x ∈ l -> x ∉ exclude) ->
  for_each l (fit_model data run_type opt_method n exclude cv post hpo_kws
                predict) self = (self', Ok u) ->
  dom (eval_models self') = dom (eval_models self) ∪ list_to_set l /\
  dom (iter_metrics self') = dom (iter_metrics self) ∪ list_to_set l /\
  dom (cv_scores_ self')
    = dom (cv_scores_ self) ∪ (if cv then list_to_set l else ∅).
Proof.
  revert self. induction l as [|x l IH]; intros self Hex Hrun; simpl in *.
  - apply ret_ok in Hrun as [-> _]. destruct cv; set_solver.
  - apply sbind_ok in Hrun as (u1 & s1 & Hx & Hrun).
    assert (Hnot : x ∉ exclude) by (apply Hex; left).
    destruct (fit_model_registers _ _ _ _ _ _ _ _ _ _ _ _ _ Hnot Hx)
      as (path & scores & He & Hi).
    pose proof (fit_model_cv_scores _ _ _ _ _ _ _ _ _ _ _ _ _ Hnot Hx) as Hc.
    destruct (IH s1 ltac:(intros y Hy; apply Hex; by right) Hrun)
      as (IHe & IHi & IHc).
    rewrite IHe, IHi, IHc, He, Hi, !dom_insert_L.
    destruct cv.
    + destruct Hc as (score & ->). rewrite dom_insert_L. set_solver.
    + rewrite Hc. set_solver.
Qed.



(** X10: the variants that a run of [fit] registers are the included ones
    that are not excluded.  When no name is included twice, a run that
    returns leaves under [eval_models] and under [iter_metrics] exactly
    the included names, with their [model_] prefix, that are not among the
    excluded names, with theirs; [cv_scores_] has the same keys after a run
    with cross-validation and none otherwise.  What these tables held
    before the call is gone. *)
Theorem fit_registers_the_included_variants_that_are_not_excluded data run_type
    opt_method n include exclude cv post hpo_kws self self' u :
  NoDup (included include self) ->
  fit data run_type opt_method n include exclude cv post hpo_kws self
    = (self', Ok u) ->
  let ran : gset string :=
    list_to_set (included include self)
    ∖ list_to_set (canonical <$> exclude_list exclude) in
  dom (eval_models self') = ran /\
  dom (iter_metrics self') = ran /\
  dom (cv_scores_ self') = (if cv then ran else ∅).
Proof.
  intros Hnodup. unfold fit. intros Hrun.
  apply sbind_ok in Hrun as (u1 & s1 & Hrt & Hrun). apply lift_ok in Hrt as [-> Hrt].
  apply sbind_ok in Hrun as (u2 & s1 & Hpo & Hrun). apply lift_ok in Hpo as [-> Hpo].
  apply sbind_ok in Hrun as (incl & s1 & Hincl & Hrun).
  apply _check_include_arg_ok in Hincl as (-> & -> & _).
  apply sbind_ok in Hrun as (ms & s1 & Hms & Hrun). apply get_ok in Hms as [-> ->].
  apply sbind_ok in Hrun as (filtered & s1 & Hfil & Hrun).
  apply lift_ok in Hfil as [-> Hfil]. simpl in Hfil.
  apply consider_exclude_loop_NoDup in Hfil as (l' & -> & _ & Hspec); [|done].
  simpl in Hrun.
  apply sbind_ok in Hrun as (u3 & s1 & Hreset & Hrun).
  assert (Hreset' : eval_models s1 = ∅ /\ iter_metrics s1 = ∅ /\ cv_scores_ s1 = ∅).
  { unfold _reset in Hreset. repeat run_step. done. }
  destruct Hreset' as (He0 & Hi0 & Hc0).
  apply sbind_ok in Hrun as (u4 & s2 & Hloop & Hrun).
  apply for_each_fit_model_registers in Hloop as (He & Hi & Hc).
  2:{ intros x Hx Hraw. apply Hspec in Hx as [Hin Hnot]. apply Hnot.
      apply list_elem_of_fmap in Hin as (y & -> & _).
      rewrite <- canonical_idemp. by apply list_elem_of_fmap_2. }
  apply sbind_ok in Hrun as (u5 & s3 & Hsave & Hrun). apply modify_ok in Hsave as ->.
  apply sbind_ok in Hrun as (p & s3 & Hp & Hrun). apply get_ok in Hp as [-> ->].
  apply sbind_ok in Hrun as (f & s3 & Hf & Hrun). apply get_ok in Hf as [-> ->].
  apply sbind_ok in Hrun as (u6 & s3 & Hsf & Hrun). apply modify_ok in Hsf as ->.
  apply sbind_ok in Hrun as (tbl & s3 & Ht & Hrun). apply get_ok in Ht as [-> ->].
  apply modify_ok in Hrun as ->. simpl.
  rewrite He, Hi, Hc, He0, Hi0, Hc0, !dom_empty_L.
  assert (Hset : (list_to_set l' : gset string)
                 = list_to_set (included include self)
                   ∖ list_to_set (canonical <$> exclude_list exclude)).
  { apply set_eq. intros x.
    rewrite elem_of_difference, !elem_of_list_to_set. apply Hspec. }
  rewrite <- Hset. destruct cv; set_solver.
Qed.

End FitRuns.

(** ** The metrics table after a run *)

Section FitResults.
Context {collaborators : Collaborators}.

(** Every key of the metrics table is in [S]. *)
Definition metrics_within (S : gset string) (self : Experiments) : Prop :=
  dom (metrics self) ⊆ S.

Lemma trial_frame_metrics : trial_frame metrics.
Proof. by split. Qed.

Lemma keeps_metrics_within {A} S (m : M A) :
  preserves metrics m -> keeps (metrics_within S) m.
Proof. intros Hm. apply (preserves_keeps metrics (fun x => dom x ⊆ S) m Hm). Qed.

Lemma keeps_metrics_within__populate_results S model_type train test :
  canonical model_type ∈ S ->
  keeps (metrics_within S) (_populate_results model_type train test).
Proof.
  intros Hkey self self' u Hin Hrun.
  apply _populate_results_ok in Hrun as (mon & trm & tem & _ & _ & _ & Hm).
  unfold metrics_within in *. rewrite Hm, dom_insert.
  intros k [->%elem_of_singleton|Hk]%elem_of_union; auto.
Qed.

Lemma keeps_metrics_within_train_best S data model_type :
  canonical model_type ∈ S ->
  keeps (metrics_within S) (train_best data model_type).
Proof.
  intros Hkey. unfold train_best.
  repeat first
    [ apply keeps_metrics_within__populate_results; assumption
    | apply keeps_metrics_within, preserves__build_and_run, trial_frame_metrics
    | keeps_step ].
Qed.

Lemma keeps_metrics_within_eval_best S data model_type opt_dir :
  canonical model_type ∈ S ->
  keeps (metrics_within S) (eval_best data model_type opt_dir).
Proof.
  intros Hkey. unfold eval_best.
  repeat first
    [ apply keeps_metrics_within__populate_results; assumption
    | apply keeps_metrics_within_train_best; assumption
    | apply keeps_metrics_within, preserves_build_from_config, trial_frame_metrics
    | keeps_step ].
Qed.

Lemma keeps_metrics_within_run_model S data run_type opt_method n cv post
    hpo_kws predict model_type model_name :
  canonical model_name ∈ S ->
  keeps (metrics_within S)
    (run_model data run_type opt_method n cv post hpo_kws predict model_type
       model_name).
Proof.
  intros Hkey. unfold run_model.
  repeat first
    [ apply keeps_metrics_within__populate_results; assumption
    | apply keeps_metrics_within_train_best; assumption
    | apply keeps_metrics_within_eval_best; assumption
    | apply keeps_metrics_within, preserves_objective_fn, trial_frame_metrics
    | apply keeps_metrics_within, preserves_call_builder, trial_frame_metrics
    | apply keeps_metrics_within, preserves_optimize;
        [apply trial_frame_metrics
        |intros; apply preserves_objective_fn, trial_frame_metrics]
    | keeps_step ].
Qed.

(** The keys under which the variant [model_type] may be recorded. *)
Definition result_key (model_type key : string) : Prop :=
  exists name, index (split model_type "model_") 1 = Ok name /\ key = canonical name.

Lemma keeps_metrics_within_fit_model S data run_type opt_method n exclude cv
    post hpo_kws predict model_type :
  (forall key, result_key model_type key -> key ∈ S) ->
  keeps (metrics_within S)
    (fit_model data run_type opt_method n exclude cv post hpo_kws predict
       model_type).
Proof.
  intros Hkey self self' u Hin. unfold fit_model. intros Hrun.
  apply sbind_ok in Hrun as (name & s0 & Hidx & Hrun).
  apply lift_ok in Hidx as [-> Hidx].
  assert (Hname : canonical name ∈ S) by (apply Hkey; by exists name).
  revert Hrun. generalize self self' u Hin.
  change (keeps (metrics_within S)
            (if bool_decide (model_type ∉ exclude) then
               modify (set_model_iter_metric ∅) ;;
               modify (set_iter_ 0) ;;
               run_model data run_type opt_method n cv post hpo_kws predict
                 model_type name ;;
               register_model cv model_type
             else ret tt)).
  unfold register_model.
  repeat first
    [ apply keeps_metrics_within_run_model; assumption
    | keeps_step ].
Qed.

Lemma keeps_for_each_elem {A} P (l : list A) body :
  (forall x, x ∈ l -> keeps P (body x)) -> keeps P (for_each l body).
Proof.
  intros Hb. induction l as [|x l IH]; simpl.
  - apply keeps_ret.
  - apply keeps_bind; [apply Hb; left|].
    intros _. apply IH. intros y Hy. apply Hb. by right.
Qed.

(** X11: the metrics table after a run of [fit] holds results of this run
    only.  Whatever the object held before, every key of the table that
    [fit] leaves, and writes to [metrics.json], is the key of a variant
    that was included in this call: [model_] followed by the name of the
    variant. *)
Theorem fit_keeps_no_results_of_earlier_runs data run_type opt_method n include
    exclude cv post hpo_kws self self' u :
  fit data run_type opt_method n include exclude cv post hpo_kws self
    = (self', Ok u) ->
  files self' !! path_join (exp_path self') "metrics.json"
    = Some (MetricsFile (metrics self')) /\
  forall key, key ∈ dom (metrics self') ->
    exists variant, variant ∈ included include self /\ result_key variant key.
Proof.
  unfold fit. intros Hrun.
  apply sbind_ok in Hrun as (u1 & s1 & Hrt & Hrun). apply lift_ok in Hrt as [-> Hrt].
  apply sbind_ok in Hrun as (u2 & s1 & Hpo & Hrun). apply lift_ok in Hpo as [-> Hpo].
  apply sbind_ok in Hrun as (incl & s1 & Hincl & Hrun).
  apply _check_include_arg_ok in Hincl as (-> & -> & _).
  apply sbind_ok in Hrun as (ms & s1 & Hms & Hrun). apply get_ok in Hms as [-> ->].
  apply sbind_ok in Hrun as (filtered & s1 & Hfil & Hrun).
  apply lift_ok in Hfil as [-> Hfil]. simpl in Hfil.
  apply consider_exclude_loop_ok in Hfil as (l' & -> & _ & Hsub). simpl in Hrun.
  apply sbind_ok in Hrun as (u3 & s1 & Hreset & Hrun).
  assert (Hm0 : metrics s1 = ∅).
  { unfold _reset in Hreset. repeat run_step. done. }
  apply sbind_ok in Hrun as (u4 & s2 & Hloop & Hrun).
  set (key_of := fun variant =>
                   match index (split variant "model_") 1 with
                   | Ok name => Some (canonical name)
                   | Raise _ => None
                   end).
  set (S := list_to_set (omap key_of l') : gset string).
  assert (Hwithin : metrics_within S s2).
  { revert Hloop.
    apply (keeps_for_each_elem (metrics_within S) l'
             (fit_model data run_type opt_method n (exclude_list exclude) cv post
                hpo_kws (String.eqb run_type "dry_run"))).
    - intros x Hx. apply keeps_metrics_within_fit_model.
      intros key (name & Hname & ->). unfold S.
      apply elem_of_list_to_set, list_elem_of_omap.
      exists x. split; [done|]. unfold key_of. by rewrite Hname.
    - unfold metrics_within. rewrite Hm0, dom_empty. apply empty_subseteq. }
  apply sbind_ok in Hrun as (u5 & s3 & Hsave & Hrun). apply modify_ok in Hsave as ->.
  apply sbind_ok in Hrun as (p & s3 & Hp & Hrun). apply get_ok in Hp as [-> ->].
  apply sbind_ok in Hrun as (f & s3 & Hf & Hrun). apply get_ok in Hf as [-> ->].
  apply sbind_ok in Hrun as (u6 & s3 & Hsf & Hrun). apply modify_ok in Hsf as ->.
  apply sbind_ok in Hrun as (tbl & s3 & Ht & Hrun). apply get_ok in Ht as [-> ->].
  apply modify_ok in Hrun as ->. simpl. split; [by rewrite lookup_insert_eq|].
  intros key Hkey. apply Hwithin in Hkey. unfold S in Hkey.
  apply elem_of_list_to_set, list_elem_of_omap in Hkey as (variant & Hvariant & Hkey).
  exists variant. split; [by apply Hsub|].
  unfold key_of in Hkey.
  destruct (index (split variant "model_") 1) as [name|e] eqn:Hname; [|done].
  injection Hkey as <-. by exists name.
Qed.

(** ** An explicit list of metrics to monitor *)

Lemma dry_run_needs_monitor data opt_method n cv post hpo_kws predict
    model_type model_name self self' u :
  monitor self = None ->
  run_model data "dry_run" opt_method n cv post hpo_kws predict model_type
    model_name self = (self', Ok u) -> False.
Proof.
  intros Hmon. unfold run_model. simpl. intros Hrun.
  apply sbind_ok in Hrun as (out & s1 & Hobj & Hrun).
  assert (Hmon1 : monitor s1 = None).
  { rewrite <- Hmon. eapply preserves_ok; [|exact Hobj].
    apply preserves_objective_fn, trial_frame_monitor. }
  destruct out as [train test|]; [|by apply raise_ok in Hrun].
  apply _populate_results_ok in Hrun as (mon & _ & _ & Hsome & _). congruence.
Qed.

Lemma dry_run_without_monitor data opt_method n exclude cv post hpo_kws predict
    l self self' u :
  monitor self = None ->
  for_each l (fit_model data "dry_run" opt_method n exclude cv post hpo_kws
                predict) self = (self', Ok u) ->
  self' = self.
Proof.
  intros Hmon. induction l as [|x l IH]; simpl; intros Hrun.
  - by apply ret_ok in Hrun as [-> _].
  - apply sbind_ok in Hrun as (u1 & s1 & Hx & Hrun).
    assert (s1 = self) as ->; [|auto].
    unfold fit_model in Hx.
    apply sbind_ok in Hx as (name & s0 & Hidx & Hx). apply lift_ok in Hidx as [-> _].
    case_bool_decide; [|by apply ret_ok in Hx as [-> _]].
    apply sbind_ok in Hx as (u2 & s2 & H1 & Hx). apply modify_ok in H1 as ->.
    apply sbind_ok in Hx as (u3 & s3 & H2 & Hx). apply modify_ok in H2 as ->.
    apply sbind_ok in Hx as (u4 & s4 & Hmodel & Hx).
    by apply dry_run_needs_monitor in Hmodel.
Qed.

(** A dry run on an object without [monitor] runs no variant. *)
Lemma dry_run_fit_without_monitor data opt_method n include exclude cv post
    hpo_kws self self' u :
  monitor self = None ->
  fit data "dry_run" opt_method n include exclude cv post hpo_kws self
    = (self', Ok u) ->
  eval_models self' = ∅ /\ metrics self' = ∅.
Proof.
  intros Hmon0. unfold fit. intros Hrun.
  apply sbind_ok in Hrun as (u1 & s1 & Hrt & Hrun). apply lift_ok in Hrt as [-> Hrt].
  apply sbind_ok in Hrun as (u2 & s1 & Hpo & Hrun). apply lift_ok in Hpo as [-> Hpo].
  apply sbind_ok in Hrun as (incl & s1 & Hincl & Hrun).
  apply _check_include_arg_ok in Hincl as (-> & -> & _).
  apply sbind_ok in Hrun as (ms & s1 & Hms & Hrun). apply get_ok in Hms as [-> ->].
  apply sbind_ok in Hrun as (filtered & s1 & Hfil & Hrun).
  apply lift_ok in Hfil as [-> Hfil].
  apply sbind_ok in Hrun as (u3 & s1 & Hreset & Hrun).
  assert (Hs1 : monitor s1 = None /\ eval_models s1 = ∅ /\ metrics s1 = ∅).
  { unfold _reset in Hreset. repeat run_step. done. }
  destruct Hs1 as (Hmon & He0 & Hm0).
  apply sbind_ok in Hrun as (u4 & s2 & Hloop & Hrun).
  apply dry_run_without_monitor in Hloop as ->; [|done].
  apply sbind_ok in Hrun as (u5 & s3 & Hsave & Hrun). apply modify_ok in Hsave as ->.
  apply sbind_ok in Hrun as (p & s3 & Hp & Hrun). apply get_ok in Hp as [-> ->].
  apply sbind_ok in Hrun as (f & s3 & Hf & Hrun). apply get_ok in Hf as [-> ->].
  apply sbind_ok in Hrun as (u6 & s3 & Hsf & Hrun). apply modify_ok in Hsf as ->.
  apply sbind_ok in Hrun as (tbl & s3 & Ht & Hrun). apply get_ok in Ht as [-> ->].
  apply modify_ok in Hrun as ->. done.
Qed.

(** X12: a [monitor] passed to a constructor is never bound as the list
    of metrics to monitor.  [DLRegressionExperiments] and
    [TransformationExperiments] take it for a keyword of the model: it ends
    up in [model_kws], and [monitor] is the default list for regression
    whatever was passed.  A class that inherits the constructor of the base
    class gets no [monitor] at all, for the base class binds the attribute
    only when the argument is [None]; a dry run on such an object that
    returns has run no variant.  The base class itself cannot be
    constructed: collecting the builder methods reads its property [mode],
    which raises. *)
Theorem explicit_monitor_is_never_bound (m : pyval)
    (cases : list (string * kwargs)) name wd v :
  m <> VNone ->
  (forall features ps x kws,
     is_ok (DL.shape_of features (<["monitor" := m]> kws)) = true ->
     exists self,
       DLRegressionExperiments_init features ps x cases name wd v
         (<["monitor" := m]> kws) = Ok self /\
       monitor self = Some (Monitor regression) /\
       model_kws self = Some (<["monitor" := m]> kws)) /\
  (forall ps x kws,
     exists self,
       TransformationExperiments_init ps x cases name wd v
         (<["monitor" := m]> kws) = Ok self /\
       monitor self = Some (Monitor regression) /\
       model_kws self = Some (<["monitor" := m]> kws)) /\
  (forall md,
     exists self,
       Experiments_init (Subclass (Some md)) [] None None None cases name wd v m
         = Ok self /\
       monitor self = None /\
       forall data opt_method n include exclude cv post hpo_kws self' u,
         fit data "dry_run" opt_method n include exclude cv post hpo_kws self
           = (self', Ok u) ->
         eval_models self' = ∅ /\ metrics self' = ∅) /\
  (forall features kws ps x mon,
     Experiments_init (Subclass None) features kws ps x cases name wd v mon
       = Raise NotImplementedError).
Proof.
  intros Hm. split; [|split; [|split]].
  - intros features ps x kws Hshape.
    unfold DLRegressionExperiments_init, Experiments_init. simpl.
    destruct (DL.shape_of features (<["monitor" := m]> kws)); [|done]. simpl.
    eexists. split; [reflexivity|]. by simpl.
  - intros ps x kws. unfold TransformationExperiments_init, Experiments_init.
    simpl. eexists. split; [reflexivity|]. by simpl.
  - intros md. unfold Experiments_init. simpl.
    destruct m; try done; (eexists; split; [reflexivity|]; split; [done|]);
      intros data opt_method n include exclude cv post hpo_kws self' u;
      by apply dry_run_fit_without_monitor.
  - intros features kws ps x mon. by unfold Experiments_init.
Qed.

End FitResults.

(** ** Names in the plots *)

(** X18: [shred_model_name] undoes the naming of the variants: it takes the
    prefix [model_] and the suffix [Regressor] off a name, and a name that
    ends otherwise keeps its end; the result is never longer than the
    name. *)
Theorem shred_model_name_strips_prefix_and_suffix (base : string) :
  shred_model_name ("model_" +:+ base +:+ "Regressor") = base /\
  (endswith base "Regressor" = false -> shred_model_name ("model_" +:+ base) = base) /\
  (String.length (shred_model_name base) <= String.length base)%nat.
Proof.
  split; [|split].
  - unfold shred_model_name.
    assert (Hpre : startswith ("model_" +:+ base +:+ "Regressor") "model_" = true).
    { unfold startswith. simpl. by destruct (base +:+ "Regressor"). }
    rewrite Hpre.
    change (str_drop 6 ("model_" +:+ base +:+ "Regressor"))
      with (base +:+ "Regressor").
    rewrite endswith_app, str_length_app. simpl.
    replace (String.length base + 9 - 9)%nat with (String.length base) by lia.
    apply str_take_app.
  - intros Hend. unfold shred_model_name.
    assert (Hpre : startswith ("model_" +:+ base) "model_" = true).
    { unfold startswith. simpl. by destruct base. }
    rewrite Hpre. change (str_drop 6 ("model_" +:+ base)) with base.
    by rewrite Hend.
  - unfold shred_model_name.
    set (key := if startswith base "model_" then str_drop 6 base else base).
    assert (Hkey : (String.length key <= String.length base)%nat).
    { unfold key. destruct (startswith base "model_"); [|done].
      apply length_str_drop. }
    destruct (endswith key "Regressor"); [|done].
    pose proof (length_str_take (String.length key - 9) key). lia.
Qed.

(** The names of two variants as they are shown. *)
Lemma shred_model_name_strips_prefix_and_suffix_witness :
  shred_model_name "model_RandomForestRegressor" = "RandomForest" /\
  shred_model_name "model_MLP" = "MLP".
Proof.
  destruct (shred_model_name_strips_prefix_and_suffix "RandomForest") as (H1 & _ & _).
  destruct (shred_model_name_strips_prefix_and_suffix "MLP") as (_ & H2 & _).
  split; [exact H1|exact (H2 eq_refl)].
Defined.

(** ** Entries that are included *)

(** The body of the loop of [_consider_include]. *)
Definition pick {V} (to_filter : gmap string V) (filtered : list (string * V))
    (m : string) : list (string * V) :=
  match to_filter !! m with
  | Some v => setitem filtered m v
  | None => filtered
  end.

Section Include.
Context {collaborators : Collaborators}.
Context {V : Type} (to_filter : gmap string V).

Lemma foldl_pick l acc pre :
  NoDup (fst <$> acc) ->
  fst <$> acc `sublist_of` pre ->
  (forall m v, (m, v) ∈ acc <-> m ∈ pre /\ to_filter !! m = Some v) ->
  let filtered := foldl (pick to_filter) acc l in
  NoDup (fst <$> filtered) /\
  fst <$> filtered `sublist_of` pre ++ l /\
  forall m v, (m, v) ∈ filtered <-> m ∈ pre ++ l /\ to_filter !! m = Some v.
Proof.
  revert acc pre. induction l as [|x l IH]; intros acc pre Hnd Hsub Hspec; simpl.
  - by rewrite app_nil_r.
  - replace (pre ++ x :: l) with ((pre ++ [x]) ++ l) by (by rewrite <- app_assoc).
    apply IH; unfold pick.
    + destruct (to_filter !! x) as [v|]; [|done].
      destruct (decide (x ∈ fst <$> acc)) as [Hin|Hin].
      * by rewrite setitem_keys_old.
      * rewrite setitem_keys_new by done. apply NoDup_app. split_and!; try done.
        -- intros y Hy ->%list_elem_of_singleton. done.
        -- apply NoDup_singleton.
    + destruct (to_filter !! x) as [v|]; [|by apply sublist_inserts_r].
      destruct (decide (x ∈ fst <$> acc)) as [Hin|Hin].
      * rewrite setitem_keys_old by done. by apply sublist_inserts_r.
      * rewrite setitem_keys_new by done. by apply sublist_app.
    + intros m v. rewrite elem_of_app, list_elem_of_singleton.
      destruct (to_filter !! x) as [vx|] eqn:Hx.
      * rewrite elem_of_setitem, Hspec by done. split.
        -- intros [[-> ->]|[Hne [Hpre Hv]]]; [by split; [right|]|by split; [left|]].
        -- intros [[Hpre| ->] Hv].
           ++ destruct (decide (m = x)) as [->|Hne]; [left; split; [done|congruence]|].
              right. by split.
           ++ left. split; [done|congruence].
      * rewrite Hspec. split.
        -- intros [Hpre Hv]. by split; [left|].
        -- intros [[Hpre| ->] Hv]; [done|congruence].
Qed.

(** [_consider_include] only reads the object. *)
Lemma _consider_include_state include self self' filtered :
  _consider_include include to_filter self = (self', Ok filtered) -> self' = self.
Proof.
  unfold _consider_include. intros Hrun.
  apply sbind_ok in Hrun as (incl & s1 & Hincl & Hrun).
  apply _check_include_arg_ok in Hincl as (-> & _).
  by apply ret_ok in Hrun as [-> _].
Qed.

(** X16: [_consider_include] selects from a dictionary the entries of the
    included names: the result has each included name that is a key of the
    dictionary once, with the value the dictionary has for it, and no other
    entry; the entries come in the order in which the names were included;
    and the object is left as it was. *)
Theorem consider_include_selects_the_included_entries include self self' filtered :
  _consider_include include to_filter self = (self', Ok filtered) ->
  self' = self /\
  NoDup (fst <$> filtered) /\
  fst <$> filtered `sublist_of` included include self /\
  forall m v, (m, v) ∈ filtered <->
    m ∈ included include self /\ to_filter !! m = Some v.
Proof.
  unfold _consider_include. intros Hrun.
  apply sbind_ok in Hrun as (incl & s1 & Hincl & Hrun).
  apply _check_include_arg_ok in Hincl as (-> & -> & _).
  apply ret_ok in Hrun as [-> ->]. split; [done|].
  apply (foldl_pick (included include self) [] []).
  - constructor.
  - constructor.
  - intros m v. split; [by intros ?%elem_of_nil|by intros [?%elem_of_nil _]].
Qed.

End Include.

(** ** Scores that a plot forgets *)

Section CvScores.
Context {collaborators : Collaborators}.

(** The names that [exclude] denotes for [consider_exclude]. *)
Definition excluded (exclude : names_arg) : list string :=
  canonical <$> match exclude with
                | NoNames => []
                | OneName s => [s]
                | Names l => l
                end.

Lemma consider_exclude_cv_scores_excluded exclude :
  consider_exclude_cv_scores exclude = pop_cv_scores (excluded exclude).
Proof. by destruct exclude. Qed.

Lemma lookup_foldl_delete {A} (l : list string) (m : gmap string A) k :
  foldl (fun scores x => delete x scores) m l !! k
  = if bool_decide (k ∈ l) then None else m !! k.
Proof.
  revert m. induction l as [|x l IH]; intros m; simpl; [done|].
  rewrite IH. destruct (decide (k = x)) as [->|Hne].
  - rewrite lookup_delete_eq, (bool_decide_eq_true_2 (x ∈ x :: l)) by left.
    by destruct (bool_decide _).
  - rewrite lookup_delete_ne by done.
    destruct (decide (k ∈ l)) as [Hin|Hin].
    + rewrite !bool_decide_eq_true_2; [done|by right|done].
    + rewrite !bool_decide_eq_false_2; [done| |done].
      intros [?|?]%elem_of_cons; done.
Qed.

(** The state after the names were popped: only [cv_scores_] differs. *)
Lemma pop_cv_scores_ok l self self' u :
  pop_cv_scores l self = (self', Ok u) ->
  cv_scores_ self' = foldl (fun scores x => delete x scores) (cv_scores_ self) l /\
  Forall (fun x => x ∈ models self) l /\
  (l = [] -> self' = self) /\
  forall {T} (f : Experiments -> T),
    (forall v s, f (set_cv_scores_ v s) = f s) -> f self' = f self.
Proof.
  revert self. induction l as [|x l IH]; intros self; simpl.
  - intros Hrun. apply ret_ok in Hrun as [-> _]. split_and!; try done.
  - intros Hrun.
    apply sbind_ok in Hrun as (ms & s1 & Hms & Hrun). apply get_ok in Hms as [-> ->].
    apply sbind_ok in Hrun as (u1 & s1 & Hin & Hrun). apply lift_ok in Hin as [-> Hin].
    apply sbind_ok in Hrun as (sc & s1 & Hsc & Hrun). apply get_ok in Hsc as [-> ->].
    apply sbind_ok in Hrun as (u2 & s1 & Hdom & Hrun). apply lift_ok in Hdom as [-> Hdom].
    apply sbind_ok in Hrun as (u3 & s1 & Hmod & Hrun). apply modify_ok in Hmod as ->.
    destruct (IH _ Hrun) as (Hscores & Hmodels & _ & Hframe).
    split_and!; try done.
    + constructor; [|done]. unfold py_assert in Hin.
      by destruct (decide (x ∈ models self)) as [?|?];
        [|rewrite bool_decide_eq_false_2 in Hin].
    + intros T f Hf. by rewrite (Hframe T f Hf), Hf.
Qed.

(** X17: excluding a variant from the plot of the cross-validation scores
    removes its scores from the experiment.  [plot_cv_scores] hands the
    object's own table to [consider_exclude], which pops the excluded names
    from it; after a call that draws a plot the table has lost them, and
    the same exclusion cannot be asked for again: as long as scores are
    left, a second call with that [exclude] raises an AssertionError. *)
Theorem plot_cv_scores_forgets_the_excluded_scores name exclude include self self'
    plot :
  plot_cv_scores name exclude include self = (self', Ok (Some plot)) ->
  cv_scores_ self'
    = foldl (fun scores m => delete m scores) (cv_scores_ self) (excluded exclude) /\
  (forall m, m ∈ excluded exclude -> cv_scores_ self' !! m = None) /\
  (forall name' include',
     excluded exclude <> [] -> cv_scores_ self' <> ∅ ->
     plot_cv_scores name' exclude include' self' = (self', Raise AssertionError)).
Proof.
  unfold plot_cv_scores. intros Hrun.
  apply sbind_ok in Hrun as (sc & s1 & Hsc & Hrun). apply get_ok in Hsc as [-> ->].
  destruct (size (cv_scores_ self) =? 0)%nat eqn:Hsize;
    [by apply ret_ok in Hrun as [_ [=]]|].
  apply sbind_ok in Hrun as (scoring & s1 & Hscoring & Hrun).
  apply attr_ok in Hscoring as [-> Hscoring].
  apply sbind_ok in Hrun as (u1 & s1 & Hpop & Hrun).
  rewrite consider_exclude_cv_scores_excluded in Hpop.
  apply pop_cv_scores_ok in Hpop as (Hscores & Hmodels & _ & Hframe).
  apply sbind_ok in Hrun as (sc & s2 & Hsc & Hrun). apply get_ok in Hsc as [-> ->].
  apply sbind_ok in Hrun as (filtered & s2 & Hincl & Hrun).
  apply _consider_include_state in Hincl as ->.
  apply sbind_ok in Hrun as (names & s2 & Hnames & Hrun).
  apply lift_ok in Hnames as [-> _].
  apply sbind_ok in Hrun as (wd & s2 & Hwd & Hrun). apply get_ok in Hwd as [-> ->].
  apply sbind_ok in Hrun as (exp & s2 & Hexp & Hrun). apply get_ok in Hexp as [-> ->].
  apply ret_ok in Hrun as [-> _].
  assert (Hgone : forall m, m ∈ excluded exclude -> cv_scores_ s1 !! m = None).
  { intros m Hm. by rewrite Hscores, lookup_foldl_delete, bool_decide_eq_true_2. }
  split; [done|]. split; [done|].
  intros name' include' Hsome Hleft.
  unfold plot_cv_scores, sbind, get, attr.
  assert (Hsize' : (size (cv_scores_ s1) =? 0)%nat = false).
  { apply Nat.eqb_neq. intros Hzero. by apply map_size_empty_iff in Hzero. }
  rewrite Hsize'.
  rewrite (Hframe _ _cv_scoring ltac:(done)), Hscoring.
  rewrite consider_exclude_cv_scores_excluded.
  destruct (excluded exclude) as [|x rest] eqn:Hex; [done|].
  simpl. unfold sbind, get, lift.
  apply Forall_cons in Hmodels as [Hx _].
  rewrite (Hframe _ models ltac:(done)).
  rewrite bool_decide_eq_true_2 by done. simpl.
  rewrite bool_decide_eq_false_2; [done|].
  intros Hin. apply elem_of_dom in Hin as [v Hv].
  rewrite Hgone in Hv by left. done.
Qed.

End CvScores.

(** ** Runs on the concrete collaborators *)

Section MoreExamples.
Import Toy.


(** An experiment in which B is a builder method and a case as well, as
    the constructor builds it. *)
Definition with_case_B : @Experiments (toy []) :=
  {| cls := DLRegressionExperiments; exp_name := "exp";
     exp_path := "/home/results/exp"; cwd := "/home"; verbosity := 1;
     models := ["model_A"; "model_B"; "model_C"; "model_B"];
     cases := {["model_B" := ∅]};
     monitor := Some (Monitor regression); model_kws := Some ∅;
     param_space := None; x0 := None;
     eval_models := ∅; optimized_models := ∅; cv_scores_ := ∅;
     _cv_scoring := None; metrics := ∅; features := ∅; iter_metrics := ∅;
     model_iter_metric := ∅; iter_ := 0; model_ := None;
     optimizer := None; opt_results := None; files := ∅ |}.

Example init_with_case_B :
  DLRegressionExperiments_init (collaborators := toy []) [] None None
    [("B", ∅)] "exp" "/home" 1 ∅ = Ok with_case_B.
Proof. vm_compute. reflexivity. Qed.


(** A call with a run type that does not exist, and one that includes the
    unknown variant D: both are rejected and the object is as before. *)
Lemma fit_checks_its_arguments_first_witness :
  fit (collaborators := toy []) tt "grid_search" "random" 5 NoNames (OneName "")
    false "eval_best" ∅ fresh = (fresh, Raise AssertionError) /\
  fit (collaborators := toy []) tt "optimize" "random" 5 (Names ["D"])
    (OneName "") false "eval_best" ∅ fresh = (fresh, Raise AssertionError).
Proof.
  split.
  - apply (fit_checks_its_arguments_first (collaborators := toy []) tt
             "grid_search" "random" 5 NoNames (OneName "") false "eval_best" ∅
             fresh).
    left. intros Hin.
    repeat (apply elem_of_cons in Hin as [[=]|Hin]). by apply elem_of_nil in Hin.
  - apply (fit_checks_its_arguments_first (collaborators := toy []) tt
             "optimize" "random" 5 (Names ["D"]) (OneName "") false "eval_best" ∅
             fresh).
    right. right. exists "model_D". split.
    + simpl. apply list_elem_of_here.
    + simpl. intros Hin.
      repeat (apply elem_of_cons in Hin as [[=]|Hin]). by apply elem_of_nil in Hin.
Defined.

(** A directory with a checkpoint, for an experiment of a class that has
    no [build_from_config] of its own. *)
Definition one_checkpoint : list (string * checkpoint) :=
  [("1_x", {| ck_path := "/home/results/exp/A/1_x"; ck_weights := "w.hdf5" |})].

Definition with_checkpoint : @Experiments (toy one_checkpoint) :=
  experiment one_checkpoint (Subclass (Some regression)) regression ∅.

Lemma eval_best_needs_build_from_config_witness :
  eval_best (collaborators := toy one_checkpoint) tt "A" "/home/results/exp/A"
    with_checkpoint
  = (set_model_ (collaborators := toy one_checkpoint) None with_checkpoint,
     Raise NotImplementedError).
Proof.
  exact (eval_best_needs_build_from_config (collaborators := toy one_checkpoint)
           tt "A" "/home/results/exp/A" with_checkpoint (Some regression)
           ("1_x", {| ck_path := "/home/results/exp/A/1_x"; ck_weights := "w.hdf5" |})
           [] eq_refl eq_refl).
Defined.

(** Two models built in a row by an experiment whose model keywords ask
    for verbosity 5: the first is built with 5, the second with the
    default 0. *)
Definition verbose : @Experiments (toy []) :=
  experiment [] DLRegressionExperiments regression {["verbosity" := VInt 5]}.

Lemma verbosity_keyword_reaches_the_first_model_only_witness :
  exists self1 self2,
    _build (collaborators := toy []) "exp/A" ∅ verbose = (self1, Ok tt) /\
    _build (collaborators := toy []) "exp/B" ∅ self1 = (self2, Ok tt) /\
    model_kws self2 = Some ∅.
Proof.
  assert (H1 : _build (collaborators := toy []) "exp/A" ∅ verbose = ((_build (collaborators := toy []) "exp/A" ∅ verbose).1, Ok tt))
    by (vm_compute; reflexivity).
  assert (H2 : _build (collaborators := toy []) "exp/B" ∅ (_build (collaborators := toy []) "exp/A" ∅ verbose).1
               = ((_build (collaborators := toy []) "exp/B" ∅ (_build (collaborators := toy []) "exp/A" ∅ verbose).1).1, Ok tt))
    by (vm_compute; reflexivity).
  destruct (verbosity_keyword_reaches_the_first_model_only
              (collaborators := toy []) "exp/A" ∅ "exp/B" ∅ verbose _ _ tt tt H1 H2)
    as (kws & paras1 & paras2 & m1 & m2 & Hkws & _ & _ & _ & _ & Hkws2).
  injection Hkws as <-.
  eexists _, _. split; [exact H1|]. split; [exact H2|].
  rewrite Hkws2. reflexivity.
Defined.

(** The first trial of the search validated on [r2]: it is recorded
    under index 0 and the counter stands at 1. *)
Lemma trial_is_recorded_under_a_fresh_index_witness :
  exists self',
    (objective_fn (collaborators := toy []) tt false false "model_A" "A" ∅ r2_search).1 = self' /\
    dom (model_iter_metric self') = {[0]} /\ iter_ self' = 1.
Proof.
  assert (Hrun : objective_fn (collaborators := toy []) tt false false "model_A" "A" ∅ r2_search
                 = ((objective_fn (collaborators := toy []) tt false false "model_A" "A" ∅ r2_search).1,
                    Ok (Score (VFloat 0.25))))
    by (vm_compute; reflexivity).
  assert (Hbelow : forall k, k ∈ dom (model_iter_metric r2_search)
                             -> k < iter_ r2_search).
  { intros k Hk. by apply elem_of_dom in Hk as [? ?]. }
  destruct (trial_is_recorded_under_a_fresh_index (collaborators := toy [])
              tt false "model_A" "A" ∅ r2_search _ _ Hbelow Hrun)
    as (rec & v & _ & _ & Hrec & Hiter & _).
  eexists. split; [reflexivity|]. rewrite Hrec, Hiter.
  split; [|reflexivity]. rewrite dom_insert_L. set_solver.
Defined.

(** A dry run that includes A, C and B and excludes C registers A and
    B. *)
Definition dry_run_of_A_and_B : @Experiments (toy []) * result unit :=
  fit (collaborators := toy []) tt "dry_run" "bayes" 12 (Names ["A"; "C"; "B"])
    (Names ["model_C"]) false "eval_best" ∅ fresh.

Lemma fit_registers_the_included_variants_that_are_not_excluded_witness :
  exists self',
    dry_run_of_A_and_B = (self', Ok tt) /\
    dom (eval_models self') = {["model_A"; "model_B"]} /\
    dom (iter_metrics self') = {["model_A"; "model_B"]} /\
    dom (cv_scores_ self') = ∅.
Proof.
  unfold dry_run_of_A_and_B.
  match goal with
  | |- exists self', ?run = _ /\ _ =>
      assert (Hrun : run = (run.1, Ok tt)) by (vm_compute; reflexivity)
  end.
  assert (Hnodup : NoDup (included (collaborators := toy [])
                            (Names ["A"; "C"; "B"]) fresh)).
  { apply (bool_decide_unpack _). vm_compute. exact I. }
  destruct (fit_registers_the_included_variants_that_are_not_excluded
              (collaborators := toy []) tt "dry_run" "bayes" 12
              (Names ["A"; "C"; "B"]) (Names ["model_C"]) false "eval_best" ∅
              fresh _ tt Hnodup Hrun) as (He & Hi & Hc).
  eexists. split; [exact Hrun|]. rewrite He, Hi, Hc.
  assert (Hran : list_to_set (included (collaborators := toy [])
                                (Names ["A"; "C"; "B"]) fresh)
                 ∖ list_to_set (canonical <$> exclude_list (Names ["model_C"]))
                 = ({["model_A"; "model_B"]} : gset string)).
  { apply (bool_decide_unpack _). vm_compute. exact I. }
  split; [exact Hran|]. split; [exact Hran|reflexivity].
Defined.

(** An object that still holds the results of a variant Z from an
    earlier run. *)
Definition stale : @Experiments (toy []) :=
  set_metrics (collaborators := toy []) {["model_Z" := ∅]} fresh.

Lemma fit_keeps_no_results_of_earlier_runs_witness :
  exists self',
    fit (collaborators := toy []) tt "dry_run" "bayes" 12 (Names ["A"])
      (OneName "") false "eval_best" ∅ stale = (self', Ok tt) /\
    metrics self' !! "model_Z" = None.
Proof.
  match goal with
  | |- exists self', ?run = _ /\ _ =>
      assert (Hrun : run = (run.1, Ok tt)) by (vm_compute; reflexivity)
  end.
  destruct (fit_keeps_no_results_of_earlier_runs (collaborators := toy [])
              tt "dry_run" "bayes" 12 (Names ["A"]) (OneName "") false
              "eval_best" ∅ stale _ tt Hrun) as [_ Hkeys].
  eexists. split; [exact Hrun|].
  apply not_elem_of_dom. intros Hin.
  destruct (Hkeys _ Hin) as (variant & Hvar & name & Hname & Hkey).
  simpl in Hvar. apply list_elem_of_singleton in Hvar as ->.
  vm_compute in Hname. injection Hname as <-. discriminate Hkey.
Defined.

(** [DLRegressionExperiments(input_features=[...], monitor=["r2"])]
    monitors the default metrics; [monitor] is one of the keywords of the
    model. *)
Lemma explicit_monitor_is_never_bound_witness :
  exists self,
    DLRegressionExperiments_init (collaborators := toy [])
      ["tide_cm"; "wat_temp_c"] None None [] "exp" "/home" 1
      (<["monitor" := VList [VStr "r2"]]> ∅) = Ok self /\
    monitor self = Some (Monitor regression) /\
    model_kws self = Some {["monitor" := VList [VStr "r2"]]}.
Proof.
  assert (Hm : VList [VStr "r2"] <> VNone) by discriminate.
  destruct (explicit_monitor_is_never_bound (collaborators := toy [])
              (VList [VStr "r2"]) [] "exp" "/home" 1 Hm) as [Hdl _].
  exact (Hdl ["tide_cm"; "wat_temp_c"] None None ∅ eq_refl).
Defined.

(** The entries of A and C, asked for in the order C, A, B. *)
Lemma consider_include_selects_the_included_entries_witness :
  exists filtered,
    _consider_include (collaborators := toy []) (Names ["C"; "A"; "B"])
      (<["model_A" := 1]> {["model_C" := 3]}) fresh = (fresh, Ok filtered) /\
    fst <$> filtered = ["model_C"; "model_A"].
Proof.
  match goal with
  | |- exists filtered, ?run = _ /\ _ =>
      assert (Hrun : run = (run.1, Ok [("model_C", 3); ("model_A", 1)]))
        by (vm_compute; reflexivity)
  end.
  destruct (consider_include_selects_the_included_entries
              (collaborators := toy [])
              (<["model_A" := 1]> {["model_C" := 3]}) (Names ["C"; "A"; "B"])
              fresh _ _ Hrun) as (Hself & _).
  exists [("model_C", 3); ("model_A", 1)]. split; [|reflexivity].
  rewrite Hrun. by rewrite Hself.
Defined.

(** An experiment with the cross-validation scores of A, B and C. *)
Definition with_scores : @Experiments (toy []) :=
  set_cv_scoring (collaborators := toy []) (Some "mse")
    (set_cv_scores_ (collaborators := toy [])
       (<["model_A" := VList [VFloat 0.5]]>
        (<["model_B" := VList [VFloat 0.25]]>
         {["model_C" := VList [VFloat 0.75]]})) fresh).

Lemma plot_cv_scores_forgets_the_excluded_scores_witness :
  exists self' plot,
    plot_cv_scores (collaborators := toy []) "cv_scores" (OneName "B") NoNames
      with_scores = (self', Ok (Some plot)) /\
    dom (cv_scores_ self') = {["model_A"; "model_C"]} /\
    plot_cv_scores (collaborators := toy []) "cv_scores" (OneName "B") NoNames
      self' = (self', Raise AssertionError).
Proof.
  destruct (plot_cv_scores (collaborators := toy []) "cv_scores" (OneName "B")
              NoNames with_scores) as [self' [[plot|]|e]] eqn:Hrun;
    [|exfalso; revert Hrun; vm_compute; discriminate..].
  destruct (plot_cv_scores_forgets_the_excluded_scores (collaborators := toy [])
              "cv_scores" (OneName "B") NoNames with_scores self' plot Hrun)
    as (Hscores & _ & Hagain).
  assert (Hdom : dom (cv_scores_ self') = {["model_A"; "model_C"]}).
  { rewrite Hscores. simpl. rewrite dom_delete_L, !dom_insert_L, dom_singleton_L.
    apply set_eq. intros x. set_solver. }
  exists self', plot. split; [reflexivity|]. split; [exact Hdom|].
  apply Hagain; [discriminate|].
  intros Hempty. rewrite Hempty, dom_empty_L in Hdom.
  assert (Hin : "model_A" ∈ (∅ : gset string)) by (rewrite Hdom; set_solver).
  by apply elem_of_empty in Hin.
Defined.

End MoreExamples.
End ExpFacts.

(* ===================================================================== *)
(** * Properties of [sort_models_by_metric]                               *)
(* ===================================================================== *)

Module SortFacts.
Import Exp.

(** A metrics table with the r2 of three variants: 0.5, 0.75 and 0.25 on
    the test split. *)
Definition r2_row (train test : float) : gmap string (gmap string float) :=
  <["train" := {["r2" := train]}]> (<["test" := {["r2" := test]}]> ∅).

Definition table : gmap string (gmap string (gmap string float)) :=
  <["model_A" := r2_row 0.875 0.5]>
  (<["model_B" := r2_row 0.9375 0.75]>
  (<["model_C" := r2_row 0.625 0.25]> ∅)).

(** C6 fails on the code: a cutoff type other than [greater] is treated
    as [less], whatever it is.  With the cutoff 0.5 on the table above,
    [greater] keeps B and [less] keeps C, as they should; but
    [greater_equal] keeps C, not B and A, and [less_equal] keeps C, not A
    and C. *)
Theorem sort_models_by_metric_cutoff_types :
  (forall metrics metric_name cutoff_val cutoff_type ignore_nans sort_by,
      cutoff_type <> "greater" ->
      sort_models_by_metric metrics metric_name cutoff_val (Some cutoff_type)
        ignore_nans sort_by
      = sort_models_by_metric metrics metric_name cutoff_val (Some "less")
          ignore_nans sort_by) /\
  sort_models_by_metric table "r2" None None true "test"
    = Ok [("model_B", 0.9375, 0.75); ("model_A", 0.875, 0.5);
          ("model_C", 0.625, 0.25)]%float /\
  sort_models_by_metric table "r2" (Some 0.5%float) (Some "greater") true "test"
    = Ok [("model_B", 0.9375, 0.75)]%float /\
  sort_models_by_metric table "r2" (Some 0.5%float) (Some "less") true "test"
    = Ok [("model_C", 0.625, 0.25)]%float /\
  sort_models_by_metric table "r2" (Some 0.5%float) (Some "greater_equal") true "test"
    = Ok [("model_C", 0.625, 0.25)]%float /\
  sort_models_by_metric table "r2" (Some 0.5%float) (Some "less_equal") true "test"
    = Ok [("model_C", 0.625, 0.25)]%float.
Proof.
  split.
  - intros metrics metric_name cutoff_val cutoff_type ignore_nans sort_by Hne.
    unfold sort_models_by_metric.
    destruct (frame_rows _ _) as [df|e]; simpl; [|done].
    destruct (column_of sort_by) as [key|e]; simpl; [|done].
    destruct (py_assert _); simpl; [|done].
    by destruct (String.eqb_spec cutoff_type "greater").
  - repeat split; vm_compute; reflexivity.
Qed.

Import SpaceFacts (rbind_ok).

(** ** The rows that are returned *)

(** The rows of the frame are the entries of the table that have the
    metric on both splits. *)
Lemma frame_rows_spec metric_name entries df :
  frame_rows metric_name entries = Ok df ->
  fst <$> (fst <$> df) = fst <$> entries /\
  forall k tr te, (k, tr, te) ∈ df <->
    exists v, (k, v) ∈ entries /\
      v !! "train" ≫= (.!! metric_name) = Some tr /\
      v !! "test" ≫= (.!! metric_name) = Some te.
Proof.
  revert df. induction entries as [|[k v] rest IH]; intros df; simpl.
  - intros [= <-]. split; [done|]. intros k tr te. split.
    + by intros ?%elem_of_nil.
    + by intros (v & ?%elem_of_nil & _).
  - intros Hrun.
    apply rbind_ok in Hrun as (tr & Htr & Hrun).
    apply rbind_ok in Hrun as (te & Hte & Hrun).
    apply rbind_ok in Hrun as (rows & Hrows & [= <-]).
    destruct (IH _ Hrows) as [IHk IHr].
    destruct (v !! "train" ≫= (.!! metric_name)) as [tr'|] eqn:Htr'; [|done].
    destruct (v !! "test" ≫= (.!! metric_name)) as [te'|] eqn:Hte'; [|done].
    injection Htr as ->. injection Hte as ->.
    split; [by rewrite !fmap_cons, IHk|].
    intros k' tr' te'. rewrite elem_of_cons, IHr. split.
    + intros [[= -> -> ->]|(v' & Hin & H1 & H2)].
      * exists v. split; [left|done].
      * exists v'. split; [by right|done].
    + intros (v' & [[= -> ->]|Hin]%elem_of_cons & H1 & H2).
      * left. congruence.
      * right. by exists v'.
Qed.

Lemma eq_Permutation {A} (l1 l2 : list A) : l1 = l2 -> l1 ≡ₚ l2.
Proof. by intros ->. Qed.

Lemma filter_True {A} (l : list A) : filter (fun _ => true = true) l = l.
Proof.
  induction l as [|x l IH]; [done|].
  rewrite filter_cons_True by done. by rewrite IH.
Qed.

Lemma insert_desc_Permutation key r sorted : insert_desc key r sorted ≡ₚ r :: sorted.
Proof.
  induction sorted as [|y rest IH]; simpl; [done|].
  destruct (PrimFloat.ltb _ _); [done|]. rewrite IH. apply Permutation_swap.
Qed.

Lemma sort_desc_Permutation key rows : sort_desc key rows ≡ₚ rows.
Proof.
  unfold sort_desc.
  assert (Hsorted : forall l, foldr (insert_desc key) [] l ≡ₚ l).
  { induction l as [|r l IH]; simpl; [done|].
    by rewrite insert_desc_Permutation, IH. }
  rewrite Hsorted.
  rewrite <- (filter_app_complement
                (fun r => PrimFloat.is_nan (col key r) = false) rows) at 3.
  apply Permutation_app; [done|].
  apply eq_Permutation, list_filter_iff. intros r.
  by destruct (PrimFloat.is_nan (col key r)).
Qed.

(** Whether a row passes the filters of a call. *)
Definition qualifies (key : column) (cutoff_val : option float)
    (cutoff_type : option string) (ignore_nans : bool) (r : row) : bool :=
  (negb ignore_nans || negb (PrimFloat.is_nan r.1.2 || PrimFloat.is_nan r.2))
  && match cutoff_type, cutoff_val with
     | None, _ => true
     | Some t, Some c =>
         if String.eqb t "greater" then PrimFloat.ltb c (col key r)
         else PrimFloat.ltb (col key r) c
     | Some _, None => false
     end.

(** X19: [sort_models_by_metric] returns, in some order, exactly the
    variants of the metrics table that qualify, each once and with its
    values of the metric on the training and the test split: with
    [ignore_nans] neither value is NaN; with a cutoff the value in the
    sorted column is above the cutoff for [greater] and below it for any
    other cutoff type.  A variant without the metric makes the call raise
    a KeyError, and a call with a cutoff type and without a cutoff value
    does not return. *)
Theorem sort_models_by_metric_returns_the_rows_that_qualify metrics metric_name
    cutoff_val cutoff_type ignore_nans sort_by :
  (forall rows,
     sort_models_by_metric metrics metric_name cutoff_val cutoff_type
       ignore_nans sort_by = Ok rows ->
     exists key,
       column_of sort_by = Ok key /\
       NoDup (fst <$> (fst <$> rows)) /\
       forall k tr te, (k, tr, te) ∈ rows <->
         (exists v, metrics !! k = Some v /\
            v !! "train" ≫= (.!! metric_name) = Some tr /\
            v !! "test" ≫= (.!! metric_name) = Some te) /\
         qualifies key cutoff_val cutoff_type ignore_nans (k, tr, te) = true) /\
  ((exists k v, metrics !! k = Some v /\
      (v !! "train" ≫= (.!! metric_name) = None \/
       v !! "test" ≫= (.!! metric_name) = None)) ->
   sort_models_by_metric metrics metric_name cutoff_val cutoff_type
     ignore_nans sort_by = Raise KeyError) /\
  (is_Some cutoff_type -> cutoff_val = None ->
   forall rows,
     sort_models_by_metric metrics metric_name cutoff_val cutoff_type
       ignore_nans sort_by <> Ok rows).
Proof.
  split; [|split].
  - intros rows. unfold sort_models_by_metric. intros Hrun.
    apply rbind_ok in Hrun as (df & Hdf & Hrun).
    apply rbind_ok in Hrun as (key & Hkey & Hrun).
    exists key. split; [done|].
    destruct (frame_rows_spec _ _ _ Hdf) as [Hkeys Hrows].
    set (df' := if ignore_nans then dropna df else df) in *.
    assert (Hperm : rows ≡ₚ
              filter (fun r => qualifies key cutoff_val cutoff_type ignore_nans r = true) df).
    { assert (Hdf' : df' = filter (fun r : row =>
                (negb ignore_nans
                 || negb (PrimFloat.is_nan r.1.2 || PrimFloat.is_nan r.2)) = true) df).
      { unfold df', dropna. destruct ignore_nans; simpl.
        - apply list_filter_iff. intros r.
          destruct (PrimFloat.is_nan r.1.2), (PrimFloat.is_nan r.2); simpl;
            split; (done || by intros []).
        - symmetry. apply filter_True. }
      unfold qualifies.
      destruct cutoff_type as [t|].
      - apply rbind_ok in Hrun as (u & Hassert & Hrun).
        destruct cutoff_val as [c|]; [|done]. simpl in Hrun.
        destruct (String.eqb t "greater"); injection Hrun as <-;
          rewrite sort_desc_Permutation, Hdf', list_filter_filter;
          apply eq_Permutation, list_filter_iff; intros r;
          rewrite andb_true_iff; tauto.
      - injection Hrun as <-. rewrite sort_desc_Permutation, Hdf'.
        apply eq_Permutation, list_filter_iff. intros r.
        rewrite andb_true_iff. tauto. }
    split.
    + rewrite Hperm.
      assert (Hsub : fst <$> (fst <$> filter (fun r =>
                 qualifies key cutoff_val cutoff_type ignore_nans r = true) df)
               `sublist_of` fst <$> (fst <$> df))
        by apply fmap_sublist, fmap_sublist, sublist_filter.
      eapply sublist_NoDup; [|exact Hsub].
      rewrite Hkeys. apply NoDup_fst_map_to_list.
    + intros k tr te. rewrite Hperm, list_elem_of_filter, Hrows.
      setoid_rewrite elem_of_map_to_list. tauto.
  - intros (k & v & Hk & Hnone). unfold sort_models_by_metric.
    assert (Hfail : forall entries, (k, v) ∈ entries ->
              frame_rows metric_name entries = Raise KeyError).
    { induction entries as [|[k' v'] rest IH]; [by intros ?%elem_of_nil|].
      intros Hin. simpl.
      destruct (v' !! "train" ≫= (.!! metric_name)) as [tr|] eqn:Htr; [|done].
      destruct (v' !! "test" ≫= (.!! metric_name)) as [te|] eqn:Hte; [|done].
      simpl. apply elem_of_cons in Hin as [[= <- <-]|Hin].
      - destruct Hnone; congruence.
      - by rewrite IH. }
    rewrite Hfail; [done|]. by apply elem_of_map_to_list.
  - intros [t ->] -> rows. unfold sort_models_by_metric.
    destruct (frame_rows _ _); [|done]. simpl.
    destruct (column_of _); [|done]. simpl. done.
Qed.

(** On the table of the three variants, the cutoff 0.5 of type [greater]
    leaves B alone. *)
Lemma sort_models_by_metric_returns_the_rows_that_qualify_witness :
  exists rows,
    sort_models_by_metric table "r2" (Some 0.5%float) (Some "greater") true "test"
      = Ok rows /\
    NoDup (fst <$> (fst <$> rows)) /\
    ("model_B", 0.9375%float, 0.75%float) ∈ rows /\
    ("model_A", 0.875%float, 0.5%float) ∉ rows.
Proof.
  eexists.
  assert (Hrun : sort_models_by_metric table "r2" (Some 0.5%float)
                   (Some "greater") true "test" = Ok _)
    by (vm_compute; reflexivity).
  split; [exact Hrun|].
  destruct (sort_models_by_metric_returns_the_rows_that_qualify table "r2"
              (Some 0.5%float) (Some "greater") true "test") as (Hrows & _ & _).
  destruct (Hrows _ Hrun) as (key & Hkey & Hnodup & Hspec).
  injection Hkey as <-.
  split; [exact Hnodup|]. split.
  - apply Hspec. split; [|reflexivity].
    exists (r2_row 0.9375 0.75). by split; [|split].
  - intros Hin. apply Hspec in Hin as [_ Hq]. discriminate Hq.
Defined.

End SortFacts.
